(** * hybrid_pdf_parser.py: a shallow embedding of [HybridPDFParser] and [main]

    The program sends each PDF of a directory to a GROBID service and
    reads abstract and body out of the TEI answer; when the service gives
    no answer it reads the page texts with PyMuPDF and guesses the abstract
    from the first lines.  The external collaborators (the file system,
    the HTTP client, PyMuPDF, ElementTree's parser) are fields of an
    environment record; everything the Python code itself computes is
    a Rocq function below. *)

From Stdlib Require Import ZArith String Ascii List Lia DecimalString SpecFloat.
From stdpp Require Import gmap strings list.

Open Scope string_scope.
Open Scope list_scope.
Open Scope nat_scope.

(** ** Python [str] operations

    A [str] is a [string] with one [ascii] per code point (code points
    below 256); [len] is [String.length]. *)

Module PyStr.

(** [str.isspace] on one character, for the code points below 256:
    tab to carriage return, the four separators 28..31, space,
    NEL (133) and the no-break space (160). *)
Definition isspace (c : ascii) : bool :=
  let n := nat_of_ascii c in
  (((9 <=? n) && (n <=? 13)) || ((28 <=? n) && (n <=? 32))
   || (n =? 133) || (n =? 160))%nat.

(** Truth value of a [str] in a condition: non-empty. *)
Definition truthy (s : string) : bool :=
  match s with EmptyString => false | String _ _ => true end.

Fixpoint lstrip (s : string) : string :=
  match s with
  | EmptyString => EmptyString
  | String c s' => if isspace c then lstrip s' else s
  end.

Fixpoint rstrip (s : string) : string :=
  match s with
  | EmptyString => EmptyString
  | String c s' =>
      match rstrip s' with
      | EmptyString => if isspace c then EmptyString else String c EmptyString
      | r => String c r
      end
  end.

(** [s.strip()] *)
Definition strip (s : string) : string := rstrip (lstrip s).

(** [s.split(sep)] for a one-character separator: never the empty list. *)
Fixpoint split (sep : ascii) (s : string) : list string :=
  match s with
  | EmptyString => [EmptyString]
  | String c s' =>
      if Ascii.eqb c sep then EmptyString :: split sep s'
      else match split sep s' with
           | h :: t => String c h :: t
           | [] => [String c EmptyString]
           end
  end.

(** [sep.join(parts)] *)
Fixpoint join (sep : string) (parts : list string) : string :=
  match parts with
  | [] => EmptyString
  | [p] => p
  | p :: rest => p +:+ sep +:+ join sep rest
  end.

(** The line feed, ['\n']. *)
Definition LF : ascii := ascii_of_nat 10.

(** [s.rfind('.')]: index of the last dot, if any. *)
Fixpoint rfind_dot (s : string) : option nat :=
  match s with
  | EmptyString => None
  | String c s' =>
      match rfind_dot s' with
      | Some i => Some (S i)
      | None => if Ascii.eqb c "." then Some 0 else None
      end
  end.

(** [s[:i]] and [s[i:]] *)
Fixpoint prefix_to (i : nat) (s : string) : string :=
  match i, s with
  | S i', String c s' => String c (prefix_to i' s')
  | _, _ => EmptyString
  end.

Fixpoint suffix_from (i : nat) (s : string) : string :=
  match i, s with
  | S i', String _ s' => suffix_from i' s'
  | _, _ => s
  end.

End PyStr.

(** ** Paths

    A [pathlib.Path] as its directory part and its final component. *)

Record Path := mkPath { parent : string; name : string }.

(** [PurePath.suffix] and [PurePath.stem]: the name is cut at its last dot
    unless that dot is the first or the last character. *)
Definition suffix (p : Path) : string :=
  match PyStr.rfind_dot (name p) with
  | Some i =>
      if ((0 <? i) && (i <? String.length (name p) - 1))%nat
      then PyStr.suffix_from i (name p) else ""
  | None => ""
  end.

Definition stem (p : Path) : string :=
  match PyStr.rfind_dot (name p) with
  | Some i =>
      if ((0 <? i) && (i <? String.length (name p) - 1))%nat
      then PyStr.prefix_to i (name p) else name p
  | None => name p
  end.

(** ** Exceptions and results of external calls *)

(** The [Exception] subclasses the collaborators raise, and the one the
    division of the success rate raises on a zero divisor. *)
Inductive exn :=
| OSError (msg : string)              (* open(), disk *)
| ConnectionError (msg : string)      (* requests: network *)
| Timeout (msg : string)              (* requests: the 60 s bound *)
| ParseError (msg : string)           (* ElementTree *)
| FileDataError (msg : string)        (* PyMuPDF: not a document *)
| RuntimeError (msg : string)
| ZeroDivisionError.

Inductive result (A : Type) :=
| Return (a : A)
| Raise (e : exn).
Arguments Return {A} a.
Arguments Raise {A} e.

(** ** Data *)

(** ElementTree's [Element]: the tag in Clark notation, the text before
    the first child, the children, and the text after the end tag. *)
#[warning="-register-all"]
Inductive Element :=
| Elem (tag : string) (text : option string) (children : list Element)
       (tail : option string).

Definition tag (e : Element) : string := let (t, _, _, _) := e in t.
Definition text (e : Element) : option string := let (_, t, _, _) := e in t.
Definition children (e : Element) : list Element := let (_, _, c, _) := e in c.
Definition tail (e : Element) : option string := let (_, _, _, t) := e in t.

(** [requests.Response] *)
Record Response := mkResponse { status_code : Z; response_text : string }.

(** A page of a PyMuPDF document: what [page.get_text()] gives. *)
Record Page := mkPage { get_text : result string }.

Inductive Method := GROBID | PyMuPDF.

Definition method_str (m : Method) : string :=
  match m with GROBID => "GROBID" | PyMuPDF => "PyMuPDF" end.

(** The dict both extraction paths return. *)
Record ExtractedData := mkData { abstract : string; full_text : string }.

(** The dict [parse_article] returns. *)
Record ExtractionResult := mkResult {
  r_filename : string;
  r_title : string;
  r_abstract : string;
  r_full_text : string;
  r_abstract_length : nat;
  r_text_length : nat;
  r_method : Method
}.

(** The [stats] dict of [main]. *)
Record BatchStatistics := mkStats {
  total_files : nat;
  successful : nat;
  grobid_success : nat;
  pymupdf_success : nat;
  failed : nat;
  success_rate : string
}.

(** What [json.dump] has put into a file; [Incomplete] is a file that was
    opened for writing and whose [json.dump] raised before its end. *)
Inductive FileContent :=
| JsonResult (r : ExtractionResult)
| JsonResults (rs : list ExtractionResult)
| JsonStats (s : BatchStatistics)
| Incomplete.

(** The records handed to [logger]; one constructor per call site. *)
Inductive LogRecord :=
| ERROR_pymupdf (e : exn)
| WARNING_grobid_status (code : Z) (body : string)
| ERROR_grobid (p : Path) (e : exn)
| ERROR_xml (e : exn)
| INFO_processing (file : string)
| INFO_fallback (file : string)
| WARNING_no_text (file : string).

(** ** The environment *)

Record Env := mkEnv {
  (** [open(pdf_path, 'rb')]: the bytes of the file *)
  open_rb : Path -> result string;
  (** [requests.post(url, files=(name, f, mime), data=..., timeout=...)] *)
  requests_post :
    string -> string * string * string -> list (string * string) -> nat ->
    result Response;
  (** [fitz.open(pdf_path)]: the pages in order *)
  fitz_open : Path -> result (list Page);
  (** [ET.fromstring] *)
  ET_fromstring : string -> result Element;
  (** [list(input_dir.glob("*.pdf"))] *)
  glob_pdf : list Path
}.

(** ** Program state and the monad of the program

    The state the program changes: the log and the content of the
    output directory [extracted_articles], by file name.  Console
    printing and [time.sleep] are left out: nothing reads them back. *)

Record World := mkWorld {
  log : list LogRecord;
  out_dir : gmap string FileContent
}.

Definition M (A : Type) : Type := World -> result A * World.

Definition ret {A} (a : A) : M A := fun w => (Return a, w).

Definition bind {A B} (m : M A) (k : A -> M B) : M B :=
  fun w => match m w with
           | (Return a, w') => k a w'
           | (Raise e, w') => (Raise e, w')
           end.

(** An external call: its value, or its exception raised here. *)
Definition call {A} (r : result A) : M A := fun w => (r, w).

(** [try: body  except Exception as e: handler(e)] *)
Definition try_except {A} (body : M A) (handler : exn -> M A) : M A :=
  fun w => match body w with
           | (Return a, w') => (Return a, w')
           | (Raise e, w') => handler e w'
           end.

Definition logger (r : LogRecord) : M unit :=
  fun w => (Return tt, {| log := log w ++ [r]; out_dir := out_dir w |}).

(** [with open(output_dir / fname, 'w') as f: json.dump(c, f, ...)] on an
    output directory that takes every write.  The same lines on a file
    system whose calls can raise are [OnDisk.json_dump] below. *)
Definition json_dump (fname : string) (c : FileContent) : M unit :=
  fun w => (Return tt, {| log := log w; out_dir := <[fname := c]> (out_dir w) |}).

Declare Scope py_scope.
Delimit Scope py_scope with py.
Notation "'do' x <- m ; k" := (bind m (fun x => k))
  (at level 10, x name, m at level 100, k at level 200) : py_scope.
Notation "'run' m ; k" := (bind m (fun _ => k))
  (at level 10, m at level 100, k at level 200) : py_scope.
Open Scope py_scope.

(** ** class HybridPDFParser *)

Record HybridPDFParser := mkParser { grobid_url : string }.

(** [HybridPDFParser()]: the default [grobid_url]. *)
Definition default_parser : HybridPDFParser :=
  {| grobid_url := "http://localhost:8070" |}.

(** *** extract_text_with_pymupdf *)

(** The loop over the pages (lines 23-27): a page whose text is not all
    whitespace adds its text and a line feed. *)
Fixpoint page_loop (doc : list Page) (full_text : string) : M string :=
  match doc with
  | [] => ret full_text
  | page :: rest =>
      do text <- call (get_text page);
      if PyStr.truthy (PyStr.strip text)
      then page_loop rest (full_text +:+ text +:+ String PyStr.LF "")
      else page_loop rest full_text
  end.

(** The loop over [lines[:20]] (lines 36-41), with its [break]. *)
Fixpoint abstract_loop (lines : list string) (abstract : string) : string :=
  match lines with
  | [] => abstract
  | line :: rest =>
      let line := PyStr.strip line in
      if PyStr.truthy line && (50 <? String.length line) then
        let abstract := abstract +:+ line +:+ " " in
        if 500 <? String.length abstract then abstract
        else abstract_loop rest abstract
      else abstract_loop rest abstract
  end.

Definition extract_text_with_pymupdf (env : Env) (pdf_path : Path)
  : M ExtractedData :=
  try_except
    (do doc <- call (fitz_open env pdf_path);
     do full_text <- page_loop doc "";
     let lines := PyStr.split PyStr.LF full_text in
     let abstract := abstract_loop (take 20 lines) "" in
     ret {| abstract := PyStr.strip abstract;
            full_text := PyStr.strip full_text |})
    (fun e =>
       run logger (ERROR_pymupdf e);
       ret {| abstract := ""; full_text := "" |}).

(** *** parse_pdf_to_xml *)

Definition grobid_form : list (string * string) :=
  [("consolidateHeader", "1"); ("consolidateCitations", "1");
   ("generateIDs", "1"); ("includeRawCitations", "1");
   ("includeRawAffiliations", "1"); ("teiCoordinates", "1")].

Definition parse_pdf_to_xml (self : HybridPDFParser) (env : Env)
    (pdf_path : Path) : M (option string) :=
  try_except
    (do f <- call (open_rb env pdf_path);
     do response <-
       call (requests_post env
               (grobid_url self +:+ "/api/processFulltextDocument")
               (name pdf_path, f, "application/pdf") grobid_form 60);
     if (status_code response =? 200)%Z then ret (Some (response_text response))
     else
       run logger (WARNING_grobid_status (status_code response)
                                          (response_text response));
       ret None)
    (fun e => run logger (ERROR_grobid pdf_path e); ret None).

(** *** extract_text_from_element *)

(** [element.iter()]: the element, then its descendants, in document
    order. *)
Fixpoint iter (e : Element) : list Element :=
  e :: flat_map iter (children e).

(** The condition [elem.text and elem.text.strip()]. *)
Definition has_text (e : Element) : bool :=
  match text e with
  | Some t => PyStr.truthy t && PyStr.truthy (PyStr.strip t)
  | None => false
  end.

Definition stripped_text (e : Element) : string :=
  match text e with Some t => PyStr.strip t | None => "" end.

Definition extract_text_from_element (element : option Element) : string :=
  match element with
  | None => ""
  | Some element =>
      let text_parts := map stripped_text (List.filter has_text (iter element)) in
      PyStr.join " " text_parts
  end.

(** *** extract_from_xml *)

(** The namespace map [ns] applied to a prefixed name: [tei:x] is
    [{http://www.tei-c.org/ns/1.0}x]. *)
Definition tei (local : string) : string :=
  "{http://www.tei-c.org/ns/1.0}" +:+ local.

Definition has_tag (t : string) (e : Element) : bool := String.eqb (tag e) t.

(** ElementPath's step [//t] from a context element: the elements of
    [elem.iter(t)] other than the context itself. *)
Definition descendants (t : string) (e : Element) : list Element :=
  List.filter (has_tag t) (flat_map iter (children e)).

(** ElementPath's step [/t]: the children with that tag. *)
Definition child_step (t : string) (e : Element) : list Element :=
  List.filter (has_tag t) (children e).

(** [root.find('.//tei:profileDesc/tei:abstract', ns)] *)
Definition find_abstract (root : Element) : option Element :=
  head (flat_map (child_step (tei "abstract"))
                 (descendants (tei "profileDesc") root)).

(** [root.find('.//tei:body', ns)] *)
Definition find_body (root : Element) : option Element :=
  head (descendants (tei "body") root).

Definition extract_from_xml (env : Env) (xml_content : string)
  : M ExtractedData :=
  try_except
    (do root <- call (ET_fromstring env xml_content);
     let abstract := "" in
     let abstract_elem := find_abstract root in
     let abstract :=
       match abstract_elem with
       | Some _ => extract_text_from_element abstract_elem
       | None => abstract
       end in
     let full_text := "" in
     let body_elem := find_body root in
     let full_text :=
       match body_elem with
       | Some _ => extract_text_from_element body_elem
       | None => full_text
       end in
     ret {| abstract := abstract; full_text := full_text |})
    (fun e =>
       run logger (ERROR_xml e);
       ret {| abstract := ""; full_text := "" |}).

(** *** parse_article *)

(** Lines 124-133: GROBID first; PyMuPDF when [xml_content] is [None]
    or the empty string. *)
Definition extract_with_fallback (self : HybridPDFParser) (env : Env)
    (pdf_path : Path) : M (ExtractedData * Method) :=
  do xml_content <- parse_pdf_to_xml self env pdf_path;
  let pymupdf :=
    run logger (INFO_fallback (name pdf_path));
    do extracted_data <- extract_text_with_pymupdf env pdf_path;
    ret (extracted_data, PyMuPDF) in
  match xml_content with
  | Some xml =>
      if PyStr.truthy xml then
        do extracted_data <- extract_from_xml env xml;
        ret (extracted_data, GROBID)
      else pymupdf
  | None => pymupdf
  end.

Definition parse_article (self : HybridPDFParser) (env : Env)
    (pdf_path : Path) : M (option ExtractionResult) :=
  run logger (INFO_processing (name pdf_path));
  do em <- extract_with_fallback self env pdf_path;
  let extracted_data := fst em in
  let method := snd em in
  if negb (PyStr.truthy (abstract extracted_data))
     && negb (PyStr.truthy (full_text extracted_data))
  then
    run logger (WARNING_no_text (name pdf_path));
    ret None
  else
    let result :=
      {| r_filename := name pdf_path;
         r_title := stem pdf_path;
         r_abstract := abstract extracted_data;
         r_full_text := full_text extracted_data;
         r_abstract_length := String.length (abstract extracted_data);
         r_text_length := String.length (full_text extracted_data);
         r_method := method |} in
    ret (Some result).

(** ** main

    [loop_body], [main_loop] and [main] of this part are the program on an
    output directory that exists and takes every write; the calls to the
    file system that can raise are in [OnDisk] below, and a run that
    completes there is a run of [main] (lemma [main_completes]). *)

(** The running tallies of the loop. *)
Record Tally := mkTally {
  results : list ExtractionResult;
  t_grobid_success : nat;
  t_pymupdf_success : nat;
  t_failed : nat
}.

Definition article_filename (result : ExtractionResult) : string :=
  r_title result +:+ "_" +:+ method_str (r_method result) +:+ ".json".

(** The body of the [for] loop (lines 172-194). *)
Definition loop_body (parser : HybridPDFParser) (env : Env) (t : Tally)
    (pdf_path : Path) : M Tally :=
  do result <- parse_article parser env pdf_path;
  match result with
  | Some result =>
      let results := results t ++ [result] in
      let t' :=
        match r_method result with
        | GROBID =>
            {| results := results;
               t_grobid_success := t_grobid_success t + 1;
               t_pymupdf_success := t_pymupdf_success t;
               t_failed := t_failed t |}
        | PyMuPDF =>
            {| results := results;
               t_grobid_success := t_grobid_success t;
               t_pymupdf_success := t_pymupdf_success t + 1;
               t_failed := t_failed t |}
        end in
      run json_dump (article_filename result) (JsonResult result);
      ret t'
  | None =>
      ret {| results := results t;
             t_grobid_success := t_grobid_success t;
             t_pymupdf_success := t_pymupdf_success t;
             t_failed := t_failed t + 1 |}
  end.

Fixpoint main_loop (parser : HybridPDFParser) (env : Env)
    (pdf_files : list Path) (t : Tally) : M Tally :=
  match pdf_files with
  | [] => ret t
  | pdf_path :: rest =>
      do t' <- loop_body parser env t pdf_path;
      main_loop parser env rest t'
  end.

(** *** The success rate

    [len(results)/len(pdf_files)*100] is float arithmetic: the true
    division of two ints is the binary64 number nearest to the quotient,
    the product with [100] is rounded once more, and [:.1f] prints the
    decimal with one digit nearest to that binary64 number (ties to
    even).  The binary64 operations are those of [SpecFloat]. *)

Definition float_of_nat (n : nat) : spec_float :=
  match n with
  | O => S754_zero false
  | S _ => S754_finite false (Pos.of_nat n) 0
  end.

(** [a / b * 100] for two ints [a], [b]. *)
Definition percentage (a b : nat) : result spec_float :=
  match b with
  | O => Raise ZeroDivisionError
  | S _ =>
      Return (SFmul 53 1024 (SFdiv 53 1024 (float_of_nat a) (float_of_nat b))
                    (S754_finite false 100 0))
  end.

(** [n / d] rounded to the nearest integer, ties to even ([0 <= n], [0 < d]). *)
Definition div_half_even (n d : Z) : Z :=
  let q := (n / d)%Z in
  let r := (n mod d)%Z in
  match (2 * r ?= d)%Z with
  | Lt => q
  | Gt => (q + 1)%Z
  | Eq => if Z.even q then q else (q + 1)%Z
  end.

(** The number of tenths [:.1f] prints for [m * 2^e]. *)
Definition tenths (m : positive) (e : Z) : Z :=
  if (0 <=? e)%Z then (Z.pos m * 2 ^ e * 10)%Z
  else div_half_even (Z.pos m * 10) (2 ^ (- e)).

Definition decimal (z : Z) : string :=
  NilZero.string_of_uint (N.to_uint (Z.to_N z)).

(** [f"{x:.1f}"] *)
Definition format_1f (x : spec_float) : string :=
  match x with
  | S754_zero s => (if s then "-" else "") +:+ "0.0"
  | S754_finite s m e =>
      let t := tenths m e in
      (if s then "-" else "") +:+ decimal (t / 10) +:+ "." +:+ decimal (t mod 10)
  | S754_infinity s => if s then "-inf" else "inf"
  | S754_nan => "nan"
  end.

(** [f"{a/b*100:.1f}%"] *)
Definition success_rate_str (a b : nat) : result string :=
  match percentage a b with
  | Return x => Return (format_1f x +:+ "%")
  | Raise e => Raise e
  end.

Definition empty_tally : Tally :=
  {| results := []; t_grobid_success := 0; t_pymupdf_success := 0;
     t_failed := 0 |}.

Definition main (env : Env) : M unit :=
  let parser := default_parser in
  let pdf_files := glob_pdf env in
  do t <- main_loop parser env pdf_files empty_tally;
  match results t with
  | _ :: _ =>
      run json_dump "all_articles.json" (JsonResults (results t));
      do rate <- call (success_rate_str (length (results t)) (length pdf_files));
      let stats :=
        {| total_files := length pdf_files;
           successful := length (results t);
           grobid_success := t_grobid_success t;
           pymupdf_success := t_pymupdf_success t;
           failed := t_failed t;
           success_rate := rate |} in
      run json_dump "parsing_statistics.json" (JsonStats stats);
      ret tt
  | [] => ret tt
  end.

(** Running a computation from a world: its outcome and the world
    it leaves. *)
Definition outcome {A} (m : M A) (w : World) : result A := fst (m w).
Definition world_after {A} (m : M A) (w : World) : World := snd (m w).

Definition empty_world : World := {| log := []; out_dir := ∅ |}.

(** ** main on a file system whose calls can raise

    [json_dump], [loop_body], [main_loop] and [main] above are the program
    on an output directory that exists and takes every write.  In the
    source [output_dir.mkdir(exist_ok=True)] (line 156), [open(path, 'w')]
    and [json.dump] (lines 189-190, 200-201 and 214-215) are calls to the
    file system: they can raise, and [main] has no [try] around them.  The
    functions of [OnDisk] are the same lines with these calls made to a
    [FileSystem], each of which sees the directory as it stands. *)

Record FileSystem := mkFileSystem {
  (** [output_dir.mkdir(exist_ok=True)] *)
  mkdir : gmap string FileContent -> result unit;
  (** [open(output_dir / fname, 'w', encoding='utf-8')] *)
  open_w : gmap string FileContent -> string -> result unit;
  (** [json.dump(c, f, ensure_ascii=False, indent=2)] and the closing of [f] *)
  dump : gmap string FileContent -> string -> FileContent -> result unit
}.

Module OnDisk.

(** [with open(output_dir / fname, 'w') as f: json.dump(c, f, ...)] *)
Definition json_dump (fs : FileSystem) (fname : string) (c : FileContent)
  : M unit :=
  fun w =>
    match open_w fs (out_dir w) fname with
    | Raise e => (Raise e, w)
    | Return _ =>
        match dump fs (out_dir w) fname c with
        | Return _ =>
            (Return tt,
             {| log := log w; out_dir := <[fname := c]> (out_dir w) |})
        | Raise e =>
            (Raise e,
             {| log := log w; out_dir := <[fname := Incomplete]> (out_dir w) |})
        end
    end.

(** The body of the [for] loop (lines 172-194). *)
Definition loop_body (fs : FileSystem) (parser : HybridPDFParser) (env : Env)
    (t : Tally) (pdf_path : Path) : M Tally :=
  do result <- parse_article parser env pdf_path;
  match result with
  | Some result =>
      let results := results t ++ [result] in
      let t' :=
        match r_method result with
        | GROBID =>
            {| results := results;
               t_grobid_success := t_grobid_success t + 1;
               t_pymupdf_success := t_pymupdf_success t;
               t_failed := t_failed t |}
        | PyMuPDF =>
            {| results := results;
               t_grobid_success := t_grobid_success t;
               t_pymupdf_success := t_pymupdf_success t + 1;
               t_failed := t_failed t |}
        end in
      run json_dump fs (article_filename result) (JsonResult result);
      ret t'
  | None =>
      ret {| results := results t;
             t_grobid_success := t_grobid_success t;
             t_pymupdf_success := t_pymupdf_success t;
             t_failed := t_failed t + 1 |}
  end.

Fixpoint main_loop (fs : FileSystem) (parser : HybridPDFParser) (env : Env)
    (pdf_files : list Path) (t : Tally) : M Tally :=
  match pdf_files with
  | [] => ret t
  | pdf_path :: rest =>
      do t' <- loop_body fs parser env t pdf_path;
      main_loop fs parser env rest t'
  end.

Definition main (fs : FileSystem) (env : Env) : M unit :=
  let parser := default_parser in
  run (fun w => (mkdir fs (out_dir w), w));
  let pdf_files := glob_pdf env in
  do t <- main_loop fs parser env pdf_files empty_tally;
  match results t with
  | _ :: _ =>
      run json_dump fs "all_articles.json" (JsonResults (results t));
      do rate <- call (success_rate_str (length (results t)) (length pdf_files));
      let stats :=
        {| total_files := length pdf_files;
           successful := length (results t);
           grobid_success := t_grobid_success t;
           pymupdf_success := t_pymupdf_success t;
           failed := t_failed t;
           success_rate := rate |} in
      run json_dump fs "parsing_statistics.json" (JsonStats stats);
      ret tt
  | [] => ret tt
  end.

End OnDisk.

(** A file system that takes every call. *)
Definition fs_accepting : FileSystem :=
  {| mkdir := fun _ => Return tt;
     open_w := fun _ _ => Return tt;
     dump := fun _ _ _ => Return tt |}.

(** A file system that refuses to open names longer than 255 characters
    ([OSError], file name too long). *)
Definition fs_name_max : FileSystem :=
  {| mkdir := fun _ => Return tt;
     open_w := fun _ fname =>
       if 255 <? String.length fname then Raise (OSError "File name too long")
       else Return tt;
     dump := fun _ _ _ => Return tt |}.

(** ** Reference definitions used in the statements *)

(** The texts of the pages, or the first exception [get_text] raises. *)
Fixpoint read_pages (doc : list Page) : result (list string) :=
  match doc with
  | [] => Return []
  | page :: rest =>
      match get_text page with
      | Return text =>
          match read_pages rest with
          | Return texts => Return (text :: texts)
          | Raise e => Raise e
          end
      | Raise e => Raise e
      end
  end.

(** A page text that is not only whitespace. *)
Definition nonblank (text : string) : bool := PyStr.truthy (PyStr.strip text).

(** Each non-blank page text followed by a line feed, in page order. *)
Fixpoint pages_text (texts : list string) : string :=
  match texts with
  | [] => ""
  | text :: rest =>
      if nonblank text then text +:+ String PyStr.LF "" +:+ pages_text rest
      else pages_text rest
  end.

(** The reading of the heuristic path's [full_text] as the plain
    concatenation of the non-blank page texts. *)
Definition full_text_as_plain_concatenation (texts : list string) : string :=
  fold_right append "" (List.filter nonblank texts).

(** The empty extraction both paths fall back to. *)
Definition no_data : ExtractedData := {| abstract := ""; full_text := "" |}.

(** The request [parse_pdf_to_xml] sends for the file content [f]. *)
Definition grobid_request (self : HybridPDFParser) (env : Env) (p : Path)
    (f : string) : result Response :=
  requests_post env (grobid_url self +:+ "/api/processFulltextDocument")
                (name p, f, "application/pdf") grobid_form 60.

(** A world with more log records. *)
Definition add_log (w : World) (l : list LogRecord) : World :=
  {| log := log w ++ l; out_dir := out_dir w |}.

(** A computation that only appends to the log, and whose outcome and
    records do not depend on the world it starts from. *)
Definition writes_log_only {A} (m : M A) : Prop :=
  exists (r : result A) (l : list LogRecord), forall w, m w = (r, add_log w l).

(** What [parse_article] returns for a document. *)
Definition parse_result (self : HybridPDFParser) (env : Env) (p : Path)
  : option ExtractionResult :=
  match outcome (parse_article self env p) empty_world with
  | Return o => o
  | Raise _ => None
  end.

(** The successful results of a list of documents, in that order. *)
Definition successes (self : HybridPDFParser) (env : Env) (files : list Path)
  : list ExtractionResult :=
  omap (parse_result self env) files.

(** The output directory after the per-document files of [rs] are written
    one after the other. *)
Definition dump_each (dir : gmap string FileContent)
    (rs : list ExtractionResult) : gmap string FileContent :=
  foldl (fun d r => <[article_filename r := JsonResult r]> d) dir rs.

(** ** Statements about the success rate *)

(** The text [:.1f] and the percent sign give for [n] tenths. *)
Definition rate_of_tenths (n : Z) : string :=
  decimal (n / 10) +:+ "." +:+ decimal (n mod 10) +:+ "%".

(** [s] is [a / b] as a percentage with one decimal: the tenths it shows
    are within half a tenth of [1000 * a / b]. *)
Definition one_decimal_percentage (a b : nat) (s : string) : Prop :=
  exists n : Z,
    (0 <= n)%Z /\ s = rate_of_tenths n /\
    (2 * Z.abs (n * Z.of_nat b - 1000 * Z.of_nat a) <= Z.of_nat b)%Z.

(** The tenths [success_rate_str] shows, when it returns. *)
Definition shown_tenths (a b : nat) : option Z :=
  match percentage a b with
  | Return (S754_zero false) => Some 0%Z
  | Return (S754_finite false m e) => Some (tenths m e)
  | _ => None
  end.

(** *** Reading the binary64 operations

    [SFdiv] and [SFmul] round through shift records; the statements
    about them are on integers. *)

(** [num / den] lies at location [l] of the interval from [m] to
    [m + 1]. *)
Definition located (num den m : Z) (l : location) : Prop :=
  match l with
  | loc_Exact => (num = m * den)%Z
  | loc_Inexact Lt => (m * den < num /\ 2 * num < (2 * m + 1) * den)%Z
  | loc_Inexact Eq => (2 * num = (2 * m + 1) * den)%Z
  | loc_Inexact Gt => ((2 * m + 1) * den < 2 * num /\ num < (m + 1) * den)%Z
  end.

(** The float [f] is the number [m * 2 ^ e], not negative. *)
Definition float_is (f : spec_float) (m e : Z) : Prop :=
  (f = S754_zero false /\ m = 0%Z) \/
  (exists (p : positive) (k : Z),
     f = S754_finite false p (e + k) /\ (0 <= k <= 1)%Z /\
     (Z.pos p * 2 ^ k = m)%Z).

(** [s] shows a number of tenths within [1/2 + 2 ^ -42] of
    [1000 * a / b]: the nearest one, up to the room the two roundings of
    [a / b * 100] take. *)
Definition nearest_tenths_up_to_rounding (a b : nat) (s : string) : Prop :=
  exists n : Z,
    (0 <= n)%Z /\ s = rate_of_tenths n /\
    (2 ^ 41 * (2 * Z.abs (n * Z.of_nat b - 1000 * Z.of_nat a) - Z.of_nat b)
     <= Z.of_nat b)%Z.

(** ** Scripted environments for the examples *)

(** An environment whose files all open, whose service answers by file
    name, and whose documents are given by file name. *)
Definition scripted (service : string -> result Response)
    (parser : string -> result Element)
    (docs : string -> result (list Page)) (files : list Path) : Env :=
  {| open_rb := fun _ => Return "%PDF-1.4";
     requests_post := fun _ file _ _ => service (fst (fst file));
     fitz_open := fun p => docs (name p);
     ET_fromstring := parser;
     glob_pdf := files |}.

(** A TEI document with one paragraph of abstract and one of body. *)
Definition tei_doc (abs body : string) : Element :=
  Elem (tei "TEI") None
    [Elem (tei "teiHeader") None
       [Elem (tei "profileDesc") None
          [Elem (tei "abstract") None [Elem (tei "p") (Some abs) [] None] None]
          None]
       None;
     Elem (tei "text") None
       [Elem (tei "body") None [Elem (tei "p") (Some body) [] None] None]
       None]
    None.

Definition in_dir (file : string) : Path :=
  {| parent := "pages"; name := file |}.

(** Three documents: the service answers for the first two and is down
    for the third, which PyMuPDF cannot open either. *)
Definition env_two_of_three : Env :=
  scripted
    (fun file => if String.eqb file "c.pdf"
                 then Return (mkResponse 503 "unavailable")
                 else Return (mkResponse 200 "<TEI/>"))
    (fun _ => Return (tei_doc "Foo bar." "Hello world."))
    (fun _ => Raise (FileDataError "cannot open"))
    [in_dir "a.pdf"; in_dir "b.pdf"; in_dir "c.pdf"].

(** The successful results of a whole run. *)
Definition all_successes (env : Env) : list ExtractionResult :=
  successes default_parser env (glob_pdf env).

(** ** Statements about the heuristic abstract *)

(** The stripped lines the scan appends when it gets to them: those
    longer than 50 characters. *)
Definition qualifying (lines : list string) : list string :=
  List.filter (fun line => PyStr.truthy line && (50 <? String.length line))
              (map PyStr.strip lines).

(** Each line followed by a space. *)
Fixpoint buffer_of (lines : list string) : string :=
  match lines with
  | [] => ""
  | line :: rest => line +:+ " " +:+ buffer_of rest
  end.

(** The scan with the test and the append on the line as it stands in
    the text, not stripped. *)
Fixpoint abstract_loop_on_raw_lines (lines : list string) (abstract : string)
  : string :=
  match lines with
  | [] => abstract
  | line :: rest =>
      if PyStr.truthy line && (50 <? String.length line) then
        let abstract := abstract +:+ line +:+ " " in
        if 500 <? String.length abstract then abstract
        else abstract_loop_on_raw_lines rest abstract
      else abstract_loop_on_raw_lines rest abstract
  end.

(** A document of the given page texts, whatever the file. *)
Definition env_of_pages (texts : list string) : Env :=
  scripted (fun _ => Return (mkResponse 503 "unavailable"))
           (fun _ => Raise (ParseError "no element found"))
           (fun _ => Return (map (fun t => mkPage (Return t)) texts))
           [in_dir "paper.pdf"].

Definition fifty : string :=
  "aaaaaaaaaaaaaaaaaaaaaaaaaaaaaaaaaaaaaaaaaaaaaaaaaa".

(** A first line of 50 letters and a space, then a second line. *)
Definition padded_page : string :=
  fifty +:+ " " +:+ String PyStr.LF "end".

(** ** Scripted runs of the fallback *)

Definition paper : Path := in_dir "paper.pdf".

Definition readable_pages : list Page :=
  [mkPage (Return "Some text of the paper")].

(** The service answers 200 with a body that does not parse; PyMuPDF
    could read the document. *)
Definition env_malformed : Env :=
  scripted (fun _ => Return (mkResponse 200 "<TEI"))
           (fun _ => Raise (ParseError "unclosed token"))
           (fun _ => Return readable_pages)
           [paper].

(** The same document with the service down. *)
Definition env_unavailable : Env :=
  scripted (fun _ => Return (mkResponse 503 "unavailable"))
           (fun _ => Raise (ParseError "unclosed token"))
           (fun _ => Return readable_pages)
           [paper].

(** A document neither path can read. *)
Definition env_none_succeeds : Env :=
  scripted (fun _ => Return (mkResponse 503 "unavailable"))
           (fun _ => Raise (ParseError "no element found"))
           (fun _ => Raise (FileDataError "cannot open"))
           [paper].

(** ** Statements about the text of an element *)

Definition option_list (o : option string) : list string :=
  match o with Some t => [t] | None => [] end.

(** All the text fragments an element contains, in document order: its
    own text, then for each child the fragments of the child and the text
    that follows the child's end tag. *)
Fixpoint contained_fragments (e : Element) : list string :=
  option_list (text e)
  ++ flat_map (fun c => contained_fragments c ++ option_list (tail c))
              (children e).

(** The fragments that are not only whitespace, stripped and joined by
    spaces. *)
Definition contained_text (e : Element) : string :=
  PyStr.join " "
    (List.filter PyStr.truthy (map PyStr.strip (contained_fragments e))).

(** No text follows the end tag of any descendant. *)
Fixpoint no_tail_text (e : Element) : bool :=
  forallb (fun c => negb (PyStr.truthy
                            (PyStr.strip (default "" (tail c))))
                    && no_tail_text c)
          (children e).

(** A paragraph with a reference in the middle of its text:
    [<p>Hello <ref>x</ref> world</p>]. *)
Definition mixed_paragraph : Element :=
  Elem (tei "p") (Some "Hello ")
    [Elem (tei "ref") (Some "x") [] (Some " world")] None.

Definition mixed_body : Element := Elem (tei "body") None [mixed_paragraph] None.

Definition mixed_tei : Element :=
  Elem (tei "TEI") None [Elem (tei "text") None [mixed_body] None] None.

Definition env_mixed : Env :=
  scripted (fun _ => Return (mkResponse 200 "<TEI>"))
           (fun _ => Return mixed_tei)
           (fun _ => Raise (FileDataError "cannot open"))
           [paper].

(** Induction on an element with the property known of its children. *)
Fixpoint Element_children_ind (P : Element -> Prop)
    (step : forall t tx ch tl, Forall P ch -> P (Elem t tx ch tl))
    (e : Element) : P e :=
  match e with
  | Elem t tx ch tl =>
      step t tx ch tl
        ((fix all (l : list Element) : Forall P l :=
            match l with
            | [] => @List.Forall_nil _ P
            | c :: l' =>
                @List.Forall_cons _ P c l' (Element_children_ind P step c) (all l')
            end) ch)
  end.

(** A line of 80 letters. *)
Definition eighty : string := fifty +:+ "bbbbbbbbbbbbbbbbbbbbbbbbbbbbbb".

(** ** Statements about whitespace *)

(** The string does not begin with whitespace. *)
Definition starts_clean (s : string) : bool :=
  match s with
  | EmptyString => true
  | String c _ => negb (PyStr.isspace c)
  end.

(** The string does not end with whitespace. *)
Fixpoint ends_clean (s : string) : bool :=
  match s with
  | EmptyString => true
  | String c EmptyString => negb (PyStr.isspace c)
  | String _ s' => ends_clean s'
  end.

(** Every character is whitespace. *)
Fixpoint all_space (s : string) : bool :=
  match s with
  | EmptyString => true
  | String c s' => PyStr.isspace c && all_space s'
  end.

(** The character occurs in the string. *)
Fixpoint contains (c : ascii) (s : string) : bool :=
  match s with
  | EmptyString => false
  | String d s' => Ascii.eqb d c || contains c s'
  end.

(** The results of one method. *)
Definition with_method (m : Method) (rs : list ExtractionResult)
  : list ExtractionResult :=
  List.filter (fun r => match r_method r, m with
                        | GROBID, GROBID | PyMuPDF, PyMuPDF => true
                        | _, _ => false
                        end) rs.

(** The elements below the root, in document order: what [.//] ranges
    over. *)
Definition below (root : Element) : list Element :=
  flat_map iter (children root).

(** Three documents all read by PyMuPDF, the service being down. *)
Definition env_three_heuristic : Env :=
  scripted (fun _ => Return (mkResponse 503 "unavailable"))
           (fun _ => Raise (ParseError "no element found"))
           (fun _ => Return readable_pages)
           [in_dir "a.pdf"; in_dir "b.pdf"; in_dir "c.pdf"].

(** ** Statements about the log *)

(** The records [parse_pdf_to_xml] writes. *)
Definition service_record (r : LogRecord) : bool :=
  match r with
  | WARNING_grobid_status _ _ | ERROR_grobid _ _ => true
  | _ => false
  end.

(** The warning of a failed document. *)
Definition no_text_record (r : LogRecord) : bool :=
  match r with WARNING_no_text _ => true | _ => false end.

(** A lower bound of the length of the lines joined and stripped: the
    stripped lines that are not empty, with one separator between two of
    them. *)
Fixpoint span (lines : list string) : nat :=
  match lines with
  | [] => 0
  | line :: rest =>
      match String.length (PyStr.strip line), span rest with
      | 0, n => n
      | S m, 0 => S m
      | S m, S n => S m + 1 + S n
      end
  end.

(** A readable document whose stem has 250 characters; the service is
    down. *)
Definition long_stem : string :=
  fifty +:+ fifty +:+ fifty +:+ fifty +:+ fifty.

Definition env_long_name : Env :=
  scripted (fun _ => Return (mkResponse 503 "unavailable"))
           (fun _ => Raise (ParseError "no element found"))
           (fun _ => Return [mkPage (Return "Some text of the paper")])
           [in_dir (long_stem +:+ ".pdf")].

(** ** String facts *)

Section StringFacts.

Lemma append_cons (c : ascii) (s t : string) :
  String c s +:+ t = String c (s +:+ t).
Proof. reflexivity. Qed.

Lemma append_nil_l (s : string) : "" +:+ s = s.
Proof. reflexivity. Qed.

Lemma append_nil_r (s : string) : s +:+ "" = s.
Proof.
  induction s as [|c s IH]; [reflexivity|]. now rewrite append_cons, IH.
Qed.

Lemma append_assoc (s t u : string) : (s +:+ t) +:+ u = s +:+ (t +:+ u).
Proof.
  induction s as [|c s IH]; [reflexivity|]. now rewrite !append_cons, IH.
Qed.

Lemma length_append (s t : string) :
  String.length (s +:+ t) = String.length s + String.length t.
Proof.
  induction s as [|c s IH]; [reflexivity|].
  rewrite append_cons. simpl. now rewrite IH.
Qed.

Lemma truthy_true (s : string) : PyStr.truthy s = true <-> s <> "".
Proof. destruct s; simpl; split; congruence. Qed.

Lemma truthy_false (s : string) : PyStr.truthy s = false <-> s = "".
Proof. destruct s; simpl; split; congruence. Qed.

(** Two appends that agree, with right parts of the same length, agree
    part by part. *)
Lemma append_eq_length_r (s1 s2 t1 t2 : string) :
  s1 +:+ t1 = s2 +:+ t2 -> String.length t1 = String.length t2 ->
  s1 = s2 /\ t1 = t2.
Proof.
  revert s2. induction s1 as [|c s1 IH]; intros [|d s2] H L.
  - auto.
  - exfalso. apply (f_equal String.length) in H.
    rewrite !length_append in H. simpl in H. lia.
  - exfalso. apply (f_equal String.length) in H.
    rewrite !length_append in H. simpl in H. lia.
  - rewrite !append_cons in H. injection H as -> H.
    destruct (IH _ H L) as [-> ->]. auto.
Qed.

End StringFacts.

(** ** Running the monad *)

Ltac run_monad :=
  unfold outcome, world_after, try_except, bind, call, ret, logger, json_dump
    in *; simpl in *.

Section PageLoop.

Lemma page_loop_run (doc : list Page) (acc : string) (w : World) :
  page_loop doc acc w =
  (match read_pages doc with
   | Return texts => Return (acc +:+ pages_text texts)
   | Raise e => Raise e
   end, w).
Proof.
  revert acc. induction doc as [|page rest IH]; intros acc; simpl.
  - unfold ret. now rewrite append_nil_r.
  - unfold bind, call. destruct (get_text page) as [text|e]; [|reflexivity].
    destruct (PyStr.truthy (PyStr.strip text)) eqn:Hb; rewrite IH;
      destruct (read_pages rest) as [texts|e]; try reflexivity;
      simpl; unfold nonblank; rewrite Hb; [|reflexivity].
    now rewrite !append_assoc.
Qed.

Lemma read_pages_raises (doc : list Page) (page : Page) (e : exn) :
  In page doc -> get_text page = Raise e -> exists e', read_pages doc = Raise e'.
Proof.
  induction doc as [|q rest IH]; simpl; [tauto|].
  intros [->|Hin] He.
  - rewrite He. eauto.
  - destruct (get_text q); [|eauto].
    destruct (IH Hin He) as [e' ->]. eauto.
Qed.

Lemma read_pages_returns (doc : list Page) (texts : list string) :
  map get_text doc = map Return texts -> read_pages doc = Return texts.
Proof.
  revert texts. induction doc as [|q rest IH]; intros [|t texts] H;
    simpl in *; try discriminate; [reflexivity|].
  injection H as -> H. now rewrite (IH _ H).
Qed.

End PageLoop.

(** The three extraction operations always return, whatever the world. *)
Section Totality.

Variables (self : HybridPDFParser) (env : Env).

Lemma extract_text_with_pymupdf_run (p : Path) (w : World) :
  exists d w', extract_text_with_pymupdf env p w = (Return d, w').
Proof.
  unfold extract_text_with_pymupdf. run_monad.
  destruct (fitz_open env p) as [doc|e]; [|eauto].
  rewrite page_loop_run. destruct (read_pages doc); eauto.
Qed.

Lemma parse_pdf_to_xml_run (p : Path) (w : World) :
  exists x w', parse_pdf_to_xml self env p w = (Return x, w').
Proof.
  unfold parse_pdf_to_xml. run_monad.
  destruct (open_rb env p) as [f|e]; [|eauto].
  destruct (requests_post env _ _ _ _) as [resp|e]; [|eauto].
  destruct (status_code resp =? 200)%Z; eauto.
Qed.

Lemma extract_from_xml_run (xml : string) (w : World) :
  exists d w', extract_from_xml env xml w = (Return d, w').
Proof.
  unfold extract_from_xml. run_monad.
  destruct (ET_fromstring env xml) as [root|e]; eauto.
Qed.

Lemma extract_with_fallback_run (p : Path) (w : World) :
  exists d m w', extract_with_fallback self env p w = (Return (d, m), w').
Proof.
  unfold extract_with_fallback. unfold bind at 1.
  destruct (parse_pdf_to_xml_run p w) as (x & w1 & ->).
  assert (Hpy : forall w0, exists d m w',
    (run logger (INFO_fallback (name p));
     do extracted_data <- extract_text_with_pymupdf env p;
     ret (extracted_data, PyMuPDF)) w0 = (Return (d, m), w')).
  { intros w0. unfold bind at 1. simpl.
    unfold bind.
    destruct (extract_text_with_pymupdf_run p
      {| log := log w0 ++ [INFO_fallback (name p)]; out_dir := out_dir w0 |})
      as (d & w' & ->).
    unfold ret. eauto. }
  destruct x as [xml|]; [|apply Hpy].
  destruct (PyStr.truthy xml); [|apply Hpy].
  unfold bind. destruct (extract_from_xml_run xml w1) as (d & w' & ->).
  unfold ret. eauto.
Qed.

Lemma parse_article_run (p : Path) (w : World) :
  exists o w', parse_article self env p w = (Return o, w').
Proof.
  unfold parse_article. unfold bind at 1. simpl. unfold bind at 1.
  destruct (extract_with_fallback_run p
    {| log := log w ++ [INFO_processing (name p)]; out_dir := out_dir w |})
    as (d & m & w' & ->). simpl.
  destruct (negb _ && negb _); run_monad; eauto.
Qed.

End Totality.

(** ** Faults of the collaborators *)

Section Faults.

Variables (self : HybridPDFParser) (env : Env).

Lemma parse_pdf_to_xml_open_fails p e w :
  open_rb env p = Raise e ->
  outcome (parse_pdf_to_xml self env p) w = Return None.
Proof. intros H. unfold parse_pdf_to_xml. run_monad. now rewrite H. Qed.

Lemma parse_pdf_to_xml_post_fails p f e w :
  open_rb env p = Return f -> grobid_request self env p f = Raise e ->
  outcome (parse_pdf_to_xml self env p) w = Return None.
Proof.
  unfold grobid_request. intros H1 H2. unfold parse_pdf_to_xml. run_monad.
  now rewrite H1, H2.
Qed.

Lemma parse_pdf_to_xml_answer p f resp w :
  open_rb env p = Return f -> grobid_request self env p f = Return resp ->
  outcome (parse_pdf_to_xml self env p) w =
  Return (if (status_code resp =? 200)%Z then Some (response_text resp)
          else None).
Proof.
  unfold grobid_request. intros H1 H2. unfold parse_pdf_to_xml. run_monad.
  rewrite H1, H2. now destruct (status_code resp =? 200)%Z.
Qed.

Lemma extract_from_xml_malformed xml e w :
  ET_fromstring env xml = Raise e ->
  extract_from_xml env xml w =
  (Return no_data, {| log := log w ++ [ERROR_xml e]; out_dir := out_dir w |}).
Proof. intros H. unfold extract_from_xml. run_monad. now rewrite H. Qed.

Lemma extract_text_with_pymupdf_open_fails p e w :
  fitz_open env p = Raise e ->
  outcome (extract_text_with_pymupdf env p) w = Return no_data.
Proof.
  intros H. unfold extract_text_with_pymupdf. run_monad. now rewrite H.
Qed.

Lemma extract_text_with_pymupdf_read_fails p doc page e w :
  fitz_open env p = Return doc -> In page doc -> get_text page = Raise e ->
  outcome (extract_text_with_pymupdf env p) w = Return no_data.
Proof.
  intros H Hin He. unfold extract_text_with_pymupdf. run_monad.
  rewrite H, page_loop_run.
  destruct (read_pages_raises doc page e Hin He) as [e' ->]. reflexivity.
Qed.

(** C5. No fault of a collaborator leaves the three extraction
    operations as an exception: each of them returns a value from every
    environment and world; [parse_pdf_to_xml] returns [None] when the
    file cannot be opened, when the request raises (network error,
    timeout) and when the status is not 200; [extract_from_xml] returns
    the empty abstract and full text when the markup does not parse;
    [extract_text_with_pymupdf] returns them when the document cannot be
    opened or a page cannot be read. *)
Theorem faults_become_no_data (p : Path) (xml : string) (w : World) :
  (exists x, outcome (parse_pdf_to_xml self env p) w = Return x) /\
  (exists d, outcome (extract_from_xml env xml) w = Return d) /\
  (exists d, outcome (extract_text_with_pymupdf env p) w = Return d) /\
  (forall e, open_rb env p = Raise e ->
     outcome (parse_pdf_to_xml self env p) w = Return None) /\
  (forall f e, open_rb env p = Return f -> grobid_request self env p f = Raise e ->
     outcome (parse_pdf_to_xml self env p) w = Return None) /\
  (forall f resp, open_rb env p = Return f ->
     grobid_request self env p f = Return resp -> status_code resp <> 200%Z ->
     outcome (parse_pdf_to_xml self env p) w = Return None) /\
  (forall e, ET_fromstring env xml = Raise e ->
     outcome (extract_from_xml env xml) w = Return no_data) /\
  (forall e, fitz_open env p = Raise e ->
     outcome (extract_text_with_pymupdf env p) w = Return no_data) /\
  (forall doc page e, fitz_open env p = Return doc -> In page doc ->
     get_text page = Raise e ->
     outcome (extract_text_with_pymupdf env p) w = Return no_data).
Proof.
  repeat split.
  - destruct (parse_pdf_to_xml_run self env p w) as (x & w' & H).
    exists x. unfold outcome. now rewrite H.
  - destruct (extract_from_xml_run env xml w) as (d & w' & H).
    exists d. unfold outcome. now rewrite H.
  - destruct (extract_text_with_pymupdf_run env p w) as (d & w' & H).
    exists d. unfold outcome. now rewrite H.
  - intros e. apply parse_pdf_to_xml_open_fails.
  - intros f e. apply parse_pdf_to_xml_post_fails.
  - intros f resp H1 H2 Hs.
    rewrite (parse_pdf_to_xml_answer p f resp w H1 H2).
    destruct (Z.eqb_spec (status_code resp) 200); congruence.
  - intros e H. unfold outcome. now rewrite (extract_from_xml_malformed _ e).
  - intros e. apply extract_text_with_pymupdf_open_fails.
  - intros doc page e. apply extract_text_with_pymupdf_read_fails.
Qed.

End Faults.

(** ** Computations that only log *)

Section LogOnly.

Lemma add_log_nil w : add_log w [] = w.
Proof. destruct w. unfold add_log. simpl. now rewrite app_nil_r. Qed.

Lemma add_log_app w l1 l2 : add_log (add_log w l1) l2 = add_log w (l1 ++ l2).
Proof. unfold add_log. simpl. now rewrite app_assoc. Qed.

Lemma log_only_ret {A} (a : A) : writes_log_only (ret a).
Proof. exists (Return a), []. intros w. now rewrite add_log_nil. Qed.

Lemma log_only_call {A} (r : result A) : writes_log_only (call r).
Proof. exists r, []. intros w. now rewrite add_log_nil. Qed.

Lemma log_only_logger r : writes_log_only (logger r).
Proof. exists (Return tt), [r]. reflexivity. Qed.

Lemma log_only_bind {A B} (m : M A) (k : A -> M B) :
  writes_log_only m -> (forall a, writes_log_only (k a)) ->
  writes_log_only (bind m k).
Proof.
  intros (r & l & Hm) Hk. destruct r as [a|e].
  - destruct (Hk a) as (r' & l' & Hka). exists r', (l ++ l').
    intros w. unfold bind. now rewrite Hm, Hka, add_log_app.
  - exists (Raise e), l. intros w. unfold bind. now rewrite Hm.
Qed.

Lemma log_only_try_except {A} (body : M A) (handler : exn -> M A) :
  writes_log_only body -> (forall e, writes_log_only (handler e)) ->
  writes_log_only (try_except body handler).
Proof.
  intros (r & l & Hm) Hh. destruct r as [a|e].
  - exists (Return a), l. intros w. unfold try_except. now rewrite Hm.
  - destruct (Hh e) as (r' & l' & Hhe). exists r', (l ++ l').
    intros w. unfold try_except. now rewrite Hm, Hhe, add_log_app.
Qed.

Lemma log_only_page_loop doc acc : writes_log_only (page_loop doc acc).
Proof.
  eexists _, []. intros w. rewrite page_loop_run, add_log_nil. reflexivity.
Qed.

Create HintDb log_only.
Hint Resolve log_only_ret log_only_call log_only_logger log_only_page_loop
  : log_only.

Ltac log_only :=
  repeat first
    [ solve [auto with log_only]
    | apply log_only_bind; [|intros ?]
    | apply log_only_try_except; [|intros ?] ].

Variables (self : HybridPDFParser) (env : Env).

Lemma log_only_extract_text_with_pymupdf p :
  writes_log_only (extract_text_with_pymupdf env p).
Proof. unfold extract_text_with_pymupdf. log_only. Qed.

Lemma log_only_parse_pdf_to_xml p :
  writes_log_only (parse_pdf_to_xml self env p).
Proof.
  unfold parse_pdf_to_xml. log_only.
  destruct (status_code _ =? 200)%Z; log_only.
Qed.

Lemma log_only_extract_from_xml xml :
  writes_log_only (extract_from_xml env xml).
Proof. unfold extract_from_xml. log_only. Qed.

Hint Resolve log_only_extract_text_with_pymupdf log_only_parse_pdf_to_xml
  log_only_extract_from_xml : log_only.

Lemma log_only_extract_with_fallback p :
  writes_log_only (extract_with_fallback self env p).
Proof.
  unfold extract_with_fallback. log_only.
  match goal with |- context [match ?x with _ => _ end] => destruct x as [xml|] end;
    [destruct (PyStr.truthy xml)|]; log_only.
Qed.

Hint Resolve log_only_extract_with_fallback : log_only.

Lemma log_only_parse_article p :
  writes_log_only (parse_article self env p).
Proof.
  unfold parse_article. log_only.
  destruct (negb _ && negb _); log_only.
Qed.

(** [parse_article] returns [parse_result] from every world and leaves
    the output directory alone. *)
Lemma parse_article_result p :
  exists l, forall w,
    parse_article self env p w = (Return (parse_result self env p), add_log w l).
Proof.
  destruct (log_only_parse_article p) as (r & l & H).
  exists l. intros w. rewrite H. unfold parse_result, outcome.
  rewrite H. simpl.
  destruct (parse_article_run self env p w) as (o & w' & Ho).
  rewrite H in Ho. now injection Ho as -> _.
Qed.

Lemma parse_article_outcome p w :
  outcome (parse_article self env p) w = Return (parse_result self env p).
Proof.
  destruct (parse_article_result p) as (l & H). unfold outcome.
  now rewrite H.
Qed.

End LogOnly.

(** ** parse_article *)

Section ParseArticle.

Variables (self : HybridPDFParser) (env : Env).

(** What [parse_article] makes of the data the fallback step returned. *)
Lemma parse_article_of_data p w d m w1 :
  extract_with_fallback self env p
    (add_log w [INFO_processing (name p)]) = (Return (d, m), w1) ->
  outcome (parse_article self env p) w =
  Return
    (if negb (PyStr.truthy (abstract d)) && negb (PyStr.truthy (full_text d))
     then None
     else Some {| r_filename := name p; r_title := stem p;
                  r_abstract := abstract d; r_full_text := full_text d;
                  r_abstract_length := String.length (abstract d);
                  r_text_length := String.length (full_text d);
                  r_method := m |}).
Proof.
  intros H. unfold parse_article, outcome. unfold bind at 1. simpl.
  unfold bind at 1. unfold add_log in H. rewrite H. simpl.
  destruct (negb _ && negb _); reflexivity.
Qed.

(** The fields of an emitted result. *)
Lemma parse_result_fields p r :
  parse_result self env p = Some r ->
  r_filename r = name p /\ r_title r = stem p /\
  r_abstract_length r = String.length (r_abstract r) /\
  r_text_length r = String.length (r_full_text r) /\
  (r_abstract r <> "" \/ r_full_text r <> "").
Proof.
  unfold parse_result.
  destruct (extract_with_fallback_run self env p
              (add_log empty_world [INFO_processing (name p)]))
    as (d & m & w1 & H).
  rewrite (parse_article_of_data _ _ _ _ _ H).
  destruct (PyStr.truthy (abstract d)) eqn:Ha;
    destruct (PyStr.truthy (full_text d)) eqn:Hf; simpl;
    intros [= <-]; simpl; repeat split; auto;
    rewrite <- ?truthy_true; auto.
Qed.

End ParseArticle.

(** ** The loop of main *)

Section MainLoop.

Variables (parser : HybridPDFParser) (env : Env).

(** One turn of the loop: a result is appended, its method's tally is
    incremented and its file is written; or the failure tally is
    incremented and nothing is written. *)
Lemma loop_body_run t p w :
  exists t' l,
    loop_body parser env t p w =
    (Return t',
     {| log := log w ++ l;
        out_dir := match parse_result parser env p with
                   | Some r => <[article_filename r := JsonResult r]> (out_dir w)
                   | None => out_dir w
                   end |}) /\
    match parse_result parser env p with
    | Some r =>
        results t' = results t ++ [r] /\ t_failed t' = t_failed t /\
        t_grobid_success t' + t_pymupdf_success t' =
          S (t_grobid_success t + t_pymupdf_success t)
    | None =>
        results t' = results t /\ t_failed t' = S (t_failed t) /\
        t_grobid_success t' + t_pymupdf_success t' =
          t_grobid_success t + t_pymupdf_success t
    end.
Proof.
  destruct (parse_article_result parser env p) as (l & H).
  unfold loop_body, bind at 1. rewrite H.
  destruct (parse_result parser env p) as [r|].
  - eexists _, l. split; [reflexivity|].
    destruct (r_method r); simpl; repeat split; lia.
  - eexists _, l. split; [reflexivity|]. simpl. repeat split; lia.
Qed.

Lemma main_loop_run files : forall t w,
  exists t' l,
    main_loop parser env files t w =
    (Return t',
     {| log := log w ++ l;
        out_dir := dump_each (out_dir w) (successes parser env files) |}) /\
    results t' = results t ++ successes parser env files /\
    length (results t') + t_failed t' =
      length (results t) + t_failed t + length files /\
    t_grobid_success t' + t_pymupdf_success t' + length (results t) =
      t_grobid_success t + t_pymupdf_success t + length (results t').
Proof.
  induction files as [|p rest IH]; intros t w.
  - exists t, []. simpl. unfold ret. rewrite !app_nil_r.
    destruct w; repeat split; simpl; lia.
  - destruct (loop_body_run t p w) as (t1 & l1 & H1 & Ht1).
    destruct (IH t1 {| log := log w ++ l1;
                       out_dir := match parse_result parser env p with
                                  | Some r => <[article_filename r := JsonResult r]> (out_dir w)
                                  | None => out_dir w
                                  end |})
      as (t' & l' & H' & Hr & Hc & Hm).
    exists t', (l1 ++ l'). simpl main_loop. unfold bind. rewrite H1, H'.
    simpl. unfold successes in *. simpl omap.
    destruct (parse_result parser env p) as [r|];
      destruct Ht1 as (E1 & E2 & E3); rewrite E1 in *;
      rewrite ?length_app in *; simpl in *;
      rewrite <- ?app_assoc in *; repeat split; auto; lia.
Qed.

End MainLoop.

(** ** The success rate

    The binary64 operations read on integers. *)

Section FloatFacts.

Local Open Scope Z_scope.

Lemma digits2_pos_bounds p :
  2 ^ (Z.pos (digits2_pos p) - 1) <= Z.pos p < 2 ^ Z.pos (digits2_pos p).
Proof.
  induction p as [p IH|p IH|]; cbn [digits2_pos].
  - rewrite Pos2Z.inj_succ. change (Z.pos p~1) with (2 * Z.pos p + 1).
    replace (Z.succ (Z.pos (digits2_pos p)) - 1)
      with (Z.succ (Z.pos (digits2_pos p) - 1)) by lia.
    rewrite !Z.pow_succ_r by lia. lia.
  - rewrite Pos2Z.inj_succ. change (Z.pos p~0) with (2 * Z.pos p).
    replace (Z.succ (Z.pos (digits2_pos p)) - 1)
      with (Z.succ (Z.pos (digits2_pos p) - 1)) by lia.
    rewrite !Z.pow_succ_r by lia. lia.
  - simpl. lia.
Qed.

Lemma Zdigits2_nonneg m : 0 <= Zdigits2 m.
Proof. destruct m; simpl; lia. Qed.

Lemma Zdigits2_lt m : 0 <= m -> m < 2 ^ Zdigits2 m.
Proof.
  destruct m as [|p|p]; simpl Zdigits2; [simpl; lia| |lia].
  intros _. apply digits2_pos_bounds.
Qed.

Lemma Zdigits2_le m k : 0 <= m -> 0 <= k -> m < 2 ^ k -> Zdigits2 m <= k.
Proof.
  destruct m as [|p|p]; simpl Zdigits2; [lia| |lia].
  intros _ Hk Hm. pose proof (digits2_pos_bounds p) as [Hl _].
  destruct (Z.le_gt_cases (Z.pos (digits2_pos p)) k) as [|Hgt]; [assumption|].
  assert (2 ^ k <= 2 ^ (Z.pos (digits2_pos p) - 1))
    by (apply Z.pow_le_mono_r; lia).
  lia.
Qed.

Lemma located_range num den m l :
  0 < den -> located num den m l -> m * den <= num < (m + 1) * den.
Proof. destruct l as [|[]]; simpl; lia. Qed.

Lemma shr_record_of_loc_m m l : shr_m (shr_record_of_loc m l) = m.
Proof. destruct l as [|[]]; reflexivity. Qed.

Lemma shr_record_of_loc_loc m l :
  loc_of_shr_record (shr_record_of_loc m l) = l.
Proof. destruct l as [|[]]; reflexivity. Qed.

(** One shift to the right halves the unit and keeps the location. *)
Lemma shr_1_located num den mrs :
  0 < den -> 0 <= shr_m mrs ->
  located num den (shr_m mrs) (loc_of_shr_record mrs) ->
  0 <= shr_m (shr_1 mrs) /\
  located num (2 * den) (shr_m (shr_1 mrs)) (loc_of_shr_record (shr_1 mrs)).
Proof.
  destruct mrs as [m r s]. simpl shr_m at 1 2.
  intros Hd Hm. destruct m as [|[p|p|]|p]; [| | | |lia];
    destruct r, s; simpl;
    try change (Z.pos p~1) with (2 * Z.pos p + 1);
    try change (Z.pos p~0) with (2 * Z.pos p); lia.
Qed.

Lemma iter_shr_1_located p : forall num den mrs,
  0 < den -> 0 <= shr_m mrs ->
  located num den (shr_m mrs) (loc_of_shr_record mrs) ->
  0 <= shr_m (SpecFloat.iter_pos shr_1 p mrs) /\
  located num (2 ^ Z.pos p * den) (shr_m (SpecFloat.iter_pos shr_1 p mrs))
          (loc_of_shr_record (SpecFloat.iter_pos shr_1 p mrs)).
Proof.
  induction p as [p IH|p IH|]; intros num den mrs Hd Hm Hl;
    cbn [SpecFloat.iter_pos].
  - destruct (shr_1_located num den mrs Hd Hm Hl) as [H0 H1].
    assert (Hp : 0 < 2 ^ Z.pos p) by (apply Z.pow_pos_nonneg; lia).
    destruct (IH num (2 * den) _ ltac:(lia) H0 H1) as [H2 H3].
    destruct (IH num (2 ^ Z.pos p * (2 * den)) _ ltac:(lia) H2 H3)
      as [H4 H5].
    split; [exact H4|].
    replace (2 ^ Z.pos p~1 * den)
      with (2 ^ Z.pos p * (2 ^ Z.pos p * (2 * den))); [exact H5|].
    change (Z.pos p~1) with (2 * Z.pos p + 1).
    replace (2 * Z.pos p + 1) with (Z.pos p + Z.pos p + 1) by lia.
    rewrite !Z.pow_add_r by lia. rewrite Z.pow_1_r. ring.
  - assert (Hp : 0 < 2 ^ Z.pos p) by (apply Z.pow_pos_nonneg; lia).
    destruct (IH num den _ Hd Hm Hl) as [H2 H3].
    destruct (IH num (2 ^ Z.pos p * den) _ ltac:(lia) H2 H3) as [H4 H5].
    split; [exact H4|].
    replace (2 ^ Z.pos p~0 * den)
      with (2 ^ Z.pos p * (2 ^ Z.pos p * den)); [exact H5|].
    change (Z.pos p~0) with (2 * Z.pos p).
    replace (2 * Z.pos p) with (Z.pos p + Z.pos p) by lia.
    rewrite !Z.pow_add_r by lia. ring.
  - rewrite Z.pow_1_r. now apply shr_1_located.
Qed.

Lemma shr_located num den mrs e n :
  0 < den -> 0 <= shr_m mrs ->
  located num den (shr_m mrs) (loc_of_shr_record mrs) ->
  snd (shr mrs e n) = e + Z.max 0 n /\
  0 <= shr_m (fst (shr mrs e n)) /\
  located num (2 ^ Z.max 0 n * den) (shr_m (fst (shr mrs e n)))
          (loc_of_shr_record (fst (shr mrs e n))).
Proof.
  intros Hd Hm Hl. destruct n as [|p|p]; simpl shr; cbn [fst snd].
  - change (Z.max 0 0) with 0. rewrite Z.pow_0_r, Z.mul_1_l.
    repeat split; [lia|assumption|assumption].
  - replace (Z.max 0 (Z.pos p)) with (Z.pos p) by lia.
    split; [reflexivity|]. now apply iter_shr_1_located.
  - replace (Z.max 0 (Z.neg p)) with 0 by lia.
    rewrite Z.pow_0_r, Z.mul_1_l.
    repeat split; [lia|assumption|assumption].
Qed.

Lemma round_nearest_even_located num den m l :
  0 < den -> located num den m l ->
  m <= round_nearest_even m l <= m + 1 /\
  2 * Z.abs (round_nearest_even m l * den - num) <= den.
Proof.
  intros Hd. destruct l as [|[]]; simpl; [| |lia|lia].
  - intros ->. split; [lia|]. rewrite Z.sub_diag. simpl. lia.
  - destruct (Z.even m); lia.
Qed.

Lemma new_location_located q b r :
  0 < b -> 0 <= r < b -> located (b * q + r) b q (new_location b r).
Proof.
  intros Hb Hr. unfold new_location.
  destruct (Z.even b) eqn:Ev.
  - unfold new_location_even. destruct (Z.eqb_spec r 0) as [->|Hn].
    + simpl. lia.
    + destruct (Z.compare_spec (2 * r) b); simpl; lia.
  - unfold new_location_odd. destruct (Z.eqb_spec r 0) as [->|Hn].
    + simpl. lia.
    + assert (Ho : Z.odd b = true) by (rewrite <- Z.negb_even, Ev; reflexivity).
      apply Z.odd_spec in Ho as [c Hc].
      destruct (Z.compare_spec (2 * r + 1) b); simpl; lia.
Qed.

Lemma fexp_64 e : fexp 53 1024 e = Z.max (e - 53) (-1074).
Proof. reflexivity. Qed.

Lemma pow2_pos k : 0 <= k -> 0 < 2 ^ k.
Proof. intros. apply Z.pow_pos_nonneg; lia. Qed.

(** Rounding a located quotient to binary64. *)
Lemma binary_round_aux_located num den m e l :
  0 < den -> 0 <= m -> located num den m l ->
  e + Z.max 0 (fexp 53 1024 (Zdigits2 m + e) - e) + 1 <= 971 ->
  exists mr,
    0 <= mr /\
    2 * Z.abs (mr * (2 ^ Z.max 0 (fexp 53 1024 (Zdigits2 m + e) - e) * den)
               - num)
      <= 2 ^ Z.max 0 (fexp 53 1024 (Zdigits2 m + e) - e) * den /\
    float_is (binary_round_aux 53 1024 false m e l) mr
             (e + Z.max 0 (fexp 53 1024 (Zdigits2 m + e) - e)).
Proof.
  intros Hd Hm Hl. set (n := Z.max 0 (fexp 53 1024 (Zdigits2 m + e) - e)).
  intros He.
  assert (Hn : 0 <= n) by (unfold n; lia).
  assert (Hpn : 0 < 2 ^ n) by now apply pow2_pos.
  unfold binary_round_aux, shr_fexp.
  pose proof (shr_located num den (shr_record_of_loc m l) e
                (fexp 53 1024 (Zdigits2 m + e) - e) Hd) as H1.
  rewrite shr_record_of_loc_m, shr_record_of_loc_loc in H1.
  specialize (H1 Hm Hl). fold n in H1.
  destruct (shr (shr_record_of_loc m l) e
              (fexp 53 1024 (Zdigits2 m + e) - e)) as [mrs' e'].
  cbn [fst snd] in H1. destruct H1 as (-> & Hm' & Hl').
  set (m' := shr_m mrs') in *. set (l' := loc_of_shr_record mrs') in *.
  assert (Hden : 0 < 2 ^ n * den) by lia.
  destruct (round_nearest_even_located _ _ _ _ Hden Hl') as [Hr Herr].
  set (mr := round_nearest_even m' l') in *.
  (* the shifted mantissa has at most 53 digits *)
  assert (Hm53 : m' < 2 ^ 53).
  { pose proof (located_range _ _ _ _ Hden Hl') as [Hlo _].
    pose proof (located_range _ _ _ _ Hd Hl) as [_ Hhi].
    pose proof (Zdigits2_lt m Hm) as Hdig.
    pose proof (Zdigits2_nonneg m) as Hdn.
    assert (Hdn53 : Zdigits2 m <= n + 53)
      by (unfold n; rewrite fexp_64; lia).
    assert (Hpow : 2 ^ Zdigits2 m <= 2 ^ (n + 53))
      by (apply Z.pow_le_mono_r; lia).
    rewrite Z.pow_add_r in Hpow by lia.
    assert (m' * 2 ^ n < m + 1) by nia.
    nia. }
  assert (Hemin : -1074 <= e + n) by (unfold n; rewrite fexp_64; lia).
  exists mr. split; [lia|]. split; [exact Herr|].
  destruct (Z.eq_dec mr (2 ^ 53)) as [E53|N53].
  - (* the rounding carried into a 54th digit *)
    rewrite E53. change (Zdigits2 (2 ^ 53)) with 54.
    replace (fexp 53 1024 (54 + (e + n)) - (e + n)) with 1
      by (rewrite fexp_64; lia).
    cbn [shr SpecFloat.iter_pos shr_record_of_loc shr_1 shr_m].
    replace (e + n + 1 <=? 1024 - 53) with true by (symmetry; apply Z.leb_le; lia).
    right. exists (4503599627370496%positive), 1.
    split; [reflexivity|]. split; [lia|reflexivity].
  - assert (Hlt : mr < 2 ^ 53) by lia.
    assert (Hdr : Zdigits2 mr <= 53) by (apply Zdigits2_le; lia).
    assert (Hsh : fexp 53 1024 (Zdigits2 mr + (e + n)) - (e + n) <= 0)
      by (rewrite fexp_64; lia).
    assert (Es : shr (shr_record_of_loc mr loc_Exact) (e + n)
                     (fexp 53 1024 (Zdigits2 mr + (e + n)) - (e + n))
                 = (shr_record_of_loc mr loc_Exact, e + n)).
    { destruct (fexp 53 1024 (Zdigits2 mr + (e + n)) - (e + n));
        [reflexivity|lia|reflexivity]. }
    rewrite Es. cbn [shr_record_of_loc shr_m].
    destruct mr as [|p|p] eqn:Emr; [left; auto| |lia].
    replace (e + n <=? 1024 - 53) with true by (symmetry; apply Z.leb_le; lia).
    right. exists p, 0. rewrite Z.add_0_r.
    split; [reflexivity|]. split; [lia|]. rewrite Z.pow_0_r. lia.
Qed.


(** The quotient [SFdiv] rounds: the integer part of [a * 2 ^ s / b] and
    the location of the rest. *)
Lemma SFdiv_core_located a b :
  0 < a -> 0 < b ->
  exists q e' l,
    SFdiv_core_binary 53 1024 a 0 b 0 = (q, e', l) /\
    e' = Z.min (fexp 53 1024 (Zdigits2 a - Zdigits2 b)) 0 /\
    0 <= q /\ located (a * 2 ^ (- e')) b q l.
Proof.
  intros Ha Hb. unfold SFdiv_core_binary.
  rewrite !Z.add_0_r. change (0 - 0) with 0.
  set (e' := Z.min (fexp 53 1024 (Zdigits2 a - Zdigits2 b)) 0).
  assert (He : e' <= 0) by (unfold e'; lia).
  assert (Em : match 0 - e' with
               | 0 => a
               | Z.pos _ => Z.shiftl a (0 - e')
               | Z.neg _ => 0
               end = a * 2 ^ (- e')).
  { replace (0 - e') with (- e') by lia.
    destruct (- e') as [|p|p] eqn:E; [rewrite Z.pow_0_r; lia| |lia].
    apply Z.shiftl_mul_pow2. lia. }
  rewrite Em.
  assert (Hp : 0 < 2 ^ (- e')) by (apply pow2_pos; lia).
  pose proof (Z_div_mod (a * 2 ^ (- e')) b ltac:(lia)) as H.
  destruct (Z.div_eucl (a * 2 ^ (- e')) b) as [q r].
  destruct H as [Eq Hr].
  exists q, e', (new_location b r). split; [reflexivity|].
  split; [reflexivity|]. split; [nia|].
  rewrite Eq. now apply new_location_located.
Qed.

(** The quotient of two positive ints, the first not above the second:
    a multiple [mr] of [2 ^ - k1], with at least 52 binary places, within
    half a unit of the last place of [a / b]. *)
Lemma SFdiv_located (pa pb : positive) :
  Z.pos pa <= Z.pos pb ->
  exists mr k1,
    52 <= k1 /\ 0 <= mr <= 2 ^ k1 /\
    2 * Z.abs (mr * Z.pos pb - Z.pos pa * 2 ^ k1) <= Z.pos pb /\
    float_is (SFdiv 53 1024 (S754_finite false pa 0) (S754_finite false pb 0))
             mr (- k1).
Proof.
  intros Hab. cbn [SFdiv xorb].
  destruct (SFdiv_core_located (Z.pos pa) (Z.pos pb)) as
    (q & e' & l & -> & He' & Hq & Hl); [lia|lia|].
  set (a := Z.pos pa) in *. set (b := Z.pos pb) in *.
  assert (Hb : 0 < b) by (unfold b; lia).
  assert (Ha : 0 < a) by (unfold a; lia).
  (* the exponent of the quotient *)
  assert (Hda : Zdigits2 a <= Zdigits2 b).
  { apply Zdigits2_le; [lia|apply Zdigits2_nonneg|].
    pose proof (Zdigits2_lt b). lia. }
  assert (He53 : e' <= -53) by (rewrite He', fexp_64; lia).
  assert (Hp : 0 < 2 ^ (- e')) by (apply pow2_pos; lia).
  assert (Hqd : Zdigits2 q <= - e' + 1).
  { apply Zdigits2_le; [lia|lia|].
    pose proof (located_range _ _ _ _ Hb Hl) as [Hlo _].
    rewrite Z.pow_add_r, Z.pow_1_r by lia.
    assert (q * b <= b * 2 ^ (- e')) by nia.
    assert (q <= 2 ^ (- e')) by nia. lia. }
  set (n := Z.max 0 (fexp 53 1024 (Zdigits2 q + e') - e')).
  assert (Hn : 0 <= n) by (unfold n; lia).
  assert (HE1 : e' + n <= -52) by (unfold n; rewrite fexp_64; lia).
  destruct (binary_round_aux_located _ _ _ e' _ Hb Hq Hl) as
    (mr & Hmr & Herr & Hf); [fold n; lia|].
  fold n in Herr, Hf.
  assert (Hpn : 0 < 2 ^ n) by now apply pow2_pos.
  exists mr, (- (e' + n)).
  assert (Hk : 0 <= - (e' + n)) by lia.
  assert (Hpk : 0 < 2 ^ (- (e' + n))) by now apply pow2_pos.
  assert (Epow : 2 ^ (- e') = 2 ^ (- (e' + n)) * 2 ^ n).
  { rewrite <- Z.pow_add_r by lia. f_equal. lia. }
  rewrite Epow in Herr.
  replace (mr * (2 ^ n * b) - a * (2 ^ (- (e' + n)) * 2 ^ n))
    with (2 ^ n * (mr * b - a * 2 ^ (- (e' + n)))) in Herr by ring.
  rewrite Z.abs_mul, (Z.abs_eq (2 ^ n)) in Herr by lia.
  assert (Herr' : 2 * Z.abs (mr * b - a * 2 ^ (- (e' + n))) <= b) by nia.
  split; [lia|]. split; [|split; [exact Herr'|]].
  - split; [exact Hmr|].
    assert (mr * b <= b * 2 ^ (- (e' + n)) + b) by nia.
    assert (mr * b < b * (2 ^ (- (e' + n)) + 1)) by nia.
    nia.
  - replace (- - (e' + n)) with (e' + n) by lia. exact Hf.
Qed.

(** The product with 100 of a float not above one. *)
Lemma SFmul_100_located f mr k1 :
  52 <= k1 -> 0 <= mr <= 2 ^ k1 -> float_is f mr (- k1) ->
  exists mr2 k2 j,
    46 <= k2 /\ 0 <= j /\ k1 = k2 + j /\ 0 <= mr2 /\
    2 * Z.abs (mr2 * 2 ^ j - 100 * mr) <= 2 ^ j /\
    float_is (SFmul 53 1024 f (S754_finite false 100 0)) mr2 (- k2).
Proof.
  intros Hk1 Hmr [[-> ->]|(p & k & -> & Hk & Hp)].
  - exists 0, k1, 0. cbn [SFmul xorb].
    repeat split; try lia. now left.
  - cbn [SFmul xorb]. rewrite Z.add_0_r.
    set (e := - k1 + k). set (m := Z.pos (p * 100)).
    assert (Hm : m = 100 * Z.pos p) by (unfold m; lia).
    assert (Hpk : 0 < 2 ^ k) by (apply pow2_pos; lia).
    assert (Hke : 0 <= - e) by (unfold e; lia).
    assert (Hpe : 0 < 2 ^ (- e)) by now apply pow2_pos.
    assert (Epow : 2 ^ k1 = 2 ^ (- e) * 2 ^ k).
    { rewrite <- Z.pow_add_r by lia. f_equal. unfold e. lia. }
    assert (Hple : Z.pos p <= 2 ^ (- e)) by nia.
    assert (Hd : Zdigits2 m <= - e + 7).
    { apply Zdigits2_le; [lia|lia|].
      rewrite Z.pow_add_r by lia. change (2 ^ 7) with 128. lia. }
    set (n := Z.max 0 (fexp 53 1024 (Zdigits2 m + e) - e)).
    assert (Hn : 0 <= n) by (unfold n; lia).
    assert (HE2 : e + n <= -46) by (unfold n, e; rewrite fexp_64; lia).
    destruct (binary_round_aux_located m 1 m e loc_Exact) as
      (mr2 & Hmr2 & Herr & Hf); [lia|lia|simpl; lia|fold n; lia|].
    fold n in Herr, Hf. rewrite Z.mul_1_r in Herr.
    assert (Hpn : 0 < 2 ^ n) by now apply pow2_pos.
    exists mr2, (- (e + n)), (k + n).
    split; [lia|]. split; [lia|]. split; [unfold e; lia|].
    split; [exact Hmr2|]. split.
    + rewrite Z.pow_add_r by lia. rewrite <- Hp, Hm in *.
      replace (mr2 * (2 ^ k * 2 ^ n) - 100 * (Z.pos p * 2 ^ k))
        with (2 ^ k * (mr2 * 2 ^ n - 100 * Z.pos p)) by ring.
      rewrite Z.abs_mul, (Z.abs_eq (2 ^ k)) by lia. nia.
    + replace (- - (e + n)) with (e + n) by lia. exact Hf.
Qed.

Lemma div_half_even_located n d :
  0 <= n -> 0 < d ->
  0 <= div_half_even n d /\ 2 * Z.abs (div_half_even n d * d - n) <= d.
Proof.
  intros Hn Hd. unfold div_half_even.
  pose proof (Z.div_mod n d ltac:(lia)) as E.
  pose proof (Z.mod_pos_bound n d Hd) as Hr.
  assert (Hq : 0 <= n / d) by (apply Z.div_pos; lia).
  destruct (Z.compare_spec (2 * (n mod d)) d) as [H|H|H];
    [destruct (Z.even (n / d))| |]; split; lia.
Qed.

(** The three roundings together. *)
Lemma tenths_bound a b mr k1 mr2 k2 j n :
  0 < b -> 52 <= k1 -> 46 <= k2 -> 0 <= j -> k1 = k2 + j ->
  2 * Z.abs (mr * b - a * 2 ^ k1) <= b ->
  2 * Z.abs (mr2 * 2 ^ j - 100 * mr) <= 2 ^ j ->
  2 * Z.abs (n * 2 ^ k2 - 10 * mr2) <= 2 ^ k2 ->
  2 ^ 41 * (2 * Z.abs (n * b - 1000 * a) - b) <= b.
Proof.
  intros Hb Hk1 Hk2 Hj -> H1 H2 H3.
  rewrite Z.pow_add_r in H1 by lia.
  assert (HJ : 0 < 2 ^ j) by now apply pow2_pos.
  assert (HP2 : 2 ^ 46 <= 2 ^ k2) by (apply Z.pow_le_mono_r; lia).
  assert (HP1 : 2 ^ 52 <= 2 ^ k2 * 2 ^ j).
  { rewrite <- Z.pow_add_r by lia. apply Z.pow_le_mono_r; lia. }
  set (P2 := 2 ^ k2) in *. set (J := 2 ^ j) in *.
  set (X := n * b - 1000 * a).
  set (u := n * P2 - 10 * mr2) in *.
  set (v := mr2 * J - 100 * mr) in *.
  set (t := mr * b - a * (P2 * J)) in *.
  assert (E : P2 * J * X = b * J * u + 10 * b * v + 1000 * t)
    by (unfold X, u, v, t; ring).
  assert (Hu : 2 * Z.abs (b * J * u) <= b * J * P2).
  { rewrite !Z.abs_mul, (Z.abs_eq b), (Z.abs_eq J) by lia. nia. }
  assert (Hv : 2 * Z.abs (10 * b * v) <= 10 * b * J).
  { rewrite !Z.abs_mul, (Z.abs_eq b) by lia. change (Z.abs 10) with 10. nia. }
  assert (Ht : 2 * Z.abs (1000 * t) <= 1000 * b).
  { rewrite Z.abs_mul. change (Z.abs 1000) with 1000. lia. }
  assert (HX : 2 * Z.abs (P2 * J * X) <= b * J * P2 + 10 * b * J + 1000 * b).
  { rewrite E. lia. }
  rewrite !Z.abs_mul, (Z.abs_eq P2), (Z.abs_eq J) in HX by lia.
  set (Y := 2 * Z.abs X - b).
  assert (HY : P2 * J * Y <= b * (10 * J + 1000)) by (unfold Y; nia).
  destruct (Z.le_gt_cases Y 0) as [Hneg|Hpos]; [fold X Y; lia|].
  assert (HA : 2 ^ 46 * J <= P2 * J)
    by (apply Z.mul_le_mono_nonneg_r; lia).
  assert (Hc : 2 ^ 41 * (10 * J + 1000) <= P2 * J) by lia.
  assert (HK : 0 < 10 * J + 1000) by lia.
  assert (Hd : 2 ^ 41 * (10 * J + 1000) * Y <= P2 * J * Y)
    by (apply Z.mul_le_mono_nonneg_r; lia).
  fold X Y. apply (Z.mul_le_mono_pos_r _ _ (10 * J + 1000) HK).
  replace (2 ^ 41 * Y * (10 * J + 1000))
    with (2 ^ 41 * (10 * J + 1000) * Y) by ring.
  lia.
Qed.

Lemma Zpos_of_nat_S n : Z.pos (Pos.of_nat (S n)) = Z.of_nat (S n).
Proof. rewrite <- Pos.of_nat_succ. lia. Qed.

(** The tenths shown for [a / b * 100], for every [a <= b]. *)
Lemma shown_tenths_close (a b : nat) :
  (0 < b)%nat -> (a <= b)%nat ->
  exists n,
    shown_tenths a b = Some n /\ 0 <= n /\
    2 ^ 41 * (2 * Z.abs (n * Z.of_nat b - 1000 * Z.of_nat a) - Z.of_nat b)
      <= Z.of_nat b.
Proof.
  intros Hb Hab. destruct b as [|b']; [lia|].
  unfold shown_tenths, percentage.
  destruct a as [|a'].
  - exists 0. cbn. split; [reflexivity|]. lia.
  - cbn [float_of_nat].
    destruct (SFdiv_located (Pos.of_nat (S a')) (Pos.of_nat (S b'))) as
      (mr & k1 & Hk1 & Hmr & Herr1 & Hf1); [rewrite !Zpos_of_nat_S; lia|].
    rewrite !Zpos_of_nat_S in Herr1.
    destruct (SFmul_100_located _ _ _ Hk1 Hmr Hf1) as
      (mr2 & k2 & j & Hk2 & Hj & Ek & Hmr2 & Herr2 & Hf2).
    destruct Hf2 as [[-> ->]|(p & k & -> & Hk & Hp)].
    + exists 0. split; [reflexivity|]. split; [lia|].
      assert (0 < 2 ^ k2) by (apply pow2_pos; lia).
      apply (tenths_bound _ _ mr k1 0 k2 j); simpl; lia.
    + exists (tenths p (- k2 + k)). split; [reflexivity|].
      unfold tenths.
      replace (0 <=? - k2 + k) with false by (symmetry; apply Z.leb_gt; lia).
      assert (Hpd : 0 < 2 ^ (- (- k2 + k))) by (apply pow2_pos; lia).
      destruct (div_half_even_located (Z.pos p * 10) (2 ^ (- (- k2 + k))))
        as [Hn0 Hn]; [lia|lia|].
      split; [exact Hn0|].
      set (n := div_half_even (Z.pos p * 10) (2 ^ (- (- k2 + k)))) in *.
      apply (tenths_bound _ _ mr k1 mr2 k2 j); try lia.
      assert (Hpk : 0 < 2 ^ k) by (apply pow2_pos; lia).
      assert (Epow : 2 ^ k2 = 2 ^ (- (- k2 + k)) * 2 ^ k).
      { rewrite <- Z.pow_add_r by lia. f_equal. lia. }
      rewrite Epow, <- Hp.
      replace (n * (2 ^ (- (- k2 + k)) * 2 ^ k) - 10 * (Z.pos p * 2 ^ k))
        with (2 ^ k * (n * 2 ^ (- (- k2 + k)) - Z.pos p * 10)) by ring.
      rewrite Z.abs_mul, (Z.abs_eq (2 ^ k)) by lia. nia.
Qed.

End FloatFacts.

(** *** The rate as a text *)


Section SuccessRate.

Lemma success_rate_str_returns a b :
  b <> 0 -> exists s, success_rate_str a b = Return s.
Proof.
  intros Hb. unfold success_rate_str, percentage.
  destruct b; [congruence|]. eauto.
Qed.

Lemma success_rate_str_shown a b n :
  shown_tenths a b = Some n -> success_rate_str a b = Return (rate_of_tenths n).
Proof.
  unfold shown_tenths, success_rate_str.
  destruct (percentage a b) as [[[|]| | |[|] m e]|]; try discriminate.
  - now intros [= <-].
  - intros [= <-]. unfold format_1f, rate_of_tenths.
    now rewrite !append_assoc.
Qed.

(** The rate of every run: the tenths shown are nearest to
    [1000 * a / b] up to the room of the two roundings. *)
Lemma success_rate_close a b s :
  0 < b -> a <= b -> success_rate_str a b = Return s ->
  nearest_tenths_up_to_rounding a b s.
Proof.
  intros Hb Hab Hs.
  destruct (shown_tenths_close a b Hb Hab) as (n & Hn & Hn0 & Hclose).
  rewrite (success_rate_str_shown a b n Hn) in Hs. injection Hs as <-.
  exists n. auto.
Qed.

(** Below [2 ^ 41] files the tenths shown are within half a tenth. *)
Lemma success_rate_nearest a b s :
  (Z.of_nat b < 2 ^ 41)%Z -> nearest_tenths_up_to_rounding a b s ->
  one_decimal_percentage a b s.
Proof.
  intros Hb (n & Hn0 & Hs & Hclose). exists n.
  split; [exact Hn0|]. split; [exact Hs|]. lia.
Qed.

End SuccessRate.

(** ** main *)

Section Main.

Variable env : Env.

Lemma successes_le self files :
  length (successes self env files) <= length files.
Proof.
  unfold successes. induction files as [|p rest IH]; cbn; [lia|].
  destruct (parse_result self env p); cbn; lia.
Qed.

(** The whole run: nothing but the log changes when no document
    succeeded; otherwise the per-document files, then the list of all
    results, then the statistics are written. *)
Lemma main_run w :
  exists l t rate,
    outcome (main_loop default_parser env (glob_pdf env) empty_tally) w
      = Return t /\
    results t = all_successes env /\
    length (results t) + t_failed t = length (glob_pdf env) /\
    t_grobid_success t + t_pymupdf_success t = length (results t) /\
    (all_successes env <> [] ->
     success_rate_str (length (results t)) (length (glob_pdf env))
       = Return rate) /\
    main env w =
    (Return tt,
     {| log := log w ++ l;
        out_dir :=
          match all_successes env with
          | [] => out_dir w
          | _ :: _ =>
              <["parsing_statistics.json" :=
                  JsonStats {| total_files := length (glob_pdf env);
                               successful := length (results t);
                               grobid_success := t_grobid_success t;
                               pymupdf_success := t_pymupdf_success t;
                               failed := t_failed t;
                               success_rate := rate |}]>
                (<["all_articles.json" := JsonResults (results t)]>
                   (dump_each (out_dir w) (all_successes env)))
          end |}).
Proof.
  destruct (main_loop_run default_parser env (glob_pdf env) empty_tally w)
    as (t & l & H & Hr & Hc & Hm).
  simpl in Hr, Hc, Hm. fold (all_successes env) in H, Hr.
  destruct (success_rate_str (length (results t)) (length (glob_pdf env)))
    as [rate|e] eqn:Hrate.
  - exists l, t, rate. unfold outcome. rewrite H. cbn [fst].
    repeat split; auto; try lia.
    unfold main, bind at 1. rewrite H, Hr. rewrite Hr in Hrate.
    destruct (all_successes env) as [|r rs]; [reflexivity|].
    run_monad. rewrite Hrate. reflexivity.
  - exists l, t, "". unfold outcome. rewrite H. cbn [fst].
    pose proof (successes_le default_parser (glob_pdf env)) as Hle.
    fold (all_successes env) in Hle. rewrite <- Hr in Hle.
    destruct (results t) as [|r rs] eqn:Hs.
    + repeat split; auto; try lia; [congruence|].
      unfold main, bind at 1. rewrite H, Hs, <- Hr. reflexivity.
    + exfalso. simpl in Hle.
      destruct (success_rate_str_returns (length (r :: rs))
                  (length (glob_pdf env))) as [s' Hs']; [lia|congruence].
Qed.

End Main.

(** ** Runs that complete on a file system whose calls can raise *)

Section OnDiskRuns.

Variable fs : FileSystem.

Lemma json_dump_completes fname c w w' :
  OnDisk.json_dump fs fname c w = (Return tt, w') ->
  json_dump fname c w = (Return tt, w').
Proof.
  unfold OnDisk.json_dump, json_dump.
  destruct (open_w fs (out_dir w) fname); [|discriminate].
  destruct (dump fs (out_dir w) fname c); [|discriminate].
  now intros [= <-].
Qed.

Lemma json_dump_raises fname c w e w' :
  OnDisk.json_dump fs fname c w = (Raise e, w') ->
  open_w fs (out_dir w) fname = Raise e \/
  dump fs (out_dir w) fname c = Raise e.
Proof.
  unfold OnDisk.json_dump.
  destruct (open_w fs (out_dir w) fname); [|intros [= <- _]; now left].
  destruct (dump fs (out_dir w) fname c); [discriminate|].
  intros [= <- _]. now right.
Qed.

Lemma loop_body_completes parser env t p w t' w' :
  OnDisk.loop_body fs parser env t p w = (Return t', w') ->
  loop_body parser env t p w = (Return t', w').
Proof.
  unfold OnDisk.loop_body, loop_body, bind.
  destruct (parse_article parser env p w) as [[[r|]|e] w1]; auto.
  destruct (OnDisk.json_dump fs (article_filename r) (JsonResult r) w1)
    as [[[]|e] w2] eqn:E; [|discriminate].
  rewrite (json_dump_completes _ _ _ _ E). auto.
Qed.

Lemma main_loop_completes parser env files : forall t w t' w',
  OnDisk.main_loop fs parser env files t w = (Return t', w') ->
  main_loop parser env files t w = (Return t', w').
Proof.
  induction files as [|p files IH]; intros t w t' w'; simpl; auto.
  unfold bind.
  destruct (OnDisk.loop_body fs parser env t p w) as [[t1|e] w1] eqn:E;
    [|discriminate].
  rewrite (loop_body_completes _ _ _ _ _ _ _ E). apply IH.
Qed.

(** A run that completes is a run of [main]: the directory is created,
    no write raises, and the world is the one [main] leaves. *)
Lemma main_completes env w :
  outcome (OnDisk.main fs env) w = Return tt ->
  OnDisk.main fs env w = main env w.
Proof.
  unfold outcome, OnDisk.main, main, bind, call.
  destruct (mkdir fs (out_dir w)) as [[]|e]; [|discriminate].
  destruct (OnDisk.main_loop fs default_parser env (glob_pdf env)
              empty_tally w) as [[t|e] w1] eqn:E; [|discriminate].
  rewrite (main_loop_completes _ _ _ _ _ _ _ E).
  destruct (results t) as [|r rs]; [reflexivity|].
  destruct (OnDisk.json_dump fs "all_articles.json" _ w1)
    as [[[]|e] w2] eqn:E2; [|discriminate].
  rewrite (json_dump_completes _ _ _ _ E2).
  destruct (success_rate_str _ _) as [rate|e]; [|discriminate].
  destruct (OnDisk.json_dump fs "parsing_statistics.json" _ w2)
    as [[[]|e] w3] eqn:E3; [|discriminate].
  now rewrite (json_dump_completes _ _ _ _ E3).
Qed.

(** [main] is the run on the file system that takes every call. *)
Lemma main_loop_on_accepting parser env files : forall t w,
  OnDisk.main_loop fs_accepting parser env files t w
  = main_loop parser env files t w.
Proof.
  induction files as [|p files IH]; intros t w; [reflexivity|].
  cbn [OnDisk.main_loop main_loop]. unfold bind.
  change (OnDisk.loop_body fs_accepting parser env t p w)
    with (loop_body parser env t p w).
  destruct (loop_body parser env t p w) as [[t'|e] w']; [apply IH|reflexivity].
Qed.

Lemma main_on_accepting env w : OnDisk.main fs_accepting env w = main env w.
Proof.
  unfold OnDisk.main, main, bind. cbn [mkdir fs_accepting].
  rewrite main_loop_on_accepting.
  destruct (main_loop default_parser env (glob_pdf env) empty_tally w)
    as [[t|e] w1]; reflexivity.
Qed.

End OnDiskRuns.

(** ** Names: stem and suffix *)

Section Stem.

Lemma prefix_suffix i s : PyStr.prefix_to i s +:+ PyStr.suffix_from i s = s.
Proof.
  revert s. induction i as [|i IH]; intros [|c s]; try reflexivity.
  simpl. now rewrite append_cons, IH.
Qed.

Lemma stem_suffix p : stem p +:+ suffix p = name p.
Proof.
  unfold stem, suffix. destruct (PyStr.rfind_dot (name p)) as [i|].
  - destruct (_ && _); [apply prefix_suffix | apply append_nil_r].
  - apply append_nil_r.
Qed.

Lemma rfind_dot_append s t j :
  PyStr.rfind_dot t = Some j ->
  PyStr.rfind_dot (s +:+ t) = Some (String.length s + j).
Proof.
  intros H. induction s as [|c s IH]; [exact H|].
  rewrite append_cons. simpl. now rewrite IH.
Qed.

Lemma prefix_to_append s t : PyStr.prefix_to (String.length s) (s +:+ t) = s.
Proof.
  induction s as [|c s IH]; [now destruct t|].
  rewrite append_cons. simpl. now rewrite IH.
Qed.

(** The stem of [base.pdf] is [base]. *)
Lemma stem_pdf p base :
  base <> "" -> name p = base +:+ ".pdf" -> stem p = base.
Proof.
  intros Hb Hn. unfold stem. rewrite Hn.
  rewrite (rfind_dot_append base ".pdf" 0 eq_refl), Nat.add_0_r.
  rewrite length_append. simpl String.length.
  assert (0 < String.length base) by (destruct base; simpl; [congruence|lia]).
  replace (0 <? String.length base) with true
    by (symmetry; apply Nat.ltb_lt; lia).
  replace (String.length base <? String.length base + 4 - 1) with true
    by (symmetry; apply Nat.ltb_lt; lia).
  apply prefix_to_append.
Qed.

End Stem.

(** ** The claims about parse_article *)

Section ParseArticleClaims.

Variables (self : HybridPDFParser) (env : Env).

Lemma extract_with_fallback_outcome p w w' :
  outcome (extract_with_fallback self env p) w =
  outcome (extract_with_fallback self env p) w'.
Proof.
  destruct (log_only_extract_with_fallback self env p) as (r & l & H).
  unfold outcome. now rewrite !H.
Qed.

(** C2. [parse_article] returns a result exactly when the abstract or the
    full text of the data that the fallback step produced is non-empty,
    and the result carries them, so the two are never both empty in a
    result; when both are empty it returns [None], and then a turn of
    the loop of [main] increments [failed], appends nothing to
    [results] and writes no file, whereas for a result it appends it and
    writes its file. *)
Theorem result_iff_some_text (p : Path) (w : World) :
  exists d m,
    outcome (extract_with_fallback self env p) w = Return (d, m) /\
    ((abstract d <> "" \/ full_text d <> "") <->
     exists r, outcome (parse_article self env p) w = Return (Some r)) /\
    ((abstract d = "" /\ full_text d = "") <->
     outcome (parse_article self env p) w = Return None) /\
    (forall r, outcome (parse_article self env p) w = Return (Some r) ->
       r_abstract r = abstract d /\ r_full_text r = full_text d /\
       ~ (r_abstract r = "" /\ r_full_text r = "")) /\
    (forall t, outcome (parse_article self env p) w = Return None ->
       exists t', outcome (loop_body self env t p) w = Return t' /\
         t_failed t' = S (t_failed t) /\ results t' = results t /\
         out_dir (world_after (loop_body self env t p) w) = out_dir w) /\
    (forall t r, outcome (parse_article self env p) w = Return (Some r) ->
       exists t', outcome (loop_body self env t p) w = Return t' /\
         t_failed t' = t_failed t /\ results t' = results t ++ [r] /\
         out_dir (world_after (loop_body self env t p) w) =
           <[article_filename r := JsonResult r]> (out_dir w)).
Proof.
  destruct (extract_with_fallback_run self env p
              (add_log w [INFO_processing (name p)]))
    as (d & m & w1 & H).
  exists d, m.
  rewrite (extract_with_fallback_outcome p w
             (add_log w [INFO_processing (name p)])).
  unfold outcome at 1. rewrite H. split; [reflexivity|].
  pose proof (parse_article_outcome self env p w) as Hpr.
  pose proof (parse_article_of_data self env p w d m w1 H) as Hpa.
  assert (Hloop : forall t,
    exists t', outcome (loop_body self env t p) w = Return t' /\
      out_dir (world_after (loop_body self env t p) w) =
        match parse_result self env p with
        | Some r => <[article_filename r := JsonResult r]> (out_dir w)
        | None => out_dir w
        end /\
      match parse_result self env p with
      | Some r => results t' = results t ++ [r] /\ t_failed t' = t_failed t
      | None => results t' = results t /\ t_failed t' = S (t_failed t)
      end).
  { intros t. destruct (loop_body_run self env t p w) as (t' & l & E & Ht).
    exists t'. unfold outcome, world_after. rewrite E. simpl.
    repeat split; auto. destruct (parse_result self env p); tauto. }
  set (r0 := {| r_filename := name p; r_title := stem p;
                r_abstract := abstract d; r_full_text := full_text d;
                r_abstract_length := String.length (abstract d);
                r_text_length := String.length (full_text d);
                r_method := m |}) in *.
  assert (Hcases :
    ((abstract d <> "" \/ full_text d <> "") /\
     outcome (parse_article self env p) w = Return (Some r0)) \/
    ((abstract d = "" /\ full_text d = "") /\
     outcome (parse_article self env p) w = Return None)).
  { rewrite Hpa.
    destruct (PyStr.truthy (abstract d)) eqn:Ha;
      destruct (PyStr.truthy (full_text d)) eqn:Hf; simpl;
      rewrite ?truthy_true, ?truthy_false in *; tauto. }
  destruct Hcases as [[Hne Hp]|[[Ha Hf] Hp]]; rewrite Hp in *;
    injection Hpr as Hpr; rewrite <- Hpr in Hloop.
  - split; [split; eauto|].
    split; [split; [tauto|discriminate]|].
    split; [intros r [= <-]; simpl; tauto|].
    split; [discriminate|].
    intros t r [= <-]. destruct (Hloop t) as (t' & ? & ? & ? & ?). eauto.
  - split; [split; [intros [?|?]; congruence | intros [r ?]; discriminate]|].
    split; [tauto|].
    split; [discriminate|].
    split; [|discriminate].
    intros t _. destruct (Hloop t) as (t' & ? & ? & ? & ?). eauto.
Qed.

(** C6. In every result [parse_article] returns, [title] is the stem of
    the document's file name: the file name is the title followed by the
    suffix [pathlib] cuts off, and for a name [base.pdf] the title is
    [base]; [abstract_length] and [text_length] are the lengths of
    [abstract] and [full_text]. *)
Theorem result_title_and_lengths (p : Path) (w : World)
    (r : ExtractionResult) :
  outcome (parse_article self env p) w = Return (Some r) ->
  r_title r = stem p /\
  r_filename r = r_title r +:+ suffix p /\
  (forall base, base <> "" -> name p = base +:+ ".pdf" -> r_title r = base) /\
  r_abstract_length r = String.length (r_abstract r) /\
  r_text_length r = String.length (r_full_text r).
Proof.
  rewrite parse_article_outcome. intros [= H].
  destruct (parse_result_fields self env p r H) as (Hn & Ht & Ha & Hf & _).
  repeat split; auto.
  - now rewrite Hn, Ht, stem_suffix.
  - intros base Hb Hp. rewrite Ht. now apply stem_pdf.
Qed.

End ParseArticleClaims.

(** ** The claims about the statistics *)

Section Statistics.

Variable env : Env.

(** The statistics file of a run in which some document succeeded. *)
Lemma main_statistics w :
  all_successes env <> [] ->
  exists t rate,
    results t = all_successes env /\
    length (results t) + t_failed t = length (glob_pdf env) /\
    t_grobid_success t + t_pymupdf_success t = length (results t) /\
    success_rate_str (length (results t)) (length (glob_pdf env))
      = Return rate /\
    out_dir (world_after (main env) w) !! "parsing_statistics.json" =
    Some (JsonStats {| total_files := length (glob_pdf env);
                       successful := length (results t);
                       grobid_success := t_grobid_success t;
                       pymupdf_success := t_pymupdf_success t;
                       failed := t_failed t;
                       success_rate := rate |}).
Proof.
  intros Hne.
  destruct (main_run env w) as (l & t & rate & _ & Hr & Hc & Hm & Hrate & E).
  exists t, rate. repeat split; auto.
  unfold world_after. rewrite E. simpl.
  destruct (all_successes env); [congruence|]. apply lookup_insert_eq.
Qed.

(** C10. Every turn of the loop increments exactly one of the number of
    results and [failed]; after the loop the two add up to the number of
    enumerated documents; and the statistics written by a run have
    [successful + failed = total_files]. *)
Theorem successes_and_failures_add_up (w : World) :
  (forall t p, exists t',
     outcome (loop_body default_parser env t p) w = Return t' /\
     ((length (results t') = S (length (results t)) /\
       t_failed t' = t_failed t) \/
      (length (results t') = length (results t) /\
       t_failed t' = S (t_failed t)))) /\
  (exists t,
     outcome (main_loop default_parser env (glob_pdf env) empty_tally) w
       = Return t /\
     length (results t) + t_failed t = length (glob_pdf env)) /\
  (all_successes env <> [] ->
   exists st,
     out_dir (world_after (main env) w) !! "parsing_statistics.json"
       = Some (JsonStats st) /\
     successful st + failed st = total_files st).
Proof.
  split; [|split].
  - intros t p.
    destruct (loop_body_run default_parser env t p w) as (t' & l & E & Ht).
    exists t'. unfold outcome. rewrite E. split; [reflexivity|].
    destruct (parse_result default_parser env p) as [r|].
    + left. destruct Ht as (-> & -> & _). rewrite length_app. simpl.
      split; [lia|reflexivity].
    + right. destruct Ht as (-> & -> & _). auto.
  - destruct (main_run env w) as (l & t & rate & Ht & _ & Hc & _).
    exists t. auto.
  - intros Hne.
    destruct (main_statistics w Hne) as (t & rate & _ & Hc & _ & _ & E).
    eexists. split; [exact E|]. simpl. exact Hc.
Qed.

(** C7. The statistics written by a run that completes (the output
    directory is created and no write raises) have
    [successful = grobid_success + pymupdf_success], and [success_rate]
    is what [f"{successful/total_files*100:.1f}%"] gives for them: for
    every number of files the tenths nearest to
    [1000 * successful / total_files], up to the room the two roundings of
    the floating-point quotient and product take, followed by the percent
    sign; below [2 ^ 41] files these are the tenths within half a tenth of
    it; 2 of 3 gives [66.7%]. *)
Theorem statistics_sum_and_rate (fs : FileSystem) (w : World) :
  (outcome (OnDisk.main fs env) w = Return tt ->
   all_successes env <> [] ->
   exists st,
     out_dir (world_after (OnDisk.main fs env) w) !! "parsing_statistics.json"
       = Some (JsonStats st) /\
     successful st = grobid_success st + pymupdf_success st /\
     success_rate_str (successful st) (total_files st)
       = Return (success_rate st) /\
     nearest_tenths_up_to_rounding (successful st) (total_files st)
                                   (success_rate st) /\
     ((Z.of_nat (total_files st) < 2 ^ 41)%Z ->
      one_decimal_percentage (successful st) (total_files st)
                             (success_rate st))) /\
  success_rate_str 2 3 = Return "66.7%".
Proof.
  split; [|vm_compute; reflexivity].
  intros Hc Hne. unfold world_after. rewrite (main_completes fs env w Hc).
  destruct (main_statistics w Hne) as (t & rate & Hr & Hn & Hm & Hrate & E).
  eexists. split; [exact E|]. simpl.
  split; [lia|]. split; [exact Hrate|].
  assert (H0 : length (results t) <> 0)
    by (rewrite Hr; destruct (all_successes env); simpl; congruence).
  assert (Hclose : nearest_tenths_up_to_rounding
                     (length (results t)) (length (glob_pdf env)) rate)
    by (apply success_rate_close; [lia|lia|exact Hrate]).
  split; [exact Hclose|].
  intros Hlt. now apply success_rate_nearest.
Qed.

End Statistics.

(** The run of three documents of which two succeed through GROBID. *)
Lemma statistics_sum_and_rate_witness :
  outcome (OnDisk.main fs_accepting env_two_of_three) empty_world = Return tt /\
  all_successes env_two_of_three <> [] /\
  exists st,
    out_dir (world_after (OnDisk.main fs_accepting env_two_of_three)
                         empty_world)
      !! "parsing_statistics.json" = Some (JsonStats st) /\
    successful st = grobid_success st + pymupdf_success st /\
    success_rate_str (successful st) (total_files st)
      = Return (success_rate st) /\
    nearest_tenths_up_to_rounding (successful st) (total_files st)
                                  (success_rate st) /\
    ((Z.of_nat (total_files st) < 2 ^ 41)%Z ->
     one_decimal_percentage (successful st) (total_files st)
                            (success_rate st)).
Proof.
  assert (Hc : outcome (OnDisk.main fs_accepting env_two_of_three) empty_world
               = Return tt) by (vm_compute; reflexivity).
  assert (H : all_successes env_two_of_three <> [])
    by (vm_compute; discriminate).
  split; [exact Hc|]. split; [exact H|].
  exact (proj1 (statistics_sum_and_rate env_two_of_three fs_accepting
                  empty_world) Hc H).
Defined.

Lemma successes_and_failures_add_up_witness :
  all_successes env_two_of_three <> [] /\
  exists st,
    out_dir (world_after (main env_two_of_three) empty_world)
      !! "parsing_statistics.json" = Some (JsonStats st) /\
    successful st + failed st = total_files st.
Proof.
  assert (H : all_successes env_two_of_three <> [])
    by (vm_compute; discriminate).
  split; [exact H|].
  exact (proj2 (proj2 (successes_and_failures_add_up env_two_of_three
                         empty_world)) H).
Defined.

(** The statistics of that run, as the fourth scenario of the
    specification gives them. *)
Example statistics_two_of_three :
  out_dir (world_after (main env_two_of_three) empty_world)
    !! "parsing_statistics.json" =
  Some (JsonStats {| total_files := 3; successful := 2; grobid_success := 2;
                     pymupdf_success := 0; failed := 1;
                     success_rate := "66.7%" |}).
Proof. vm_compute. reflexivity. Qed.

(** ** The heuristic path *)

Section Strip.

Lemma lstrip_length s : String.length (PyStr.lstrip s) <= String.length s.
Proof.
  induction s as [|c s IH]; simpl; [lia|].
  destruct (PyStr.isspace c); simpl; lia.
Qed.

Lemma rstrip_length s : String.length (PyStr.rstrip s) <= String.length s.
Proof.
  induction s as [|c s IH]; simpl; [lia|].
  destruct (PyStr.rstrip s); [destruct (PyStr.isspace c)|]; simpl in *; lia.
Qed.

Lemma rstrip_append_space s : PyStr.rstrip (s +:+ " ") = PyStr.rstrip s.
Proof.
  induction s as [|c s IH]; [reflexivity|].
  rewrite append_cons. simpl. now rewrite IH.
Qed.

Lemma lstrip_append_space s :
  PyStr.lstrip (s +:+ " ") = PyStr.lstrip s +:+ " " \/
  PyStr.lstrip (s +:+ " ") = "".
Proof.
  induction s as [|c s IH]; [now right|].
  rewrite append_cons. simpl. destruct (PyStr.isspace c); [exact IH|].
  left. now rewrite append_cons.
Qed.

(** Stripping removes at least the space that ends the buffer. *)
Lemma strip_append_space_length s :
  String.length (PyStr.strip (s +:+ " ")) <= String.length s.
Proof.
  unfold PyStr.strip. destruct (lstrip_append_space s) as [-> | ->].
  - rewrite rstrip_append_space.
    pose proof (rstrip_length (PyStr.lstrip s)).
    pose proof (lstrip_length s). lia.
  - simpl. lia.
Qed.

End Strip.

Section Heuristic.

Lemma buffer_of_app a b : buffer_of (a ++ b) = buffer_of a +:+ buffer_of b.
Proof.
  induction a as [|x a IH]; [reflexivity|].
  simpl. now rewrite IH, !append_assoc.
Qed.

(** The loop appends the qualifying lines one by one and stops at the
    first that takes the buffer above 500 characters. *)
Lemma abstract_loop_run lines : forall acc,
  String.length acc <= 500 ->
  exists k,
    k <= length (qualifying lines) /\
    abstract_loop lines acc = acc +:+ buffer_of (take k (qualifying lines)) /\
    (forall j, j < k ->
       String.length (acc +:+ buffer_of (take j (qualifying lines))) <= 500) /\
    (k = length (qualifying lines) \/
     500 < String.length (acc +:+ buffer_of (take k (qualifying lines)))).
Proof.
  unfold qualifying.
  induction lines as [|line rest IH]; intros acc Hacc.
  - exists 0. simpl. rewrite append_nil_r. repeat split; auto; lia.
  - simpl.
    destruct (PyStr.truthy (PyStr.strip line) &&
              (50 <? String.length (PyStr.strip line))) eqn:Hq.
    + destruct (500 <? String.length (acc +:+ PyStr.strip line +:+ " "))
        eqn:Hlen.
      * exists 1. simpl. rewrite append_nil_r.
        apply Nat.ltb_lt in Hlen. repeat split; auto; try lia.
        intros j Hj. replace j with 0 by lia. simpl.
        now rewrite append_nil_r.
      * apply Nat.ltb_ge in Hlen.
        destruct (IH _ Hlen) as (k & Hk & E & Hprev & Hstop).
        exists (S k). simpl. rewrite E, !append_assoc.
        repeat split; auto; try lia.
        -- intros [|j] Hj; simpl; [now rewrite append_nil_r|].
           specialize (Hprev j ltac:(lia)).
           now rewrite !append_assoc in Hprev.
        -- destruct Hstop as [-> | Hstop]; [now left|right].
           now rewrite !append_assoc in Hstop.
    + apply IH, Hacc.
Qed.

Lemma buffer_bound qs k B :
  k <= length qs -> (forall l, In l qs -> String.length l <= B) ->
  (forall j, j < k -> String.length (buffer_of (take j qs)) <= 500) ->
  String.length (PyStr.strip (buffer_of (take k qs))) <= 500 + B.
Proof.
  intros Hk HB Hprev. destruct k as [|k]; [simpl; lia|].
  destruct (lookup_lt_is_Some_2 qs k ltac:(lia)) as [last Hlast].
  rewrite (take_S_r _ _ _ Hlast), buffer_of_app. simpl.
  rewrite append_nil_r, <- append_assoc.
  pose proof (strip_append_space_length (buffer_of (take k qs) +:+ last)) as H.
  rewrite length_append in H.
  specialize (Hprev k ltac:(lia)).
  assert (String.length last <= B).
  { apply HB. apply list_elem_of_In. eapply list_elem_of_lookup_2, Hlast. }
  lia.
Qed.

(** What the heuristic path returns for a document all of whose pages
    can be read. *)
Lemma extract_text_with_pymupdf_reads env p w doc texts :
  fitz_open env p = Return doc -> map get_text doc = map Return texts ->
  outcome (extract_text_with_pymupdf env p) w =
  Return
    {| abstract :=
         PyStr.strip
           (abstract_loop
              (take 20 (PyStr.split PyStr.LF (pages_text texts))) "");
       full_text := PyStr.strip (pages_text texts) |}.
Proof.
  intros Ho Ht. unfold extract_text_with_pymupdf. run_monad.
  rewrite Ho, page_loop_run, (read_pages_returns _ _ Ht). reflexivity.
Qed.

End Heuristic.

(** C9, as amended. For a document PyMuPDF opens and whose pages can all
    be read, [full_text] is, in page order, the text of every page that
    is not only whitespace, each followed by a line feed, the whole then
    stripped of the whitespace at its two ends. *)
Theorem heuristic_full_text (env : Env) (p : Path) (w : World)
    (doc : list Page) (texts : list string) :
  fitz_open env p = Return doc -> map get_text doc = map Return texts ->
  exists d,
    outcome (extract_text_with_pymupdf env p) w = Return d /\
    full_text d = PyStr.strip (pages_text texts).
Proof.
  intros Ho Ht. eexists. split.
  - apply (extract_text_with_pymupdf_reads env p w doc texts Ho Ht).
  - reflexivity.
Qed.

Lemma heuristic_full_text_witness :
  fitz_open (env_of_pages ["a"; "  "; "b"]) (in_dir "paper.pdf")
    = Return (map (fun t => mkPage (Return t)) ["a"; "  "; "b"]) /\
  exists d,
    outcome (extract_text_with_pymupdf (env_of_pages ["a"; "  "; "b"])
                                       (in_dir "paper.pdf")) empty_world
      = Return d /\
    full_text d = PyStr.strip (pages_text ["a"; "  "; "b"]).
Proof.
  split; [reflexivity|].
  apply (heuristic_full_text (env_of_pages ["a"; "  "; "b"])
           (in_dir "paper.pdf") empty_world
           (map (fun t => mkPage (Return t)) ["a"; "  "; "b"])
           ["a"; "  "; "b"]); reflexivity.
Defined.

(** C9, as stated, fails: the pages [a] and [b] give [a], a line feed and
    [b], not [ab]. *)
Lemma two_pages_are_joined_by_a_line_feed :
  exists d,
    outcome (extract_text_with_pymupdf (env_of_pages ["a"; "b"])
                                       (in_dir "paper.pdf")) empty_world
      = Return d /\
    full_text d = "a" +:+ String PyStr.LF "b" /\
    full_text d <> full_text_as_plain_concatenation ["a"; "b"].
Proof.
  eexists. split; [vm_compute; reflexivity|]. split; [reflexivity|].
  vm_compute. discriminate.
Qed.

(** C4, as amended. The scan reads the first 20 lines of the text
    gathered from the pages (before that text is stripped) and strips
    each; every stripped line longer than 50 characters is appended with
    a space, up to and including the first one that takes the buffer
    above 500 characters; so the abstract, which is the buffer stripped,
    is at most 500 characters plus the length of one such line; lines
    after the 20th change nothing. *)
Theorem heuristic_abstract_scan (lines : list string) :
  let qs := qualifying (take 20 lines) in
  (exists k,
     k <= length qs /\
     abstract_loop (take 20 lines) "" = buffer_of (take k qs) /\
     (forall j, j < k -> String.length (buffer_of (take j qs)) <= 500) /\
     (k = length qs \/ 500 < String.length (buffer_of (take k qs))) /\
     (forall B, (forall l, In l qs -> String.length l <= B) ->
        String.length (PyStr.strip (abstract_loop (take 20 lines) ""))
          <= 500 + B)) /\
  (forall more, 20 <= length lines ->
     abstract_loop (take 20 (lines ++ more)) ""
       = abstract_loop (take 20 lines) "") /\
  (forall env p w doc texts,
     fitz_open env p = Return doc -> map get_text doc = map Return texts ->
     lines = PyStr.split PyStr.LF (pages_text texts) ->
     exists d,
       outcome (extract_text_with_pymupdf env p) w = Return d /\
       abstract d = PyStr.strip (abstract_loop (take 20 lines) "")).
Proof.
  intros qs. split; [|split].
  - destruct (abstract_loop_run (take 20 lines) "") as (k & Hk & E & Hprev & Hstop);
      [simpl; lia|].
    fold qs in Hk, E, Hprev, Hstop. rewrite append_nil_l in E.
    assert (Hprev' : forall j, j < k ->
              String.length (buffer_of (take j qs)) <= 500)
      by (intros j Hj; exact (Hprev j Hj)).
    exists k. split; [exact Hk|]. split; [exact E|].
    split; [exact Hprev'|]. split; [exact Hstop|].
    intros B HB. rewrite E. now apply buffer_bound.
  - intros more Hlen. now rewrite take_app_le by lia.
  - intros env p w doc texts Ho Ht ->. eexists. split.
    + apply (extract_text_with_pymupdf_reads env p w doc texts Ho Ht).
    + reflexivity.
Qed.

Lemma heuristic_abstract_scan_witness :
  exists d,
    outcome (extract_text_with_pymupdf (env_of_pages [padded_page])
                                       (in_dir "paper.pdf")) empty_world
      = Return d /\
    abstract d =
      PyStr.strip
        (abstract_loop
           (take 20 (PyStr.split PyStr.LF (pages_text [padded_page]))) "").
Proof.
  apply (proj2 (proj2 (heuristic_abstract_scan
                         (PyStr.split PyStr.LF (pages_text [padded_page]))))
           (env_of_pages [padded_page]) (in_dir "paper.pdf") empty_world
           [mkPage (Return padded_page)] [padded_page]); reflexivity.
Defined.

(** C4, as stated, fails: a first line of 50 letters and a space is not
    empty and is 51 characters long, yet nothing is appended for it; a
    scan that tests and appends the line as it stands would return the
    50 letters. *)
Lemma padded_line_is_not_appended :
  exists d,
    outcome (extract_text_with_pymupdf (env_of_pages [padded_page])
                                       (in_dir "paper.pdf")) empty_world
      = Return d /\
    abstract d = "" /\
    PyStr.strip
      (abstract_loop_on_raw_lines
         (take 20 (PyStr.split PyStr.LF (pages_text [padded_page]))) "")
      = fifty /\
    abstract d <>
      PyStr.strip
        (abstract_loop_on_raw_lines
           (take 20 (PyStr.split PyStr.LF (pages_text [padded_page]))) "").
Proof.
  eexists. split; [vm_compute; reflexivity|]. split; [reflexivity|].
  split; [vm_compute; reflexivity|]. vm_compute. discriminate.
Qed.

(** ** The fallback *)

Section Fallback.

Variables (self : HybridPDFParser) (env : Env).

(** [parse_pdf_to_xml] logs nothing when it returns a body. *)
Lemma parse_pdf_to_xml_some p w xml :
  outcome (parse_pdf_to_xml self env p) w = Return (Some xml) ->
  parse_pdf_to_xml self env p w = (Return (Some xml), w).
Proof.
  unfold parse_pdf_to_xml. run_monad.
  destruct (open_rb env p) as [f|e]; [|discriminate].
  destruct (requests_post env _ _ _ _) as [resp|e]; [|discriminate].
  destruct (status_code resp =? 200)%Z; [|discriminate].
  simpl. now intros [= ->].
Qed.

Lemma parse_pdf_to_xml_outcome p w w1 x :
  parse_pdf_to_xml self env p w = (Return x, w1) ->
  forall w', outcome (parse_pdf_to_xml self env p) w' = Return x.
Proof.
  destruct (log_only_parse_pdf_to_xml self env p) as (r & l & H).
  rewrite H. intros [= -> _] w'. unfold outcome. now rewrite H.
Qed.

Lemma extract_text_with_pymupdf_outcome p w w' :
  outcome (extract_text_with_pymupdf env p) w =
  outcome (extract_text_with_pymupdf env p) w'.
Proof.
  destruct (log_only_extract_text_with_pymupdf env p) as (r & l & H).
  unfold outcome. now rewrite !H.
Qed.

(** What [parse_article] does with an answer that does not parse, on every
    document: the parse error is logged, the extraction is the empty one
    under the method GROBID, the heuristic path is not entered (no record
    of the fallback, none of PyMuPDF) and [parse_article] returns [None].
    The heuristic path is entered exactly when the service gave no body or
    an empty one, and then its data are the data used. *)
Theorem malformed_answer_fails_the_document (p : Path) (w : World) :
  (forall xml e,
     outcome (parse_pdf_to_xml self env p) w = Return (Some xml) ->
     xml <> "" -> ET_fromstring env xml = Raise e ->
     outcome (extract_with_fallback self env p) w = Return (no_data, GROBID) /\
     outcome (parse_article self env p) w = Return None /\
     world_after (parse_article self env p) w =
       add_log w [INFO_processing (name p); ERROR_xml e;
                  WARNING_no_text (name p)]) /\
  (forall d m,
     outcome (extract_with_fallback self env p) w = Return (d, m) ->
     (m = PyMuPDF <->
      outcome (parse_pdf_to_xml self env p) w = Return None \/
      outcome (parse_pdf_to_xml self env p) w = Return (Some "")) /\
     (m = PyMuPDF ->
      outcome (extract_text_with_pymupdf env p) w = Return d)).
Proof.
  split.
  - intros xml e Hx Hne He.
    assert (Hf : forall w0,
      extract_with_fallback self env p w0 =
      (Return (no_data, GROBID), add_log w0 [ERROR_xml e])).
    { intros w0. unfold extract_with_fallback, bind at 1.
      rewrite (parse_pdf_to_xml_some p w0 xml).
      - apply truthy_true in Hne. rewrite Hne. unfold bind.
        rewrite (extract_from_xml_malformed env xml e w0 He). reflexivity.
      - apply parse_pdf_to_xml_some in Hx.
        apply (parse_pdf_to_xml_outcome _ _ _ _ Hx). }
    split; [unfold outcome; now rewrite Hf|].
    assert (Hp : parse_article self env p w =
                 (Return None,
                  add_log w [INFO_processing (name p); ERROR_xml e;
                             WARNING_no_text (name p)])).
    { unfold parse_article, bind, logger. rewrite Hf. simpl.
      unfold add_log. simpl. now rewrite <- !app_assoc. }
    unfold outcome, world_after. rewrite Hp. split; reflexivity.
  - intros d m. unfold outcome at 1, extract_with_fallback. unfold bind at 1.
    destruct (parse_pdf_to_xml_run self env p w) as (x & w1 & Hx).
    rewrite Hx. unfold outcome at 1 2. rewrite Hx. simpl.
    assert (Hpy : forall dm,
      fst ((run logger (INFO_fallback (name p));
            do extracted_data <- extract_text_with_pymupdf env p;
            ret (extracted_data, PyMuPDF)) w1) = Return dm ->
      snd dm = PyMuPDF /\
      outcome (extract_text_with_pymupdf env p) w = Return (fst dm)).
    { intros dm. unfold bind at 1. simpl. unfold bind.
      rewrite (extract_text_with_pymupdf_outcome p w
                 (mkWorld (log w1 ++ [INFO_fallback (name p)]) (out_dir w1))).
      unfold outcome.
      destruct (extract_text_with_pymupdf env p _) as [[d'|e'] w2];
        simpl; [|discriminate].
      now intros [= <-]. }
    destruct x as [[|c xml]|].
    + intros H. destruct (Hpy _ H) as [Hm Hd]. simpl in *. subst m.
      split; [split; auto | auto].
    + simpl. unfold bind.
      destruct (extract_from_xml_run env (String c xml) w1) as (d' & w2 & ->).
      simpl. intros [= <- <-]. split; [|discriminate].
      split; [discriminate|]. intros [?|?]; discriminate.
    + intros H. destruct (Hpy _ H) as [Hm Hd]. simpl in *. subst m.
      split; [split; auto | auto].
Qed.

End Fallback.

Lemma malformed_answer_fails_the_document_witness :
  outcome (parse_pdf_to_xml default_parser env_malformed paper) empty_world
    = Return (Some "<TEI") /\
  "<TEI" <> "" /\
  ET_fromstring env_malformed "<TEI" = Raise (ParseError "unclosed token") /\
  outcome (extract_with_fallback default_parser env_malformed paper)
          empty_world = Return (no_data, GROBID) /\
  outcome (parse_article default_parser env_malformed paper) empty_world
    = Return None.
Proof.
  assert (H1 : outcome (parse_pdf_to_xml default_parser env_malformed paper)
                       empty_world = Return (Some "<TEI")) by reflexivity.
  assert (H2 : "<TEI" <> "") by discriminate.
  assert (H3 : ET_fromstring env_malformed "<TEI"
               = Raise (ParseError "unclosed token")) by reflexivity.
  destruct (proj1 (malformed_answer_fails_the_document default_parser
                     env_malformed paper empty_world) _ _ H1 H2 H3)
    as (Ha & Hb & _).
  repeat split; assumption.
Defined.

(** C1. The code departs from the claim, and from the docstrings of
    [extract_text_with_pymupdf] (line 18, the spare path for what GROBID
    gets wrong) and of [parse_article] (line 120, parsing with a fallback
    to PyMuPDF).  The service answers 200 with a body that does not parse:
    the heuristic path is not entered, the document fails under the method
    GROBID and [parse_article] returns [None], although PyMuPDF reads the
    file; the same document with the service down is read by PyMuPDF. *)
Lemma malformed_answer_is_not_a_fall_through :
  outcome (parse_pdf_to_xml default_parser env_malformed paper) empty_world
    = Return (Some "<TEI") /\
  ET_fromstring env_malformed "<TEI" = Raise (ParseError "unclosed token") /\
  outcome (extract_text_with_pymupdf env_malformed paper) empty_world
    = Return {| abstract := ""; full_text := "Some text of the paper" |} /\
  outcome (extract_with_fallback default_parser env_malformed paper)
          empty_world = Return (no_data, GROBID) /\
  outcome (parse_article default_parser env_malformed paper) empty_world
    = Return None /\
  ~ In (INFO_fallback "paper.pdf")
       (log (world_after (parse_article default_parser env_malformed paper)
                         empty_world)) /\
  exists r,
    outcome (parse_article default_parser env_unavailable paper) empty_world
      = Return (Some r) /\
    r_method r = PyMuPDF /\ r_full_text r = "Some text of the paper".
Proof.
  repeat split; try (vm_compute; reflexivity).
  - vm_compute. intros [H|[H|[H|[]]]]; discriminate.
  - eexists. repeat split; vm_compute; reflexivity.
Qed.

(** ** The structured path *)

Section StructuredText.

Lemma filter_flat_map {A B} (p : B -> bool) (g : A -> list B) l :
  List.filter p (flat_map g l) = flat_map (fun x => List.filter p (g x)) l.
Proof.
  induction l as [|x l IH]; [reflexivity|].
  simpl. now rewrite List.filter_app, IH.
Qed.

Lemma map_of_flat_map {A B C} (f : B -> C) (g : A -> list B) l :
  map f (flat_map g l) = flat_map (fun x => map f (g x)) l.
Proof.
  induction l as [|x l IH]; [reflexivity|].
  simpl. now rewrite map_app, IH.
Qed.

Lemma flat_map_agree {A B} (f g : A -> list B) l :
  Forall (fun x => f x = g x) l -> flat_map f l = flat_map g l.
Proof. induction 1 as [|x l Hx _ IH]; simpl; congruence. Qed.

Lemma strip_nil_truthy t :
  PyStr.truthy t && PyStr.truthy (PyStr.strip t)
  = PyStr.truthy (PyStr.strip t).
Proof. now destruct t. Qed.

(** Where no text follows the end tag of a descendant, the parts the
    code collects are all the fragments the element contains. *)
Lemma text_parts_without_tails e :
  no_tail_text e = true ->
  map stripped_text (List.filter has_text (iter e)) =
  List.filter PyStr.truthy (map PyStr.strip (contained_fragments e)).
Proof.
  induction e as [t tx ch tl IH] using Element_children_ind.
  intros Hnt. simpl in Hnt. rewrite forallb_forall in Hnt.
  cbn [iter contained_fragments children text].
  rewrite map_app, List.filter_app.
  change (Elem t tx ch tl :: flat_map iter ch)
    with ([Elem t tx ch tl] ++ flat_map iter ch).
  rewrite List.filter_app, map_app. f_equal.
  - unfold has_text, stripped_text. simpl.
    destruct tx as [x|]; [|reflexivity]. simpl.
    rewrite strip_nil_truthy. now destruct (PyStr.truthy (PyStr.strip x)).
  - rewrite filter_flat_map, !map_of_flat_map, filter_flat_map.
    apply flat_map_agree. rewrite Forall_forall in IH |- *.
    intros c Hc. apply list_elem_of_In in Hc.
    destruct (andb_prop _ _ (Hnt c Hc)) as [Htail Hsub].
    rewrite (IH c ltac:(now apply list_elem_of_In) Hsub).
    rewrite map_app, List.filter_app.
    destruct (tail c) as [x|]; simpl in *; [|now rewrite app_nil_r].
    apply negb_true_iff in Htail. rewrite Htail. now rewrite app_nil_r.
Qed.

Lemma extract_text_without_tails e :
  no_tail_text e = true ->
  extract_text_from_element (Some e) = contained_text e.
Proof.
  intros H. unfold extract_text_from_element, contained_text.
  now rewrite text_parts_without_tails.
Qed.

(** What the structured path returns for markup that parses. *)
Lemma extract_from_xml_parsed env xml root w :
  ET_fromstring env xml = Return root ->
  outcome (extract_from_xml env xml) w =
  Return
    {| abstract := extract_text_from_element (find_abstract root);
       full_text := extract_text_from_element (find_body root) |}.
Proof.
  intros H. unfold extract_from_xml. run_monad. rewrite H.
  now destruct (find_abstract root), (find_body root).
Qed.

End StructuredText.

(** C3 at [<body><p>Hello <ref>x</ref> world</p></body>]: the body element
    contains the fragments [Hello], [x] and [world], in this order; the
    full text extracted is [Hello x]: the text after the end tag of [ref]
    is dropped. *)
Theorem tail_text_is_dropped :
  ET_fromstring env_mixed "<TEI>" = Return mixed_tei /\
  find_body mixed_tei = Some mixed_body /\
  contained_text mixed_body = "Hello x world" /\
  outcome (extract_from_xml env_mixed "<TEI>") empty_world =
    Return {| abstract := ""; full_text := "Hello x" |}.
Proof. repeat split; vm_compute; reflexivity. Qed.

(** The first of the specification's scenarios: the abstract and the body
    of a TEI answer. *)
Example structured_scenario :
  outcome (parse_article default_parser env_two_of_three (in_dir "a.pdf"))
          empty_world =
  Return (Some {| r_filename := "a.pdf"; r_title := "a";
                  r_abstract := "Foo bar."; r_full_text := "Hello world.";
                  r_abstract_length := 8; r_text_length := 12;
                  r_method := GROBID |}).
Proof. vm_compute. reflexivity. Qed.

(** ** The output directory *)

Section FileNames.

Lemma article_filename_unfold r :
  article_filename r =
  r_title r +:+ match r_method r with
                | GROBID => "_GROBID.json"
                | PyMuPDF => "_PyMuPDF.json"
                end.
Proof. unfold article_filename. now destruct (r_method r). Qed.

Ltac clash H cut :=
  match type of H with
  | ?t +:+ ?suf = ?other =>
      let H' := fresh in
      assert (H' := append_eq_length_r t (PyStr.prefix_to cut other) suf
                      (PyStr.suffix_from cut other));
      simpl in H'; destruct (H' H eq_refl) as [_ ?]; discriminate
  end.

(** The file of a result is neither of the two files of the whole run. *)
Lemma article_filename_not_all r : article_filename r <> "all_articles.json".
Proof.
  rewrite article_filename_unfold. intros H.
  destruct (r_method r); [clash H 5 | clash H 4].
Qed.

Lemma article_filename_not_stats r :
  article_filename r <> "parsing_statistics.json".
Proof.
  rewrite article_filename_unfold. intros H.
  destruct (r_method r); [clash H 11 | clash H 10].
Qed.

(** Two results with one file name have one title. *)
Lemma article_filename_title r1 r2 :
  article_filename r1 = article_filename r2 -> r_title r1 = r_title r2.
Proof.
  rewrite !article_filename_unfold. intros H.
  destruct (r_method r1), (r_method r2).
  - now destruct (append_eq_length_r _ _ _ _ H eq_refl).
  - exfalso.
    change "_GROBID.json" with ("_GROBI" +:+ "D.json") in H.
    change "_PyMuPDF.json" with ("_PyMuPD" +:+ "F.json") in H.
    rewrite <- !append_assoc in H.
    destruct (append_eq_length_r _ _ _ _ H eq_refl) as [_ ?]. discriminate.
  - exfalso.
    change "_GROBID.json" with ("_GROBI" +:+ "D.json") in H.
    change "_PyMuPDF.json" with ("_PyMuPD" +:+ "F.json") in H.
    rewrite <- !append_assoc in H.
    destruct (append_eq_length_r _ _ _ _ H eq_refl) as [_ ?]. discriminate.
  - now destruct (append_eq_length_r _ _ _ _ H eq_refl).
Qed.

End FileNames.

Section OutputDirectory.

Lemma dump_each_other dir rs k :
  ~ In k (map article_filename rs) -> dump_each dir rs !! k = dir !! k.
Proof.
  revert dir. induction rs as [|r rs IH]; intros dir Hk; [reflexivity|].
  simpl in *. rewrite IH by tauto. apply lookup_insert_ne. tauto.
Qed.

Lemma dump_each_holds dir rs r :
  List.NoDup (map article_filename rs) -> In r rs ->
  dump_each dir rs !! article_filename r = Some (JsonResult r).
Proof.
  revert dir. induction rs as [|x rs IH]; intros dir Hnd Hin; [destruct Hin|].
  simpl in *. apply List.NoDup_cons_iff in Hnd as [Hx Hnd].
  destruct Hin as [->|Hin].
  - rewrite dump_each_other by exact Hx. apply lookup_insert_eq.
  - now apply IH.
Qed.

Variables (self : HybridPDFParser) (env : Env).

(** The titles of the results are stems of the documents, in order. *)
Lemma successes_titles files :
  List.NoDup (map stem files) ->
  List.NoDup (map r_title (successes self env files)).
Proof.
  unfold successes. induction files as [|p files IH]; intros Hnd; cbn.
  - constructor.
  - simpl in Hnd. apply List.NoDup_cons_iff in Hnd as [Hp Hnd].
    destruct (parse_result self env p) as [r|] eqn:Hr; cbn; [|now apply IH].
    apply List.NoDup_cons_iff. split; [|now apply IH].
    destruct (parse_result_fields self env p r Hr) as (_ & Ht & _).
    rewrite Ht. intros Hin. apply Hp.
    clear -Hin. induction files as [|q files IH]; cbn in Hin; [destruct Hin|].
    simpl. destruct (parse_result self env q) as [r'|] eqn:Hr'; cbn in Hin.
    + destruct Hin as [Hin|Hin]; [left|right; now apply IH].
      destruct (parse_result_fields self env q r' Hr') as (_ & Ht' & _).
      congruence.
    + right. now apply IH.
Qed.

Lemma NoDup_file_names (rs : list ExtractionResult) :
  List.NoDup (map r_title rs) -> List.NoDup (map article_filename rs).
Proof.
  induction rs as [|r rs IH]; simpl; intros Hnd; [constructor|].
  apply List.NoDup_cons_iff in Hnd as [Hr Hnd].
  apply List.NoDup_cons_iff. split; [|now apply IH].
  intros Hin. apply Hr. apply in_map_iff in Hin as (r' & E & Hin).
  apply in_map_iff. exists r'. split; [|exact Hin].
  now apply article_filename_title.
Qed.

End OutputDirectory.

(** On an output directory that takes every write: after a run in which
    some document succeeded the directory holds [all_articles.json],
    [parsing_statistics.json] and, the stems of the documents being
    pairwise distinct, the file of every successful document; after a run
    in which no document succeeded it is as it was. *)
Lemma output_directory_of_main (env : Env) (w : World) :
  (all_successes env <> [] ->
   out_dir (world_after (main env) w) !! "all_articles.json"
     = Some (JsonResults (all_successes env)) /\
   (exists st,
      out_dir (world_after (main env) w) !! "parsing_statistics.json"
        = Some (JsonStats st) /\
      total_files st = length (glob_pdf env) /\
      successful st = length (all_successes env)) /\
   (List.NoDup (map stem (glob_pdf env)) ->
    forall r, In r (all_successes env) ->
      out_dir (world_after (main env) w) !! article_filename r
        = Some (JsonResult r))) /\
  (all_successes env = [] ->
   out_dir (world_after (main env) w) = out_dir w).
Proof.
  destruct (main_run env w) as (l & t & rate & _ & Hr & _ & _ & _ & E).
  unfold world_after. rewrite E. simpl. split.
  - intros Hne. destruct (all_successes env) as [|r0 rs] eqn:Hs; [congruence|].
    rewrite <- Hs in *. split; [|split].
    + rewrite lookup_insert_ne by discriminate.
      rewrite lookup_insert_eq. now rewrite Hr.
    + eexists. split; [apply lookup_insert_eq|]. simpl. now rewrite Hr.
    + intros Hnd r Hin.
      rewrite lookup_insert_ne
        by (intros H; symmetry in H; now apply article_filename_not_stats in H).
      rewrite lookup_insert_ne
        by (intros H; symmetry in H; now apply article_filename_not_all in H).
      apply dump_each_holds; [|exact Hin].
      apply NoDup_file_names. now apply successes_titles.
  - now intros ->.
Qed.




(** A run in which a document succeeded and that does not complete: the
    name of the result file of a document with a stem of 250 characters is
    longer than the file system takes, [open] raises out of [main], and
    neither that file nor a summary file is written. *)
Lemma no_files_after_a_refused_write :
  exists r e,
    all_successes env_long_name = [r] /\
    outcome (OnDisk.main fs_name_max env_long_name) empty_world = Raise e /\
    out_dir (world_after (OnDisk.main fs_name_max env_long_name) empty_world)
      = ∅.
Proof. do 2 eexists. repeat split; vm_compute; reflexivity. Qed.

(** ** The claims at scripted runs *)

(** A document that yields no text is counted as failed and leaves no
    file. *)
Lemma result_iff_some_text_witness :
  outcome (parse_article default_parser env_none_succeeds paper) empty_world
    = Return None /\
  exists t',
    outcome (loop_body default_parser env_none_succeeds empty_tally paper)
            empty_world = Return t' /\
    t_failed t' = 1 /\ results t' = [] /\
    out_dir (world_after
               (loop_body default_parser env_none_succeeds empty_tally paper)
               empty_world) = ∅.
Proof.
  assert (H : outcome (parse_article default_parser env_none_succeeds paper)
                      empty_world = Return None) by reflexivity.
  split; [exact H|].
  destruct (result_iff_some_text default_parser env_none_succeeds paper
              empty_world) as (d & m & _ & _ & _ & _ & Hfail & _).
  exact (Hfail empty_tally H).
Defined.

(** The service answers 503: no XML, and no exception. *)
Lemma faults_become_no_data_witness :
  open_rb env_unavailable paper = Return "%PDF-1.4" /\
  grobid_request default_parser env_unavailable paper "%PDF-1.4"
    = Return (mkResponse 503 "unavailable") /\
  outcome (parse_pdf_to_xml default_parser env_unavailable paper) empty_world
    = Return None.
Proof.
  assert (H1 : open_rb env_unavailable paper = Return "%PDF-1.4")
    by reflexivity.
  assert (H2 : grobid_request default_parser env_unavailable paper "%PDF-1.4"
               = Return (mkResponse 503 "unavailable")) by reflexivity.
  assert (H3 : status_code (mkResponse 503 "unavailable") <> 200%Z)
    by (simpl; lia).
  destruct (faults_become_no_data default_parser env_unavailable paper ""
              empty_world) as (_ & _ & _ & _ & _ & Hstatus & _).
  split; [exact H1|]. split; [exact H2|]. exact (Hstatus _ _ H1 H2 H3).
Defined.

(** The result of [a.pdf] has the title [a] and the lengths of its texts. *)
Lemma result_title_and_lengths_witness :
  exists r,
    outcome (parse_article default_parser env_two_of_three (in_dir "a.pdf"))
            empty_world = Return (Some r) /\
    r_title r = "a" /\ r_abstract_length r = 8 /\ r_text_length r = 12.
Proof.
  eexists. split; [vm_compute; reflexivity|].
  match goal with
  | |- r_title ?r = _ /\ _ =>
      destruct (result_title_and_lengths default_parser env_two_of_three
                  (in_dir "a.pdf") empty_world r ltac:(vm_compute; reflexivity))
        as (Ht & _ & Hbase & Ha & Hf)
  end.
  split; [|split].
  - apply (Hbase "a"); [discriminate | reflexivity].
  - exact Ha.
  - exact Hf.
Defined.

(** The second of the specification's scenarios: the service answers 503
    and the only page is one line of 80 letters. *)
Example heuristic_scenario :
  outcome (parse_article default_parser (env_of_pages [eighty]) paper)
          empty_world =
  Return (Some {| r_filename := "paper.pdf"; r_title := "paper";
                  r_abstract := eighty; r_full_text := eighty;
                  r_abstract_length := 80; r_text_length := 80;
                  r_method := PyMuPDF |}).
Proof. vm_compute. reflexivity. Qed.

(** The third: a 200 answer without abstract and body, and a document
    PyMuPDF cannot open, is a failure. *)
Example empty_answer_scenario :
  outcome (parse_article default_parser
             (scripted (fun _ => Return (mkResponse 200 "<TEI/>"))
                       (fun _ => Return (Elem (tei "TEI") None [] None))
                       (fun _ => Raise (FileDataError "cannot open"))
                       [paper])
             paper) empty_world = Return None.
Proof. vm_compute. reflexivity. Qed.


(** * Further properties of the program *)

(** ** Stripped strings *)

Section Trimmed.

Lemma lstrip_starts_clean s : starts_clean (PyStr.lstrip s) = true.
Proof.
  induction s as [|c s IH]; [reflexivity|]. simpl.
  destruct (PyStr.isspace c) eqn:E; [exact IH|]. simpl. now rewrite E.
Qed.

Lemma lstrip_fixed s : starts_clean s = true -> PyStr.lstrip s = s.
Proof.
  destruct s as [|c s]; [reflexivity|]. simpl.
  now destruct (PyStr.isspace c).
Qed.

Lemma rstrip_ends_clean s : ends_clean (PyStr.rstrip s) = true.
Proof.
  induction s as [|c s IH]; [reflexivity|]. simpl.
  destruct (PyStr.rstrip s) as [|d r] eqn:E.
  - destruct (PyStr.isspace c) eqn:Ec; simpl; [reflexivity|now rewrite Ec].
  - exact IH.
Qed.

Lemma rstrip_fixed s : ends_clean s = true -> PyStr.rstrip s = s.
Proof.
  induction s as [|c s IH]; [reflexivity|]. simpl.
  destruct s as [|d s'].
  - simpl. intros H. now destruct (PyStr.isspace c).
  - intros H. rewrite (IH H). reflexivity.
Qed.

Lemma rstrip_starts_clean s :
  starts_clean s = true -> starts_clean (PyStr.rstrip s) = true.
Proof.
  destruct s as [|c s]; [reflexivity|]. simpl. intros H.
  destruct (PyStr.rstrip s); [|exact H].
  destruct (PyStr.isspace c) eqn:E; [discriminate|]. simpl. now rewrite E.
Qed.

Lemma strip_clean s :
  starts_clean (PyStr.strip s) = true /\ ends_clean (PyStr.strip s) = true.
Proof.
  unfold PyStr.strip. split.
  - apply rstrip_starts_clean, lstrip_starts_clean.
  - apply rstrip_ends_clean.
Qed.

Lemma strip_fixed s :
  starts_clean s = true -> ends_clean s = true -> PyStr.strip s = s.
Proof.
  intros Hs He. unfold PyStr.strip.
  now rewrite (lstrip_fixed s Hs), (rstrip_fixed s He).
Qed.

Lemma strip_strip s : PyStr.strip (PyStr.strip s) = PyStr.strip s.
Proof. destruct (strip_clean s). now apply strip_fixed. Qed.

Lemma starts_clean_append a b :
  a <> "" -> starts_clean (a +:+ b) = starts_clean a.
Proof. destruct a; [congruence|reflexivity]. Qed.

Lemma ends_clean_append a b :
  b <> "" -> ends_clean (a +:+ b) = ends_clean b.
Proof.
  intros Hb. induction a as [|c a IH]; [reflexivity|].
  rewrite append_cons. simpl.
  destruct (a +:+ b) eqn:E; [|exact IH].
  destruct a; [|discriminate]. now destruct b.
Qed.

(** Non-empty stripped parts joined by spaces are stripped. *)
Lemma join_clean parts :
  Forall (fun x => x <> "" /\ starts_clean x = true /\ ends_clean x = true)
         parts ->
  starts_clean (PyStr.join " " parts) = true /\
  ends_clean (PyStr.join " " parts) = true /\
  (parts <> [] -> PyStr.join " " parts <> "").
Proof.
  induction 1 as [|x rest (Hx & Hs & He) Hrest IH]; [now repeat split|].
  destruct rest as [|y rest'].
  - simpl. repeat split; auto.
  - change (PyStr.join " " (x :: y :: rest'))
      with (x +:+ " " +:+ PyStr.join " " (y :: rest')).
    destruct IH as (_ & IHe & IHn).
    assert (Hj : PyStr.join " " (y :: rest') <> "") by (apply IHn; discriminate).
    split; [|split].
    + now rewrite starts_clean_append.
    + rewrite ends_clean_append by (now destruct (PyStr.join " " (y :: rest'))).
      rewrite (ends_clean_append " ") by exact Hj. exact IHe.
    + intros _. destruct x; [congruence|discriminate].
Qed.

Lemma extract_text_from_element_clean o :
  PyStr.strip (extract_text_from_element o) = extract_text_from_element o.
Proof.
  destruct o as [e|]; [|reflexivity]. simpl.
  destruct (join_clean (map stripped_text (List.filter has_text (iter e))))
    as (Hs & He & _).
  - apply Forall_forall. intros x Hx. apply list_elem_of_In in Hx.
    apply in_map_iff in Hx as (el & <- & Hel).
    apply filter_In in Hel as [_ Hel].
    unfold has_text, stripped_text in *.
    destruct (text el) as [t|]; [|discriminate].
    apply andb_prop in Hel as [_ Hel]. apply truthy_true in Hel.
    destruct (strip_clean t). auto.
  - now apply strip_fixed.
Qed.

End Trimmed.

(** ** What every result has *)

Section EveryResult.

Variables (self : HybridPDFParser) (env : Env).

Lemma extract_from_xml_stripped xml w d :
  outcome (extract_from_xml env xml) w = Return d ->
  PyStr.strip (abstract d) = abstract d /\
  PyStr.strip (full_text d) = full_text d.
Proof.
  destruct (ET_fromstring env xml) as [root|e] eqn:E.
  - rewrite (extract_from_xml_parsed env xml root w E). intros [= <-].
    split; apply extract_text_from_element_clean.
  - unfold outcome. rewrite (extract_from_xml_malformed env xml e w E).
    intros [= <-]. now split.
Qed.

Lemma extract_text_with_pymupdf_stripped p w d :
  outcome (extract_text_with_pymupdf env p) w = Return d ->
  PyStr.strip (abstract d) = abstract d /\
  PyStr.strip (full_text d) = full_text d.
Proof.
  unfold extract_text_with_pymupdf. run_monad.
  destruct (fitz_open env p) as [doc|e]; [|intros [= <-]; now split].
  rewrite page_loop_run.
  destruct (read_pages doc) as [texts|e]; intros [= <-]; simpl;
    [split; apply strip_strip | now split].
Qed.

(** The data and the method of the fallback step, by what the service
    returned. *)
Lemma extract_with_fallback_cases p w :
  (exists xml d,
     xml <> "" /\
     outcome (parse_pdf_to_xml self env p) w = Return (Some xml) /\
     outcome (extract_from_xml env xml) w = Return d /\
     outcome (extract_with_fallback self env p) w = Return (d, GROBID)) \/
  (exists d,
     (outcome (parse_pdf_to_xml self env p) w = Return None \/
      outcome (parse_pdf_to_xml self env p) w = Return (Some "")) /\
     outcome (extract_text_with_pymupdf env p) w = Return d /\
     outcome (extract_with_fallback self env p) w = Return (d, PyMuPDF)).
Proof.
  destruct (log_only_parse_pdf_to_xml self env p) as (rx & lx & Hx).
  destruct (parse_pdf_to_xml_run self env p w) as (x & w1 & Hx1).
  rewrite Hx in Hx1. injection Hx1 as -> _.
  destruct (log_only_extract_text_with_pymupdf env p) as (rp & lp & Hp).
  destruct (extract_text_with_pymupdf_run env p w) as (dp & w2 & Hp2).
  rewrite Hp in Hp2. injection Hp2 as -> _.
  unfold outcome, extract_with_fallback, bind, logger, ret.
  rewrite !Hx, !Hp. simpl.
  destruct x as [[|c xml]|]; simpl.
  - right. exists dp. rewrite Hp. simpl. auto.
  - left. destruct (log_only_extract_from_xml env (String c xml))
      as (rd & ld & Hd).
    destruct (extract_from_xml_run env (String c xml) w) as (d & w3 & Hd3).
    rewrite Hd in Hd3. injection Hd3 as -> _.
    exists (String c xml), d. rewrite !Hd. simpl.
    repeat split; auto; discriminate.
  - right. exists dp. rewrite Hp. simpl. auto.
Qed.

Lemma parse_article_cases p w r :
  outcome (parse_article self env p) w = Return (Some r) ->
  exists d,
    outcome (extract_with_fallback self env p) w = Return (d, r_method r) /\
    r_abstract r = abstract d /\ r_full_text r = full_text d.
Proof.
  intros H.
  destruct (extract_with_fallback_run self env p
              (add_log w [INFO_processing (name p)])) as (d & m & w1 & E).
  rewrite (parse_article_of_data self env p w d m w1 E) in H.
  exists d.
  rewrite (extract_with_fallback_outcome self env p w
             (add_log w [INFO_processing (name p)])).
  unfold outcome. rewrite E. simpl.
  destruct (negb _ && negb _); [discriminate|].
  injection H as <-. auto.
Qed.

(** X1. The method of a result tells what the service returned, not
    which path found text: it is GROBID exactly when [parse_pdf_to_xml]
    returned a body that is not empty, and the texts are then those read
    from that body; it is PyMuPDF exactly when the service gave nothing or
    an empty body, and the texts are then those of the heuristic path. *)
Theorem method_tells_the_service_answer (p : Path) (w : World)
    (r : ExtractionResult) :
  outcome (parse_article self env p) w = Return (Some r) ->
  (r_method r = GROBID <->
   exists xml, xml <> "" /\
     outcome (parse_pdf_to_xml self env p) w = Return (Some xml)) /\
  (r_method r = PyMuPDF <->
   outcome (parse_pdf_to_xml self env p) w = Return None \/
   outcome (parse_pdf_to_xml self env p) w = Return (Some "")) /\
  (forall xml, outcome (parse_pdf_to_xml self env p) w = Return (Some xml) ->
     xml <> "" ->
     outcome (extract_from_xml env xml) w =
       Return {| abstract := r_abstract r; full_text := r_full_text r |}) /\
  (r_method r = PyMuPDF ->
   outcome (extract_text_with_pymupdf env p) w =
     Return {| abstract := r_abstract r; full_text := r_full_text r |}).
Proof.
  intros H. destruct (parse_article_cases p w r H) as (d & Hf & Ha & Hb).
  assert (Hd : d = {| abstract := r_abstract r; full_text := r_full_text r |})
    by (destruct d; simpl in *; congruence).
  destruct (extract_with_fallback_cases p w)
    as [(xml & d' & Hne & Hx & Hd' & Hf') | (d' & Hx & Hd' & Hf')];
    rewrite Hf in Hf'; injection Hf' as -> Hm; rewrite Hm.
  - split; [split; eauto|].
    split; [split; [discriminate|intros [E|E]; congruence]|].
    split; [|discriminate].
    intros xml' Hx' _. rewrite Hx in Hx'. injection Hx' as <-. congruence.
  - split; [split; [discriminate|intros (xml & Hne & E)]|].
    + destruct Hx as [Hx|Hx]; congruence.
    + split; [tauto|]. split; [|intros _; congruence].
      intros xml Hx' Hne. destruct Hx as [Hx|Hx]; congruence.
Qed.

(** X2. The abstract and the full text of every result are stripped:
    neither begins or ends with whitespace, whichever path produced
    them. *)
Theorem results_are_stripped (p : Path) (w : World) (r : ExtractionResult) :
  outcome (parse_article self env p) w = Return (Some r) ->
  PyStr.strip (r_abstract r) = r_abstract r /\
  PyStr.strip (r_full_text r) = r_full_text r /\
  starts_clean (r_abstract r) = true /\ ends_clean (r_abstract r) = true /\
  starts_clean (r_full_text r) = true /\ ends_clean (r_full_text r) = true.
Proof.
  intros H. destruct (parse_article_cases p w r H) as (d & Hf & -> & ->).
  assert (Hs : PyStr.strip (abstract d) = abstract d /\
               PyStr.strip (full_text d) = full_text d).
  { destruct (extract_with_fallback_cases p w)
      as [(xml & d' & _ & _ & Hd' & Hf') | (d' & _ & Hd' & Hf')];
      rewrite Hf in Hf'; injection Hf' as -> _.
    - exact (extract_from_xml_stripped _ _ _ Hd').
    - exact (extract_text_with_pymupdf_stripped _ _ _ Hd'). }
  destruct Hs as [Ha Hb]. split; [exact Ha|]. split; [exact Hb|].
  rewrite <- Ha, <- Hb.
  destruct (strip_clean (abstract d)), (strip_clean (full_text d)). auto.
Qed.

End EveryResult.

Lemma method_tells_the_service_answer_witness :
  exists r,
    outcome (parse_article default_parser env_unavailable paper) empty_world
      = Return (Some r) /\
    (r_method r = PyMuPDF <->
     outcome (parse_pdf_to_xml default_parser env_unavailable paper)
             empty_world = Return None \/
     outcome (parse_pdf_to_xml default_parser env_unavailable paper)
             empty_world = Return (Some "")).
Proof.
  eexists. split; [vm_compute; reflexivity|].
  match goal with
  | |- r_method ?r = _ <-> _ =>
      exact (proj1 (proj2 (method_tells_the_service_answer default_parser
                             env_unavailable paper empty_world r eq_refl)))
  end.
Defined.

Lemma results_are_stripped_witness :
  exists r,
    outcome (parse_article default_parser
               (env_of_pages [padded_page]) paper) empty_world
      = Return (Some r) /\
    PyStr.strip (r_full_text r) = r_full_text r.
Proof.
  eexists. split; [vm_compute; reflexivity|].
  match goal with
  | |- PyStr.strip (r_full_text ?r) = _ =>
      exact (proj1 (proj2 (results_are_stripped default_parser
                             (env_of_pages [padded_page]) paper empty_world r
                             eq_refl)))
  end.
Defined.

(** ** More on the heuristic path *)

Section Blank.

Lemma lstrip_nil s : PyStr.lstrip s = "" <-> all_space s = true.
Proof.
  induction s as [|c s IH]; simpl; [tauto|].
  destruct (PyStr.isspace c); simpl; [exact IH|]. split; discriminate.
Qed.

Lemma rstrip_nil s : PyStr.rstrip s = "" <-> all_space s = true.
Proof.
  induction s as [|c s IH]; simpl; [tauto|].
  destruct (PyStr.rstrip s) eqn:E.
  - destruct (PyStr.isspace c); simpl.
    + split; [intros _; now apply IH | reflexivity].
    + split; discriminate.
  - split; [discriminate|]. intros H. apply andb_prop in H as [_ H].
    apply IH in H. discriminate.
Qed.

Lemma all_space_lstrip s : all_space (PyStr.lstrip s) = all_space s.
Proof.
  induction s as [|c s IH]; [reflexivity|]. simpl.
  destruct (PyStr.isspace c) eqn:E; [exact IH|]. simpl. now rewrite E.
Qed.

Lemma strip_nil s : PyStr.strip s = "" <-> all_space s = true.
Proof. unfold PyStr.strip. now rewrite rstrip_nil, all_space_lstrip. Qed.

Lemma all_space_append a b :
  all_space (a +:+ b) = all_space a && all_space b.
Proof.
  induction a as [|c a IH]; [reflexivity|].
  rewrite append_cons. simpl. now rewrite IH, andb_assoc.
Qed.

Lemma nonblank_all_space t : nonblank t = negb (all_space t).
Proof.
  unfold nonblank. destruct (all_space t) eqn:E.
  - apply strip_nil in E. now rewrite E.
  - destruct (PyStr.strip t) eqn:Es; [|reflexivity].
    apply strip_nil in Es. congruence.
Qed.

(** The gathered text is empty when every page is blank, and has a
    character that is not whitespace otherwise. *)
Lemma pages_text_blank texts :
  (Forall (fun t => all_space t = true) texts -> pages_text texts = "") /\
  (~ Forall (fun t => all_space t = true) texts ->
   all_space (pages_text texts) = false).
Proof.
  induction texts as [|t texts [IH1 IH2]]; simpl.
  - split; [reflexivity|]. intros H. destruct H. constructor.
  - rewrite nonblank_all_space. destruct (all_space t) eqn:E; simpl.
    + split.
      * intros H. apply IH1. now inversion H.
      * intros H. apply IH2. intros H'. apply H. now constructor.
    + split.
      * intros H. inversion H. congruence.
      * intros _. now rewrite all_space_append, E.
Qed.

End Blank.

Section NoLineFeed.

Lemma contains_append c a b :
  contains c (a +:+ b) = contains c a || contains c b.
Proof.
  induction a as [|d a IH]; [reflexivity|].
  rewrite append_cons. simpl. now rewrite IH, orb_assoc.
Qed.

Lemma split_without_separator sep s :
  Forall (fun l => contains sep l = false) (PyStr.split sep s).
Proof.
  induction s as [|c s IH]; simpl; [now repeat constructor|].
  destruct (Ascii.eqb c sep) eqn:E; [now constructor|].
  destruct (PyStr.split sep s) as [|h t]; simpl.
  - repeat constructor. simpl. now rewrite E.
  - inversion IH as [|? ? Hh Ht]. constructor; [|exact Ht].
    simpl. now rewrite E.
Qed.

Lemma lstrip_without c s :
  contains c s = false -> contains c (PyStr.lstrip s) = false.
Proof.
  induction s as [|d s IH]; [reflexivity|]. simpl. intros H.
  apply orb_false_elim in H as [Hd Hs].
  destruct (PyStr.isspace d); [now apply IH|]. simpl. now rewrite Hd, Hs.
Qed.

Lemma rstrip_without c s :
  contains c s = false -> contains c (PyStr.rstrip s) = false.
Proof.
  induction s as [|d s IH]; [reflexivity|]. simpl. intros H.
  apply orb_false_elim in H as [Hd Hs]. specialize (IH Hs).
  destruct (PyStr.rstrip s) eqn:E.
  - destruct (PyStr.isspace d); [reflexivity|]. simpl. now rewrite Hd.
  - simpl in *. now rewrite Hd, IH.
Qed.

Lemma strip_without c s :
  contains c s = false -> contains c (PyStr.strip s) = false.
Proof. intros H. now apply rstrip_without, lstrip_without. Qed.

Lemma abstract_loop_without c lines : forall acc,
  contains c " " = false -> contains c acc = false ->
  Forall (fun l => contains c l = false) lines ->
  contains c (abstract_loop lines acc) = false.
Proof.
  induction lines as [|line rest IH]; intros acc Hsp Hacc Hl; [exact Hacc|].
  inversion Hl as [|? ? Hline Hrest]. subst. simpl.
  assert (Hnew : contains c (acc +:+ PyStr.strip line +:+ " ") = false).
  { rewrite !contains_append, Hacc, Hsp, (strip_without c line Hline).
    reflexivity. }
  destruct (PyStr.truthy (PyStr.strip line) && _); [|now apply IH].
  destruct (500 <? _); [exact Hnew | now apply IH].
Qed.

End NoLineFeed.

Section HeuristicData.

Variable env : Env.

(** X3. For a document whose pages can be read, the heuristic path
    returns an empty full text exactly when every page consists of
    whitespace only; and whenever the full text is empty the abstract is
    empty too. *)
Theorem heuristic_is_empty_on_blank_pages (p : Path) (w : World)
    (doc : list Page) (texts : list string) :
  fitz_open env p = Return doc -> map get_text doc = map Return texts ->
  exists d,
    outcome (extract_text_with_pymupdf env p) w = Return d /\
    (full_text d = "" <-> Forall (fun t => all_space t = true) texts) /\
    (full_text d = "" -> abstract d = "").
Proof.
  intros Ho Ht. eexists. split;
    [apply (extract_text_with_pymupdf_reads env p w doc texts Ho Ht)|].
  simpl. destruct (pages_text_blank texts) as [Hb Hn].
  assert (Hiff : PyStr.strip (pages_text texts) = "" <->
                 Forall (fun t => all_space t = true) texts).
  { rewrite strip_nil. split.
    - intros H. destruct (@List.Forall_dec _ (fun t => all_space t = true)
                            (fun t => bool_dec (all_space t) true) texts)
        as [Hf|Hf]; [exact Hf|]. rewrite (Hn Hf) in H. discriminate.
    - intros H. now rewrite (Hb H). }
  split; [exact Hiff|].
  intros H. apply Hiff in H. now rewrite (Hb H).
Qed.

Lemma heuristic_abstract_needs_text p w d :
  outcome (extract_text_with_pymupdf env p) w = Return d ->
  full_text d = "" -> abstract d = "".
Proof.
  unfold extract_text_with_pymupdf. run_monad.
  destruct (fitz_open env p) as [doc|e]; [|now intros [= <-]].
  rewrite page_loop_run.
  destruct (read_pages doc) as [texts|e]; [|now intros [= <-]].
  intros [= <-]. simpl. rewrite !append_nil_l. intros H. apply strip_nil in H.
  destruct (pages_text_blank texts) as [Hb Hn].
  destruct (@List.Forall_dec _ (fun t => all_space t = true)
              (fun t => bool_dec (all_space t) true) texts) as [Hf|Hf].
  - now rewrite (Hb Hf).
  - rewrite (Hn Hf) in H. discriminate.
Qed.

(** X4. The abstract of the heuristic path is one line: it contains no
    line feed, whatever the pages hold. *)
Theorem heuristic_abstract_is_one_line (p : Path) (w : World)
    (d : ExtractedData) :
  outcome (extract_text_with_pymupdf env p) w = Return d ->
  contains PyStr.LF (abstract d) = false.
Proof.
  unfold extract_text_with_pymupdf. run_monad.
  destruct (fitz_open env p) as [doc|e]; [|now intros [= <-]].
  rewrite page_loop_run.
  destruct (read_pages doc) as [texts|e]; [|now intros [= <-]].
  intros [= <-]. simpl. apply strip_without, abstract_loop_without;
    [reflexivity | reflexivity |].
  apply Forall_take, split_without_separator.
Qed.

End HeuristicData.

(** X5. A result of the method PyMuPDF always has a full text: its
    [text_length] is positive, also when the abstract is empty. *)
Theorem heuristic_result_has_text (self : HybridPDFParser) (env : Env)
    (p : Path) (w : World) (r : ExtractionResult) :
  outcome (parse_article self env p) w = Return (Some r) ->
  r_method r = PyMuPDF ->
  r_full_text r <> "" /\ 0 < r_text_length r.
Proof.
  intros H Hm.
  assert (Hr : parse_result self env p = Some r)
    by (rewrite parse_article_outcome in H; congruence).
  destruct (parse_result_fields self env p r Hr) as (_ & _ & _ & Hlen & Hne).
  destruct (parse_article_cases self env p w r H) as (d & Hf & Ha & Hb).
  destruct (extract_with_fallback_cases self env p w)
    as [(xml & d' & _ & _ & _ & Hf') | (d' & _ & Hd' & Hf')];
    rewrite Hf in Hf'; injection Hf' as <- Hm'; [congruence|].
  assert (Hfull : r_full_text r <> "").
  { intros E. destruct Hne as [Hne|Hne]; [|congruence].
    apply Hne. rewrite Ha. apply (heuristic_abstract_needs_text env p w d Hd').
    congruence. }
  split; [exact Hfull|]. rewrite Hlen.
  destruct (r_full_text r); [congruence|simpl; lia].
Qed.

Lemma heuristic_is_empty_on_blank_pages_witness :
  fitz_open (env_of_pages ["  "; ""]) paper
    = Return (map (fun t => mkPage (Return t)) ["  "; ""]) /\
  exists d,
    outcome (extract_text_with_pymupdf (env_of_pages ["  "; ""]) paper)
            empty_world = Return d /\
    (full_text d = "" <-> Forall (fun t => all_space t = true) ["  "; ""]) /\
    (full_text d = "" -> abstract d = "").
Proof.
  split; [reflexivity|].
  apply (heuristic_is_empty_on_blank_pages (env_of_pages ["  "; ""]) paper
           empty_world (map (fun t => mkPage (Return t)) ["  "; ""])
           ["  "; ""]); reflexivity.
Defined.

Lemma heuristic_abstract_is_one_line_witness :
  exists d,
    outcome (extract_text_with_pymupdf (env_of_pages [eighty; eighty]) paper)
            empty_world = Return d /\
    contains PyStr.LF (abstract d) = false.
Proof.
  eexists. split; [vm_compute; reflexivity|].
  match goal with
  | |- contains _ (abstract ?d) = _ =>
      exact (heuristic_abstract_is_one_line (env_of_pages [eighty; eighty])
               paper empty_world d eq_refl)
  end.
Defined.

Lemma heuristic_result_has_text_witness :
  exists r,
    outcome (parse_article default_parser env_unavailable paper) empty_world
      = Return (Some r) /\
    r_method r = PyMuPDF /\ r_full_text r <> "" /\ 0 < r_text_length r.
Proof.
  eexists. split; [vm_compute; reflexivity|]. split; [reflexivity|].
  match goal with
  | |- r_full_text ?r <> _ /\ _ =>
      exact (heuristic_result_has_text default_parser env_unavailable paper
               empty_world r eq_refl eq_refl)
  end.
Defined.

(** ** More on the structured path *)

Section Find.

Lemma head_filter_none {A} (f : A -> bool) l :
  head (List.filter f l) = None <-> Forall (fun x => f x = false) l.
Proof.
  induction l as [|x l IH]; simpl; [split; [constructor|reflexivity]|].
  destruct (f x) eqn:E; simpl.
  - split; [discriminate|]. intros H. inversion H. congruence.
  - rewrite IH. split; [now constructor | intros H; now inversion H].
Qed.

Lemma has_tag_false t e : has_tag t e = false <-> tag e <> t.
Proof. unfold has_tag. apply String.eqb_neq. Qed.

Lemma has_tag_true t e : has_tag t e = true <-> tag e = t.
Proof. unfold has_tag. apply String.eqb_eq. Qed.

Lemma flat_map_nil {A B} (g : A -> list B) l :
  Forall (fun x => g x = []) l -> flat_map g l = [].
Proof. induction 1 as [|x l Hx _ IH]; simpl; [reflexivity|]. now rewrite Hx, IH. Qed.

End Find.

Section StructuredFields.

Variable env : Env.

(** X6. Where the markup parses and no text follows the end tag of a
    descendant of the body (of the abstract), the full text (the abstract)
    is all the text the element contains: every fragment that is not only
    whitespace, stripped, in document order, joined by single spaces. *)
Theorem structured_text_is_complete_without_tails (xml : string)
    (root : Element) (w : World) :
  ET_fromstring env xml = Return root ->
  exists d,
    outcome (extract_from_xml env xml) w = Return d /\
    (forall b, find_body root = Some b -> no_tail_text b = true ->
       full_text d = contained_text b) /\
    (forall a, find_abstract root = Some a -> no_tail_text a = true ->
       abstract d = contained_text a).
Proof.
  intros H. eexists. split; [apply (extract_from_xml_parsed env xml root w H)|].
  simpl. split.
  - intros b -> Hb. now apply extract_text_without_tails.
  - intros a -> Ha. now apply extract_text_without_tails.
Qed.

(** X7. Where the markup parses but no element below the root is a TEI
    [body], the full text is empty; where no TEI [profileDesc] below the
    root has a TEI [abstract] among its children, the abstract is empty:
    an [abstract] element elsewhere is not looked at, and neither is the
    root itself. *)
Theorem missing_elements_give_empty_fields (xml : string) (root : Element)
    (w : World) :
  ET_fromstring env xml = Return root ->
  exists d,
    outcome (extract_from_xml env xml) w = Return d /\
    (Forall (fun e => tag e <> tei "body") (below root) -> full_text d = "") /\
    (Forall (fun e => tag e = tei "profileDesc" ->
                      Forall (fun c => tag c <> tei "abstract") (children e))
            (below root) ->
     abstract d = "").
Proof.
  intros H. eexists. split; [apply (extract_from_xml_parsed env xml root w H)|].
  simpl. split.
  - intros Hall. replace (find_body root) with (@None Element); [reflexivity|].
    symmetry. apply head_filter_none.
    eapply Forall_impl; [exact Hall|]. intros e He. now apply has_tag_false.
  - intros Hall.
    replace (find_abstract root) with (@None Element); [reflexivity|].
    symmetry. unfold find_abstract. rewrite flat_map_nil; [reflexivity|].
    apply Forall_forall. intros e He. apply list_elem_of_In in He.
    apply filter_In in He as [He Ht]. apply has_tag_true in Ht.
    rewrite Forall_forall in Hall.
    specialize (Hall e ltac:(now apply list_elem_of_In) Ht).
    unfold child_step.
    assert (Hn : head (List.filter (has_tag (tei "abstract")) (children e))
                 = None).
    { apply head_filter_none. eapply Forall_impl; [exact Hall|].
      intros c Hc. now apply has_tag_false. }
    now destruct (List.filter _ (children e)).
Qed.

End StructuredFields.

Lemma structured_text_is_complete_without_tails_witness :
  ET_fromstring env_two_of_three "<TEI/>"
    = Return (tei_doc "Foo bar." "Hello world.") /\
  exists d,
    outcome (extract_from_xml env_two_of_three "<TEI/>") empty_world
      = Return d /\
    (forall b, find_body (tei_doc "Foo bar." "Hello world.") = Some b ->
       no_tail_text b = true -> full_text d = contained_text b).
Proof.
  split; [reflexivity|].
  destruct (structured_text_is_complete_without_tails env_two_of_three
              "<TEI/>" (tei_doc "Foo bar." "Hello world.") empty_world
              eq_refl) as (d & Hd & Hb & _).
  exists d. split; [exact Hd | exact Hb].
Defined.

Lemma missing_elements_give_empty_fields_witness :
  ET_fromstring env_mixed "<TEI>" = Return mixed_tei /\
  exists d,
    outcome (extract_from_xml env_mixed "<TEI>") empty_world = Return d /\
    abstract d = "".
Proof.
  split; [reflexivity|].
  destruct (missing_elements_give_empty_fields env_mixed "<TEI>" mixed_tei
              empty_world eq_refl) as (d & Hd & _ & Ha).
  exists d. split; [exact Hd|]. apply Ha.
  repeat constructor; intros E; vm_compute in E; discriminate.
Defined.

(** ** More on main *)

Section MainExtras.

Variable env : Env.



Lemma loop_body_methods parser t p w :
  exists t' w',
    loop_body parser env t p w = (Return t', w') /\
    t_grobid_success t' =
      t_grobid_success t
      + length (with_method GROBID (successes parser env [p])) /\
    t_pymupdf_success t' =
      t_pymupdf_success t
      + length (with_method PyMuPDF (successes parser env [p])).
Proof.
  destruct (parse_article_result parser env p) as (l & H).
  unfold loop_body, bind at 1. rewrite H. unfold successes. cbn [omap list_omap].
  destruct (parse_result parser env p) as [r|]; cbn.
  - destruct (r_method r) eqn:Em; unfold with_method; simpl; rewrite ?Em;
      do 2 eexists; (split; [reflexivity|]); simpl; lia.
  - do 2 eexists. split; [reflexivity|]. simpl. lia.
Qed.

Lemma successes_cons parser p files :
  successes parser env (p :: files)
  = successes parser env [p] ++ successes parser env files.
Proof.
  unfold successes. cbn. now destruct (parse_result parser env p).
Qed.

Lemma main_loop_methods parser files : forall t w,
  exists t' w',
    main_loop parser env files t w = (Return t', w') /\
    t_grobid_success t' =
      t_grobid_success t
      + length (with_method GROBID (successes parser env files)) /\
    t_pymupdf_success t' =
      t_pymupdf_success t
      + length (with_method PyMuPDF (successes parser env files)).
Proof.
  induction files as [|p rest IH]; intros t w.
  - exists t, w. repeat split; cbn; lia.
  - destruct (loop_body_methods parser t p w) as (t1 & w1 & E1 & G1 & P1).
    destruct (IH t1 w1) as (t' & w' & E' & G' & P').
    exists t', w'. simpl main_loop. unfold bind. rewrite E1, E'.
    rewrite successes_cons. unfold with_method in *.
    rewrite !List.filter_app, !length_app. repeat split; lia.
Qed.

(** X11. In the statistics of a run, [grobid_success] is the number of
    results of [all_articles.json] whose method is GROBID and
    [pymupdf_success] the number of those whose method is PyMuPDF. *)
Theorem statistics_count_by_method (w : World) :
  all_successes env <> [] ->
  exists st,
    out_dir (world_after (main env) w) !! "parsing_statistics.json"
      = Some (JsonStats st) /\
    out_dir (world_after (main env) w) !! "all_articles.json"
      = Some (JsonResults (all_successes env)) /\
    grobid_success st = length (with_method GROBID (all_successes env)) /\
    pymupdf_success st = length (with_method PyMuPDF (all_successes env)).
Proof.
  intros Hne.
  destruct (main_run env w) as (l & t & rate & Ht & Hr & _ & _ & _ & E).
  destruct (main_loop_methods default_parser (glob_pdf env) empty_tally w)
    as (t' & w' & E' & G & P).
  unfold outcome in Ht. rewrite E' in Ht. injection Ht as ->.
  unfold world_after. rewrite E. simpl.
  destruct (all_successes env) as [|r0 rs] eqn:Hs; [congruence|].
  eexists. split; [apply lookup_insert_eq|].
  split; [rewrite lookup_insert_ne by discriminate;
          rewrite lookup_insert_eq; now rewrite Hr|].
  simpl. unfold all_successes in Hs. rewrite Hs in G, P. simpl in G, P.
  split; assumption.
Qed.

End MainExtras.

Lemma statistics_count_by_method_witness :
  all_successes env_three_heuristic <> [] /\
  exists st,
    out_dir (world_after (main env_three_heuristic) empty_world)
      !! "parsing_statistics.json" = Some (JsonStats st) /\
    grobid_success st
      = length (with_method GROBID (all_successes env_three_heuristic)) /\
    pymupdf_success st
      = length (with_method PyMuPDF (all_successes env_three_heuristic)).
Proof.
  assert (H : all_successes env_three_heuristic <> [])
    by (vm_compute; discriminate).
  split; [exact H|].
  destruct (statistics_count_by_method env_three_heuristic empty_world H)
    as (st & Hs & _ & Hg & Hp).
  exists st. auto.
Defined.


(** ** More on the output files *)

Section OutputFiles.

Lemma append_inj_l (s a b : string) : s +:+ a = s +:+ b -> a = b.
Proof.
  induction s as [|c s IH]; [trivial|].
  rewrite !append_cons. intros [= H]. now apply IH.
Qed.

(** X12. Two results are written to the same file only if they have the
    same title and the same method, and the file of a result is never
    [all_articles.json] or [parsing_statistics.json], whatever its
    title. *)
Theorem result_files_do_not_clash (r1 r2 : ExtractionResult) :
  (article_filename r1 = article_filename r2 ->
   r_title r1 = r_title r2 /\ r_method r1 = r_method r2) /\
  article_filename r1 <> "all_articles.json" /\
  article_filename r1 <> "parsing_statistics.json".
Proof.
  split; [|split; [apply article_filename_not_all
                  | apply article_filename_not_stats]].
  intros H. pose proof (article_filename_title r1 r2 H) as Ht.
  split; [exact Ht|].
  rewrite !article_filename_unfold, Ht in H. apply append_inj_l in H.
  destruct (r_method r1), (r_method r2); try reflexivity; discriminate.
Qed.

Lemma NoDup_map_by {A B C} (f : A -> B) (g : A -> C) (l : list A) :
  (forall x y, In x l -> In y l -> g x = g y -> f x = f y) ->
  List.NoDup (map f l) -> List.NoDup (map g l).
Proof.
  induction l as [|x l IH]; simpl; intros Hfg Hnd; [constructor|].
  apply List.NoDup_cons_iff in Hnd as [Hx Hnd].
  apply List.NoDup_cons_iff. split.
  - intros Hin. apply Hx. apply in_map_iff in Hin as (y & E & Hy).
    apply in_map_iff. exists y. split; [|exact Hy].
    symmetry. apply Hfg; auto.
  - apply IH; auto.
Qed.

Lemma pdf_names_have_distinct_stems (files : list Path) :
  List.NoDup (map name files) ->
  Forall (fun p => exists base, base <> "" /\ name p = base +:+ ".pdf") files ->
  List.NoDup (map stem files).
Proof.
  intros Hnd Hall. apply (NoDup_map_by name stem); [|exact Hnd].
  rewrite Forall_forall in Hall. intros x y Hx Hy E.
  destruct (Hall x ltac:(now apply list_elem_of_In)) as (bx & Hbx & Ex).
  destruct (Hall y ltac:(now apply list_elem_of_In)) as (by' & Hby & Ey).
  rewrite (stem_pdf x bx Hbx Ex), (stem_pdf y by' Hby Ey) in E.
  congruence.
Qed.

(** X13. When the enumerated documents have pairwise distinct names of
    the form [base.pdf] with a non-empty base, no result is overwritten:
    after a run that completes (the output directory is created and no
    write raises) every successful document's file holds its own result. *)
Theorem pdf_documents_keep_their_files (fs : FileSystem) (env : Env)
    (w : World) :
  outcome (OnDisk.main fs env) w = Return tt ->
  List.NoDup (map name (glob_pdf env)) ->
  Forall (fun p => exists base, base <> "" /\ name p = base +:+ ".pdf")
         (glob_pdf env) ->
  forall r, In r (all_successes env) ->
    out_dir (world_after (OnDisk.main fs env) w) !! article_filename r
      = Some (JsonResult r).
Proof.
  intros Hc Hnd Hall r Hin.
  unfold world_after. rewrite (main_completes fs env w Hc).
  destruct (output_directory_of_main env w) as [H _].
  destruct (all_successes env) as [|r0 rs] eqn:Hs; [destruct Hin|].
  rewrite <- Hs in *.
  destruct H as (_ & _ & H); [rewrite Hs; discriminate|].
  apply H; [|exact Hin].
  now apply pdf_names_have_distinct_stems.
Qed.

End OutputFiles.

Lemma result_files_do_not_clash_witness :
  article_filename (mkResult "a.pdf" "a" "Foo bar." "Hello world." 8 12 GROBID)
    = article_filename (mkResult "a.pdf" "a" "" "Other text" 0 10 GROBID) /\
  r_method (mkResult "a.pdf" "a" "Foo bar." "Hello world." 8 12 GROBID)
    = r_method (mkResult "a.pdf" "a" "" "Other text" 0 10 GROBID).
Proof.
  split; [reflexivity|].
  exact (proj2 (proj1 (result_files_do_not_clash
                         (mkResult "a.pdf" "a" "Foo bar." "Hello world." 8 12
                                   GROBID)
                         (mkResult "a.pdf" "a" "" "Other text" 0 10 GROBID))
                  eq_refl)).
Defined.

Lemma pdf_documents_keep_their_files_witness :
  outcome (OnDisk.main fs_accepting env_two_of_three) empty_world = Return tt /\
  List.NoDup (map name (glob_pdf env_two_of_three)) /\
  forall r, In r (all_successes env_two_of_three) ->
    out_dir (world_after (OnDisk.main fs_accepting env_two_of_three)
                         empty_world)
      !! article_filename r = Some (JsonResult r).
Proof.
  assert (Hc : outcome (OnDisk.main fs_accepting env_two_of_three) empty_world
               = Return tt) by (vm_compute; reflexivity).
  assert (Hnd : List.NoDup (map name (glob_pdf env_two_of_three))).
  { simpl. repeat constructor; simpl; intuition discriminate. }
  split; [exact Hc|]. split; [exact Hnd|].
  apply (pdf_documents_keep_their_files fs_accepting env_two_of_three
           empty_world Hc Hnd).
  simpl. repeat constructor.
  - exists "a". split; [discriminate|reflexivity].
  - exists "b". split; [discriminate|reflexivity].
  - exists "c". split; [discriminate|reflexivity].
Defined.

(** ** The log *)

Section Log.

Variables (self : HybridPDFParser) (env : Env).

Lemma parse_pdf_to_xml_log p :
  exists x l,
    (forall w, parse_pdf_to_xml self env p w = (Return x, add_log w l)) /\
    match x with
    | Some _ => l = []
    | None => exists r, l = [r] /\ service_record r = true
    end.
Proof.
  unfold parse_pdf_to_xml, try_except, bind, call, logger, ret.
  destruct (open_rb env p) as [f|e].
  - destruct (requests_post env _ _ _ _) as [resp|e].
    + destruct (status_code resp =? 200)%Z.
      * exists (Some (response_text resp)), []. split; [|reflexivity].
        intros w. now rewrite add_log_nil.
      * eexists None, [_]. split; [reflexivity|]. eexists. split; reflexivity.
    + eexists None, [_]. split; [reflexivity|]. eexists. split; reflexivity.
  - eexists None, [_]. split; [reflexivity|]. eexists. split; reflexivity.
Qed.

Lemma extract_from_xml_log xml :
  exists d l,
    (forall w, extract_from_xml env xml w = (Return d, add_log w l)) /\
    match ET_fromstring env xml with
    | Return _ => l = []
    | Raise e => l = [ERROR_xml e] /\ d = no_data
    end.
Proof.
  unfold extract_from_xml, try_except, bind, call, logger, ret.
  destruct (ET_fromstring env xml) as [root|e].
  - eexists _, []. split; [|reflexivity]. intros w. now rewrite add_log_nil.
  - eexists _, [_]. split; [reflexivity|]. split; reflexivity.
Qed.

Lemma extract_text_with_pymupdf_log p :
  exists d l,
    (forall w, extract_text_with_pymupdf env p w = (Return d, add_log w l)) /\
    (l = [] \/ exists e, l = [ERROR_pymupdf e] /\ d = no_data).
Proof.
  unfold extract_text_with_pymupdf, try_except, bind, call, logger, ret.
  destruct (fitz_open env p) as [doc|e].
  - destruct (read_pages doc) as [texts|e] eqn:E.
    + eexists _, []. split; [|now left]. intros w.
      rewrite page_loop_run, E, add_log_nil. reflexivity.
    + eexists _, [_]. split; [|right; eexists; split; reflexivity].
      intros w. rewrite page_loop_run, E. reflexivity.
  - eexists _, [_]. split; [reflexivity|]. right. eexists. split; reflexivity.
Qed.

(** X14. Each fault is logged once, and nothing else is: a call of
    [parse_pdf_to_xml] that returns a body writes no record and one that
    returns [None] writes exactly one, a warning for the status or an
    error for the exception; [extract_from_xml] writes the error of the
    parser when the markup does not parse and nothing when it does;
    [extract_text_with_pymupdf] writes nothing or, with the empty data,
    the one error of PyMuPDF.  None of them touches the output
    directory. *)
Theorem faults_are_logged_once (p : Path) (xml : string) (w : World) :
  (exists x l,
     parse_pdf_to_xml self env p w = (Return x, add_log w l) /\
     (x <> None -> l = []) /\
     (x = None -> exists r, l = [r] /\ service_record r = true)) /\
  (exists d l,
     extract_from_xml env xml w = (Return d, add_log w l) /\
     (forall root, ET_fromstring env xml = Return root -> l = []) /\
     (forall e, ET_fromstring env xml = Raise e -> l = [ERROR_xml e])) /\
  (exists d l,
     extract_text_with_pymupdf env p w = (Return d, add_log w l) /\
     (l = [] \/ exists e, l = [ERROR_pymupdf e] /\ d = no_data)).
Proof.
  split; [|split].
  - destruct (parse_pdf_to_xml_log p) as (x & l & H & Hl).
    exists x, l. split; [apply H|]. destruct x; split; auto; congruence.
  - destruct (extract_from_xml_log xml) as (d & l & H & Hl).
    exists d, l. split; [apply H|].
    destruct (ET_fromstring env xml) as [root|e].
    + split; [intros; exact Hl | discriminate].
    + split; [discriminate | intros e' [= <-]; tauto].
  - destruct (extract_text_with_pymupdf_log p) as (d & l & H & Hl).
    exists d, l. split; [apply H | exact Hl].
Qed.

(** The records of the fallback step: none is the warning of a failed
    document. *)
Lemma extract_with_fallback_log p :
  exists d m l,
    (forall w,
       extract_with_fallback self env p w = (Return (d, m), add_log w l)) /\
    Forall (fun r => no_text_record r = false) l.
Proof.
  destruct (parse_pdf_to_xml_log p) as (x & lx & Hx & Hlx).
  destruct (extract_text_with_pymupdf_log p) as (dp & lp & Hp & Hlp).
  assert (Fx : Forall (fun r => no_text_record r = false) lx).
  { destruct x; [subst; constructor|].
    destruct Hlx as (r & -> & Hr). repeat constructor. now destruct r. }
  assert (Fp : Forall (fun r => no_text_record r = false) lp).
  { destruct Hlp as [->|(e & -> & _)]; repeat constructor. }
  assert (Hpy : exists l,
    (forall w,
       (run logger (INFO_fallback (name p));
        do extracted_data <- extract_text_with_pymupdf env p;
        ret (extracted_data, PyMuPDF)) (add_log w lx) =
       (Return (dp, PyMuPDF), add_log w l)) /\
    Forall (fun r => no_text_record r = false) l).
  { exists (lx ++ [INFO_fallback (name p)] ++ lp). split.
    - intros w. unfold bind, logger, ret. rewrite Hp. simpl.
      unfold add_log. simpl. now rewrite <- !app_assoc.
    - apply Forall_app. split; [exact Fx|]. now constructor. }
  unfold extract_with_fallback.
  destruct x as [[|c xml]|].
  - destruct Hpy as (l & Hl & Fl). exists dp, PyMuPDF, l. split; [|exact Fl].
    intros w. unfold bind at 1. rewrite Hx. apply Hl.
  - destruct (extract_from_xml_log (String c xml)) as (d & ld & Hd & Hld).
    exists d, GROBID, (lx ++ ld). split.
    + intros w. unfold bind at 1. rewrite Hx. simpl. unfold bind, ret.
      rewrite Hd. now rewrite add_log_app.
    + apply Forall_app. split; [exact Fx|].
      destruct (ET_fromstring env (String c xml)); [subst; constructor|].
      destruct Hld as [-> _]. repeat constructor.
  - destruct Hpy as (l & Hl & Fl). exists dp, PyMuPDF, l. split; [|exact Fl].
    intros w. unfold bind at 1. rewrite Hx. apply Hl.
Qed.

(** X15. [parse_article] writes no file and its outcome does not depend
    on the world it starts from; it only appends to the log: first the
    record that the document is being processed, last, exactly when it
    returns [None], the warning that no text could be extracted, and no
    such warning otherwise. *)
Theorem parse_article_only_logs (p : Path) :
  exists l,
    (forall w,
       parse_article self env p w =
       (Return (parse_result self env p),
        add_log w (INFO_processing (name p) :: l
                   ++ match parse_result self env p with
                      | None => [WARNING_no_text (name p)]
                      | Some _ => []
                      end))) /\
    Forall (fun r => no_text_record r = false) l /\
    (forall w, out_dir (world_after (parse_article self env p) w) = out_dir w).
Proof.
  destruct (extract_with_fallback_log p) as (d & m & l & Hf & Fl).
  exists l.
  assert (Hrun : forall w, exists o,
    parse_article self env p w =
    (Return o,
     add_log w (INFO_processing (name p) :: l
                ++ match o with
                   | None => [WARNING_no_text (name p)]
                   | Some _ => []
                   end))).
  { intros w. unfold parse_article, bind, logger. rewrite Hf. simpl.
    destruct (negb _ && negb _); [exists None | eexists (Some _)];
      unfold ret, add_log; simpl;
      rewrite <- ?app_assoc; simpl; rewrite ?app_nil_r; reflexivity. }
  assert (Hall : forall w,
    parse_article self env p w =
    (Return (parse_result self env p),
     add_log w (INFO_processing (name p) :: l
                ++ match parse_result self env p with
                   | None => [WARNING_no_text (name p)]
                   | Some _ => []
                   end))).
  { intros w. destruct (Hrun w) as (o & Ho).
    pose proof (parse_article_outcome self env p w) as Hr.
    unfold outcome in Hr. rewrite Ho in Hr. injection Hr as ->. exact Ho. }
  split; [exact Hall|]. split; [exact Fl|].
  intros w. unfold world_after. now rewrite Hall.
Qed.

End Log.

Lemma faults_are_logged_once_witness :
  exists l,
    parse_pdf_to_xml default_parser env_unavailable paper empty_world
      = (Return None, add_log empty_world l) /\
    exists r, l = [r] /\ service_record r = true.
Proof.
  destruct (proj1 (faults_are_logged_once default_parser env_unavailable
                     paper "" empty_world)) as (x & l & H & _ & Hnone).
  assert (Hx : x = None).
  { assert (E : fst (parse_pdf_to_xml default_parser env_unavailable paper
                       empty_world) = Return None) by reflexivity.
    rewrite H in E. simpl in E. congruence. }
  exists l. split; [now rewrite H, Hx | exact (Hnone Hx)].
Defined.

(** ** The abstract is part of the text *)

Section AbstractWithinText.

Lemma split_not_nil sep s : PyStr.split sep s <> [].
Proof.
  destruct s as [|c s]; simpl; [discriminate|].
  destruct (Ascii.eqb c sep); [discriminate|].
  destruct (PyStr.split sep s); discriminate.
Qed.

Lemma join_split sep s :
  PyStr.join (String sep "") (PyStr.split sep s) = s.
Proof.
  induction s as [|c s IH]; [reflexivity|]. simpl.
  pose proof (split_not_nil sep s) as Hne.
  destruct (PyStr.split sep s) as [|h t] eqn:E; [congruence|].
  destruct (Ascii.eqb_spec c sep) as [->|Hc].
  - change (PyStr.join (String sep "") ("" :: h :: t))
      with ("" +:+ String sep "" +:+ PyStr.join (String sep "") (h :: t)).
    now rewrite IH.
  - destruct t as [|h' t'].
    + simpl in *. now rewrite IH.
    + change (PyStr.join (String sep "") (String c h :: h' :: t'))
        with (String c (h +:+ String sep ""
                          +:+ PyStr.join (String sep "") (h' :: t'))).
      now rewrite <- IH.
Qed.

Lemma lstrip_append_blank a y :
  all_space a = true -> PyStr.lstrip (a +:+ y) = PyStr.lstrip y.
Proof.
  induction a as [|c a IH]; [reflexivity|]. intros H. simpl in H.
  apply andb_prop in H as [Hc Ha]. rewrite append_cons. simpl.
  rewrite Hc. now apply IH.
Qed.

Lemma lstrip_append_text a y :
  all_space a = false -> PyStr.lstrip (a +:+ y) = PyStr.lstrip a +:+ y.
Proof.
  induction a as [|c a IH]; [discriminate|]. intros H. simpl in H.
  rewrite append_cons. simpl.
  destruct (PyStr.isspace c); simpl in H; [now apply IH|].
  now rewrite append_cons.
Qed.

Lemma rstrip_append_blank x b :
  all_space b = true -> PyStr.rstrip (x +:+ b) = PyStr.rstrip x.
Proof.
  intros Hb. induction x as [|c x IH].
  - simpl. now apply rstrip_nil.
  - rewrite append_cons. simpl. now rewrite IH.
Qed.

Lemma rstrip_append_text x b :
  all_space b = false -> PyStr.rstrip (x +:+ b) = x +:+ PyStr.rstrip b.
Proof.
  intros Hb. induction x as [|c x IH]; [reflexivity|].
  rewrite !append_cons. simpl. rewrite IH.
  destruct (x +:+ PyStr.rstrip b) eqn:E; [|reflexivity].
  exfalso. destruct x; [|discriminate]. simpl in E.
  apply rstrip_nil in E. congruence.
Qed.

Lemma all_space_strip s : all_space (PyStr.strip s) = all_space s.
Proof.
  destruct (all_space s) eqn:E.
  - apply strip_nil in E. now rewrite E.
  - destruct (all_space (PyStr.strip s)) eqn:E'; [|reflexivity].
    apply strip_nil in E'. rewrite strip_strip in E'.
    apply strip_nil in E'. congruence.
Qed.

Lemma strip_length_zero s :
  String.length (PyStr.strip s) = 0 <-> all_space s = true.
Proof.
  rewrite <- strip_nil. destruct (PyStr.strip s); simpl; split;
    congruence || discriminate.
Qed.

Lemma strip_le_rstrip b :
  String.length (PyStr.strip b) <= String.length (PyStr.rstrip b).
Proof.
  unfold PyStr.strip. induction b as [|c b IH]; [reflexivity|].
  cbn [PyStr.lstrip]. destruct (PyStr.isspace c); [|reflexivity].
  cbn [PyStr.rstrip]. destruct (PyStr.rstrip b); simpl in *; lia.
Qed.

(** The stripped length of two parts around a separator of whitespace. *)
Lemma strip_length_around a c b :
  all_space c = true ->
  String.length (PyStr.strip (a +:+ c +:+ b)) >=
  match String.length (PyStr.strip a), String.length (PyStr.strip b) with
  | 0, n => n
  | S m, 0 => S m
  | S m, S n => S m + String.length c + S n
  end.
Proof.
  intros Hc.
  destruct (all_space a) eqn:Ea.
  - rewrite (proj2 (strip_length_zero a) Ea).
    unfold PyStr.strip at 1.
    rewrite (lstrip_append_blank a _ Ea), (lstrip_append_blank c _ Hc).
    fold (PyStr.strip b). lia.
  - assert (Ha : String.length (PyStr.strip a) <> 0)
      by (rewrite strip_length_zero; congruence).
    destruct (String.length (PyStr.strip a)) as [|m] eqn:Em; [congruence|].
    unfold PyStr.strip at 1. rewrite (lstrip_append_text a _ Ea).
    destruct (all_space b) eqn:Eb.
    + rewrite (proj2 (strip_length_zero b) Eb).
      rewrite (rstrip_append_blank (PyStr.lstrip a) (c +:+ b))
        by (now rewrite all_space_append, Hc, Eb).
      fold (PyStr.strip a). rewrite Em. lia.
    + assert (Hb : String.length (PyStr.strip b) <> 0)
        by (rewrite strip_length_zero; congruence).
      destruct (String.length (PyStr.strip b)) as [|n] eqn:En; [congruence|].
      rewrite <- !append_assoc, rstrip_append_text by exact Eb.
      rewrite !length_append.
      pose proof (rstrip_length (PyStr.lstrip a)) as H1.
      fold (PyStr.strip a) in H1. rewrite Em in H1.
      pose proof (strip_le_rstrip b) as H2.
      rewrite En in H2. lia.
Qed.

Lemma span_blank lines :
  span lines = 0 -> all_space (PyStr.join (String PyStr.LF "") lines) = true.
Proof.
  induction lines as [|l rest IH]; [reflexivity|]. simpl.
  destruct (String.length (PyStr.strip l)) eqn:E;
    [|destruct (span rest); discriminate].
  intros H. apply strip_length_zero in E.
  destruct rest as [|l' rest']; [exact E|].
  change (PyStr.join (String PyStr.LF "") (l :: l' :: rest'))
    with (l +:+ String PyStr.LF ""
            +:+ PyStr.join (String PyStr.LF "") (l' :: rest')).
  rewrite !all_space_append, E, (IH H). reflexivity.
Qed.

(** The joined lines, stripped, are at least as long as their span. *)
Lemma span_le_joined lines :
  span lines <=
  String.length (PyStr.strip (PyStr.join (String PyStr.LF "") lines)).
Proof.
  induction lines as [|l rest IH]; [simpl; lia|].
  destruct rest as [|l' rest'].
  - simpl. destruct (String.length (PyStr.strip l)); lia.
  - change (PyStr.join (String PyStr.LF "") (l :: l' :: rest'))
      with (l +:+ String PyStr.LF ""
              +:+ PyStr.join (String PyStr.LF "") (l' :: rest')).
    pose proof (strip_length_around l (String PyStr.LF "")
                  (PyStr.join (String PyStr.LF "") (l' :: rest')) eq_refl) as H.
    change (span (l :: l' :: rest'))
      with (match String.length (PyStr.strip l), span (l' :: rest') with
            | 0, n => n
            | S m, 0 => S m
            | S m, S n => S m + 1 + S n
            end).
    change (String.length (String PyStr.LF "")) with 1 in H.
    set (J := PyStr.join (String PyStr.LF "") (l' :: rest')) in *.
    set (sp := span (l' :: rest')) in *.
    destruct (String.length (PyStr.strip l)) as [|m];
      destruct sp as [|n];
      destruct (String.length (PyStr.strip J)) as [|n']; lia.
Qed.

Lemma span_tail l rest : span rest <= span (l :: rest).
Proof.
  simpl. destruct (String.length (PyStr.strip l)), (span rest); lia.
Qed.

Lemma span_take n lines : span (take n lines) <= span lines.
Proof.
  revert n. induction lines as [|l rest IH]; intros [|n]; simpl; try lia.
  specialize (IH n).
  destruct (String.length (PyStr.strip l)); [exact IH|].
  destruct (span (take n rest)), (span rest); lia.
Qed.

Lemma buffer_of_length_span lines : forall k,
  String.length (buffer_of (take k (qualifying lines))) = 0 \/
  (2 <= String.length (buffer_of (take k (qualifying lines)))
   /\ String.length (buffer_of (take k (qualifying lines))) <= span lines + 1).
Proof.
  unfold qualifying. induction lines as [|l rest IH]; intros k.
  - left. now destruct k.
  - cbn [map List.filter span].
    destruct (PyStr.truthy (PyStr.strip l)
              && (50 <? String.length (PyStr.strip l))) eqn:Hq.
    + destruct k as [|k]; [now left|]. right.
      cbn [take firstn buffer_of]. rewrite !length_append.
      change (String.length " ") with 1.
      apply andb_prop in Hq as [_ Hq]. apply Nat.ltb_lt in Hq.
      destruct (String.length (PyStr.strip l)) as [|m]; [lia|].
      destruct (IH k) as [H0|[H2 Hle]].
      * rewrite H0. destruct (span rest); lia.
      * destruct (span rest); lia.
    + destruct (IH k) as [H0|[H2 Hle]]; [now left|]. right.
      split; [exact H2|].
      destruct (String.length (PyStr.strip l)); [exact Hle|].
      destruct (span rest); lia.
Qed.

(** X17. The abstract of the heuristic path is never longer than its
    full text. *)
Theorem heuristic_abstract_fits_in_text (env : Env) (p : Path) (w : World)
    (d : ExtractedData) :
  outcome (extract_text_with_pymupdf env p) w = Return d ->
  String.length (abstract d) <= String.length (full_text d).
Proof.
  unfold extract_text_with_pymupdf. run_monad.
  destruct (fitz_open env p) as [doc|e]; [|intros [= <-]; simpl; lia].
  rewrite page_loop_run.
  destruct (read_pages doc) as [texts|e]; [|intros [= <-]; simpl; lia].
  intros [= <-]. simpl. rewrite append_nil_l.
  set (T := pages_text texts). set (lines := PyStr.split PyStr.LF T).
  destruct (abstract_loop_run (take 20 lines) "") as (k & _ & E & _);
    [simpl; lia|].
  rewrite append_nil_l in E. rewrite E.
  destruct (take k (qualifying (take 20 lines))) as [|q qs] eqn:Eq;
    [simpl; lia|].
  pose proof (buffer_of_length_span (take 20 lines) k) as Hb.
  rewrite Eq in Hb.
  assert (Hs : String.length (PyStr.strip (buffer_of (q :: qs))) + 1
               <= String.length (buffer_of (q :: qs))).
  { assert (Hlast : exists body, buffer_of (q :: qs) = body +:+ " ").
    { clear. revert q. induction qs as [|q' qs IH]; intros q.
      - exists q. simpl. reflexivity.
      - destruct (IH q') as (body & Hbody). exists (q +:+ " " +:+ body).
        simpl in *. rewrite Hbody. now rewrite !append_assoc. }
    destruct Hlast as (body & ->).
    pose proof (strip_append_space_length body).
    rewrite length_append. simpl. lia. }
  pose proof (span_take 20 lines).
  pose proof (span_le_joined lines) as Hj.
  unfold lines in Hj at 2. rewrite join_split in Hj. lia.
Qed.

End AbstractWithinText.

Lemma heuristic_abstract_fits_in_text_witness :
  exists d,
    outcome (extract_text_with_pymupdf (env_of_pages [eighty; eighty]) paper)
            empty_world = Return d /\
    String.length (abstract d) <= String.length (full_text d).
Proof.
  eexists. split; [vm_compute; reflexivity|].
  match goal with
  | |- String.length (abstract ?d) <= _ =>
      exact (heuristic_abstract_fits_in_text (env_of_pages [eighty; eighty])
               paper empty_world d eq_refl)
  end.
Defined.
